(** * Bluetooth LE audio control services: control points, set lock, ASE responses

    A shallow embedding of the control-point write handlers of the Volume
    Control Service (vcs.c), the Volume Offset Control Service (vocs.c) and the
    Audio Input Control Service (aics.c), of the set-lock engine of the
    Coordinated Set Identification Service (csis.c), of the control-point
    response buffer of the Audio Stream Control Service (ascs.c) and of the
    write/re-read/retry callbacks of the AICS, VCS and VOCS clients
    (aics_client.c, vcs_client.c).

    Conventions.  C integers are [Z]; a value stored in a [uint8_t] is reduced
    with [uint8], an [int8_t] or [int16_t] is read with [int8] / [int16_le].
    Static instance structures become records that the handlers take and
    return.  Calls into the GATT layer and into application callbacks are
    recorded, in program order, in a list of events returned next to the new
    state. *)

From Stdlib Require Import ZArith List Bool Lia ZifyBool.
Import ListNotations.
Local Open Scope Z_scope.

(** ** Machine integers and the raw write buffer *)

Definition uint8 (z : Z) : Z := z mod 256.

Definition int8 (z : Z) : Z :=
  let u := z mod 256 in if u <? 128 then u else u - 256.

(** A [const void *buf] is the memory that starts at the pointer: the byte at
    [buf[i]] for every index [i].  The handlers cast it to a packed structure
    and read fields at fixed indices whatever [len] says, so the view is not
    cut at [len]. *)
Definition memory := nat -> Z.

Definition rd8 (m : memory) (i : nat) : Z := uint8 (m i).

(** [int16_t] field of a packed structure at index [i], as a little-endian
    host reads it; on such a host [sys_le16_to_cpu] and [sys_cpu_to_le16] are
    the identity. *)
Definition int16_le (m : memory) (i : nat) : Z :=
  let u := rd8 m i + 256 * rd8 m (S i) in
  if u <? 32768 then u else u - 65536.

Definition sys_le16_to_cpu (v : Z) : Z := v.

Definition mem_of (l : list Z) : memory := fun i => nth i l 0.

(** The arguments of a GATT write handler that the handlers look at:
    [buf] ([None] is the null pointer), [len] and [offset]. *)
Record att_write := mk_write {
  buf : option memory;
  len : Z;
  offset : Z
}.

(** Modelled from the spec: bluetooth/att.h and bluetooth/gatt.h are not among
    the sources; section 7 of the specification lists Invalid Offset, Invalid
    Attribute Length and Unlikely as standard ATT-layer errors, whose values
    are those of the Bluetooth Core Specification, and [BT_GATT_ERR] turns an
    ATT error into the negative return value of a handler. *)
Definition BT_ATT_ERR_NOT_SUPPORTED : Z := 0x06.
Definition BT_ATT_ERR_INVALID_OFFSET : Z := 0x07.
Definition BT_ATT_ERR_INVALID_ATTRIBUTE_LEN : Z := 0x0d.
Definition BT_ATT_ERR_UNLIKELY : Z := 0x0e.
Definition BT_GATT_ERR (att_err : Z) : Z := - att_err.

Definition UINT8_MAX : Z := 255.

(** errno.h of the C library; the code below only tests these for being
    non-zero or negative. *)
Definition EBUSY : Z := 16.
Definition EINVAL : Z := 22.
Definition EOPNOTSUPP : Z := 95.
Definition ENOTCONN : Z := 128.

(** An application callback is known by the address stored in the callback
    structure; [None] is a null function pointer. *)
Definition callback := nat.

(** * VCS server (vcs.c, vcs_internal.h) *)

Module Vcs.

Definition VCS_OPCODE_REL_VOL_DOWN : Z := 0x00.
Definition VCS_OPCODE_REL_VOL_UP : Z := 0x01.
Definition VCS_OPCODE_UNMUTE_REL_VOL_DOWN : Z := 0x02.
Definition VCS_OPCODE_UNMUTE_REL_VOL_UP : Z := 0x03.
Definition VCS_OPCODE_SET_ABS_VOL : Z := 0x04.
Definition VCS_OPCODE_UNMUTE : Z := 0x05.
Definition VCS_OPCODE_MUTE : Z := 0x06.

Definition VCS_ERR_INVALID_COUNTER : Z := 0x80.
Definition VCS_ERR_OP_NOT_SUPPORTED : Z := 0x81.

Definition VCS_CP_LEN : Z := 0x02.
Definition VCS_CP_ABS_VOL_LEN : Z := 0x03.

Record vcs_state_t := mk_state {
  volume : Z;
  mute : Z;
  change_counter : Z
}.

(** [struct vcs_control_t] laid over the write buffer. *)
Definition cp_opcode (m : memory) : Z := rd8 m 0.
Definition cp_counter (m : memory) : Z := rd8 m 1.
Definition cp_volume (m : memory) : Z := rd8 m 2.

(** The two members of [struct bt_vcs_cb_t] the server uses. *)
Record bt_vcs_cb_t := mk_cb {
  cb_state : option callback;
  cb_flags : option callback
}.

Record vcs_inst_t := mk_inst {
  state : vcs_state_t;
  flags : Z;
  cb : option bt_vcs_cb_t;
  volume_step : Z
}.

(** [static struct vcs_inst_t vcs_inst = { .state.volume = 100, .volume_step = 1 }] *)
Definition vcs_inst : vcs_inst_t :=
  {| state := {| volume := 100; mute := 0; change_counter := 0 |};
     flags := 0;
     cb := None;
     volume_step := 1 |}.

Inductive uuid := BT_UUID_VCS_STATE | BT_UUID_VCS_FLAGS.

Inductive event :=
| Notify (u : uuid) (value : list Z)
| CallState (f : callback) (vol mt : Z)
| CallFlags (f : callback) (fl : Z).

(** What a handler does: it returns [ret], or it calls through a null
    function pointer, after which nothing is defined; both carry the instance
    and the events up to that point. *)
Inductive outcome :=
| Return (ret : Z) (inst : vcs_inst_t) (evs : list event)
| NullCall (inst : vcs_inst_t) (evs : list event).

Definition out_inst (o : outcome) : vcs_inst_t :=
  match o with Return _ i _ => i | NullCall i _ => i end.

Definition out_events (o : outcome) : list event :=
  match o with Return _ _ e => e | NullCall _ e => e end.

Definition out_ret (o : outcome) : option Z :=
  match o with Return r _ _ => Some r | NullCall _ _ => None end.

Definition VOLUME_DOWN (step current_vol : Z) : Z :=
  uint8 (Z.max 0 (current_vol - step)).

Definition VOLUME_UP (step current_vol : Z) : Z :=
  uint8 (Z.min UINT8_MAX (current_vol + step)).

Definition VALID_VCS_OPCODE (opcode : Z) : bool :=
  (VCS_OPCODE_REL_VOL_DOWN <=? opcode) && (opcode <=? VCS_OPCODE_MUTE).

Definition set_volume (s : vcs_state_t) (v : Z) : vcs_state_t :=
  {| volume := v; mute := mute s; change_counter := change_counter s |}.

Definition set_mute (s : vcs_state_t) (v : Z) : vcs_state_t :=
  {| volume := volume s; mute := v; change_counter := change_counter s |}.

Definition bump_counter (s : vcs_state_t) : vcs_state_t :=
  {| volume := volume s; mute := mute s;
     change_counter := uint8 (change_counter s + 1) |}.

(** The locals of [write_vcs_control] that the switch assigns. *)
Record switch_result := mk_switch {
  sw_state : vcs_state_t;
  sw_notify : bool;
  sw_volume_change : bool
}.

Definition vol_down (step : Z) (r : switch_result) : switch_result :=
  if negb (volume (sw_state r) =? 0)
  then {| sw_state := set_volume (sw_state r) (VOLUME_DOWN step (volume (sw_state r)));
          sw_notify := true; sw_volume_change := sw_volume_change r |}
  else r.

Definition vol_up (step : Z) (r : switch_result) : switch_result :=
  if negb (volume (sw_state r) =? UINT8_MAX)
  then {| sw_state := set_volume (sw_state r) (VOLUME_UP step (volume (sw_state r)));
          sw_notify := true; sw_volume_change := sw_volume_change r |}
  else r.

Definition unmute (r : switch_result) : switch_result :=
  if negb (mute (sw_state r) =? 0)
  then {| sw_state := set_mute (sw_state r) 0;
          sw_notify := true; sw_volume_change := sw_volume_change r |}
  else r.

Definition volume_changed (r : switch_result) : switch_result :=
  {| sw_state := sw_state r; sw_notify := sw_notify r; sw_volume_change := true |}.

(** The [switch (cp->opcode)] of [write_vcs_control]; [None] is its
    [default:] branch. *)
Definition vcs_switch (step : Z) (s : vcs_state_t) (m : memory)
  : option switch_result :=
  let r0 := {| sw_state := s; sw_notify := false; sw_volume_change := false |} in
  let op := cp_opcode m in
  if op =? VCS_OPCODE_REL_VOL_DOWN then
    Some (volume_changed (vol_down step r0))
  else if op =? VCS_OPCODE_REL_VOL_UP then
    Some (volume_changed (vol_up step r0))
  else if op =? VCS_OPCODE_UNMUTE_REL_VOL_DOWN then
    Some (volume_changed (unmute (vol_down step r0)))
  else if op =? VCS_OPCODE_UNMUTE_REL_VOL_UP then
    Some (volume_changed (unmute (vol_up step r0)))
  else if op =? VCS_OPCODE_SET_ABS_VOL then
    Some (volume_changed
            (if negb (volume s =? cp_volume m)
             then {| sw_state := set_volume s (cp_volume m);
                     sw_notify := true; sw_volume_change := false |}
             else r0))
  else if op =? VCS_OPCODE_UNMUTE then
    Some (unmute r0)
  else if op =? VCS_OPCODE_MUTE then
    Some (if mute s =? 0
          then {| sw_state := set_mute s 1;
                  sw_notify := true; sw_volume_change := false |}
          else r0)
  else None.

Definition state_bytes (s : vcs_state_t) : list Z :=
  [volume s; mute s; change_counter s].

(** [if (vcs_inst.cb && vcs_inst.cb->state)] *)
Definition cb_and_state (c : option bt_vcs_cb_t) : option (bt_vcs_cb_t * callback) :=
  match c with
  | Some c' => match cb_state c' with Some f => Some (c', f) | None => None end
  | None => None
  end.

(** The [if (notify)] block. *)
Definition commit_state (inst : vcs_inst_t) (r : switch_result)
  : vcs_inst_t * list event :=
  if sw_notify r then
    let s' := bump_counter (sw_state r) in
    ({| state := s'; flags := flags inst; cb := cb inst;
        volume_step := volume_step inst |},
     Notify BT_UUID_VCS_STATE (state_bytes s')
       :: match cb_and_state (cb inst) with
          | Some (_, f) => [CallState f (volume s') (mute s')]
          | None => []
          end)
  else
    ({| state := sw_state r; flags := flags inst; cb := cb inst;
        volume_step := volume_step inst |}, []).

(** The [if (volume_change && !vcs_inst.flags)] block and the final
    [return len]. *)
Definition latch_flags (ret : Z) (inst : vcs_inst_t) (evs : list event)
  (volume_change : bool) : outcome :=
  if volume_change && (flags inst =? 0) then
    let inst' := {| state := state inst; flags := 1; cb := cb inst;
                    volume_step := volume_step inst |} in
    let evs' := evs ++ [Notify BT_UUID_VCS_FLAGS [1]] in
    match cb_and_state (cb inst) with
    | Some (c, _) =>
        match cb_flags c with
        | Some g => Return ret inst' (evs' ++ [CallFlags g 1])
        | None => NullCall inst' evs'
        end
    | None => Return ret inst' evs'
    end
  else Return ret inst evs.

Definition bad_length (l : Z) (m : memory) : bool :=
  (l <? VCS_CP_LEN)
  || ((l =? VCS_CP_ABS_VOL_LEN) && negb (cp_opcode m =? VCS_OPCODE_SET_ABS_VOL))
  || (l >? VCS_CP_ABS_VOL_LEN).

Definition write_vcs_control (inst : vcs_inst_t) (w : att_write) : outcome :=
  if negb (offset w =? 0) then
    Return (BT_GATT_ERR BT_ATT_ERR_INVALID_OFFSET) inst []
  else if len w =? 0 then
    Return (BT_GATT_ERR BT_ATT_ERR_INVALID_ATTRIBUTE_LEN) inst []
  else match buf w with
  | None => Return (BT_GATT_ERR BT_ATT_ERR_INVALID_ATTRIBUTE_LEN) inst []
  | Some m =>
    if negb (VALID_VCS_OPCODE (cp_opcode m)) then
      Return (BT_GATT_ERR VCS_ERR_OP_NOT_SUPPORTED) inst []
    else if bad_length (len w) m then
      Return (BT_GATT_ERR BT_ATT_ERR_INVALID_ATTRIBUTE_LEN) inst []
    else if negb (cp_counter m =? change_counter (state inst)) then
      Return (BT_GATT_ERR VCS_ERR_INVALID_COUNTER) inst []
    else match vcs_switch (volume_step inst) (state inst) m with
    | None => Return (BT_GATT_ERR VCS_ERR_OP_NOT_SUPPORTED) inst []
    | Some r =>
        let '(inst1, evs1) := commit_state inst r in
        latch_flags (len w) inst1 evs1 (sw_volume_change r)
    end
  end.

(** [bt_vcs_server_cb_register], as far as the VCS instance goes. *)
Definition bt_vcs_server_cb_register (inst : vcs_inst_t) (c : option bt_vcs_cb_t)
  : vcs_inst_t :=
  {| state := state inst; flags := flags inst; cb := c;
     volume_step := volume_step inst |}.

(** [bt_vcs_volume_step_set] with CONFIG_BT_VCS: the step is stored when it is
    positive, and the function then runs on to [return -EOPNOTSUPP]. *)
Definition bt_vcs_volume_step_set (inst : vcs_inst_t) (step : Z) : Z * vcs_inst_t :=
  if uint8 step >? 0 then
    (- EOPNOTSUPP,
     {| state := state inst; flags := flags inst; cb := cb inst;
        volume_step := uint8 step |})
  else (- EINVAL, inst).

(** [bt_vcs_volume_get] and [bt_vcs_flags_get] on the local server (null
    connection).  Both test [cb && cb->state]; the second then calls
    [cb->flags]. *)
Definition bt_vcs_volume_get (inst : vcs_inst_t) : outcome :=
  match cb_and_state (cb inst) with
  | Some (_, f) =>
      Return 0 inst [CallState f (volume (state inst)) (mute (state inst))]
  | None => Return 0 inst []
  end.

Definition bt_vcs_flags_get (inst : vcs_inst_t) : outcome :=
  match cb_and_state (cb inst) with
  | Some (c, _) =>
      match cb_flags c with
      | Some g => Return 0 inst [CallFlags g (flags inst)]
      | None => NullCall inst []
      end
  | None => Return 0 inst []
  end.

End Vcs.

(** * AICS server (aics.c, aics_internal.h, bluetooth/services/aics.h) *)

Module Aics.

Definition AICS_STATE_UNMUTED : Z := 0x00.
Definition AICS_STATE_MUTED : Z := 0x01.
Definition AICS_STATE_MUTE_DISABLED : Z := 0x02.

Definition AICS_MODE_MANUAL_ONLY : Z := 0x00.
Definition AICS_MODE_AUTO_ONLY : Z := 0x01.
Definition AICS_MODE_MANUAL : Z := 0x02.
Definition AICS_MODE_AUTO : Z := 0x03.

Definition AICS_ERR_INVALID_COUNTER : Z := 0x80.
Definition AICS_ERR_OP_NOT_SUPPORTED : Z := 0x81.
Definition AICS_ERR_MUTE_DISABLED : Z := 0x82.
Definition AICS_ERR_OUT_OF_RANGE : Z := 0x83.
Definition AICS_ERR_GAIN_MODE_NO_SUPPORT : Z := 0x84.

Definition AICS_OPCODE_SET_GAIN : Z := 0x01.
Definition AICS_OPCODE_UNMUTE : Z := 0x02.
Definition AICS_OPCODE_MUTE : Z := 0x03.
Definition AICS_OPCODE_SET_MANUAL : Z := 0x04.
Definition AICS_OPCODE_SET_AUTO : Z := 0x05.

Definition AICS_CP_LEN : Z := 0x02.
Definition AICS_CP_SET_GAIN_LEN : Z := 0x03.

Definition AICS_INPUT_MODE_IMMUTABLE (mode : Z) : bool :=
  (mode =? AICS_MODE_MANUAL_ONLY) || (mode =? AICS_MODE_AUTO_ONLY).

Definition AICS_INPUT_MODE_SETTABLE (mode : Z) : bool :=
  (mode =? AICS_MODE_MANUAL_ONLY) || (mode =? AICS_MODE_MANUAL).

Definition VALID_AICS_OPCODE (opcode : Z) : bool :=
  (AICS_OPCODE_SET_GAIN <=? opcode) && (opcode <=? AICS_OPCODE_SET_AUTO).

(** [gain] is the [int8_t] value, the other members are [uint8_t]. *)
Record aics_state_t := mk_state {
  gain : Z;
  mute : Z;
  mode : Z;
  change_counter : Z
}.

Record aics_gain_settings_t := mk_gain_settings {
  units : Z;
  minimum : Z;
  maximum : Z
}.

(** The member of [struct bt_aics_cb] that the control point calls. *)
Record bt_aics_cb := mk_cb {
  cb_state : option callback
}.

Record bt_aics := mk_aics {
  state : aics_state_t;
  gain_settings : aics_gain_settings_t;
  initialized : bool;
  type : Z;
  status : Z;
  index : Z;
  cb : option bt_aics_cb
}.

(** [struct aics_gain_control_t] laid over the write buffer. *)
Definition cp_opcode (m : memory) : Z := rd8 m 0.
Definition cp_counter (m : memory) : Z := rd8 m 1.
Definition cp_gain_setting (m : memory) : Z := int8 (m 2%nat).

Inductive event :=
| NotifyState (value : list Z)
| CallState (f : callback) (idx : Z) (g mt md : Z).

Definition with_state (inst : bt_aics) (s : aics_state_t) : bt_aics :=
  {| state := s; gain_settings := gain_settings inst;
     initialized := initialized inst; type := type inst;
     status := status inst; index := index inst; cb := cb inst |}.

Definition set_gain (s : aics_state_t) (v : Z) : aics_state_t :=
  {| gain := v; mute := mute s; mode := mode s;
     change_counter := change_counter s |}.

Definition set_mute (s : aics_state_t) (v : Z) : aics_state_t :=
  {| gain := gain s; mute := v; mode := mode s;
     change_counter := change_counter s |}.

Definition set_mode (s : aics_state_t) (v : Z) : aics_state_t :=
  {| gain := gain s; mute := mute s; mode := v;
     change_counter := change_counter s |}.

Definition bump_counter (s : aics_state_t) : aics_state_t :=
  {| gain := gain s; mute := mute s; mode := mode s;
     change_counter := uint8 (change_counter s + 1) |}.

Definition state_bytes (s : aics_state_t) : list Z :=
  [uint8 (gain s); mute s; mode s; change_counter s].

(** Result of the [switch (cp->cp.opcode)]: an early error return, or the
    state after the case together with the local [notify]. *)
Inductive switch_result :=
| SwErr (att_err : Z)
| SwOk (s : aics_state_t) (notify : bool).

Definition aics_switch (inst : bt_aics) (m : memory) : switch_result :=
  let s := state inst in
  let op := cp_opcode m in
  if op =? AICS_OPCODE_SET_GAIN then
    if (cp_gain_setting m <? minimum (gain_settings inst))
       || (cp_gain_setting m >? maximum (gain_settings inst))
    then SwErr AICS_ERR_OUT_OF_RANGE
    else if AICS_INPUT_MODE_SETTABLE (mode s)
            && negb (gain s =? cp_gain_setting m)
    then SwOk (set_gain s (cp_gain_setting m)) true
    else SwOk s false
  else if op =? AICS_OPCODE_UNMUTE then
    if mute s =? AICS_STATE_MUTE_DISABLED then SwErr AICS_ERR_MUTE_DISABLED
    else if negb (mute s =? AICS_STATE_UNMUTED)
    then SwOk (set_mute s AICS_STATE_UNMUTED) true
    else SwOk s false
  else if op =? AICS_OPCODE_MUTE then
    if mute s =? AICS_STATE_MUTE_DISABLED then SwErr AICS_ERR_MUTE_DISABLED
    else if negb (mute s =? AICS_STATE_MUTED)
    then SwOk (set_mute s AICS_STATE_MUTED) true
    else SwOk s false
  else if op =? AICS_OPCODE_SET_MANUAL then
    if AICS_INPUT_MODE_IMMUTABLE (mode s)
    then SwErr AICS_ERR_GAIN_MODE_NO_SUPPORT
    else if negb (mode s =? AICS_MODE_MANUAL)
    then SwOk (set_mode s AICS_MODE_MANUAL) true
    else SwOk s false
  else if op =? AICS_OPCODE_SET_AUTO then
    if AICS_INPUT_MODE_IMMUTABLE (mode s)
    then SwErr AICS_ERR_GAIN_MODE_NO_SUPPORT
    else if negb (mode s =? AICS_MODE_AUTO)
    then SwOk (set_mode s AICS_MODE_AUTO) true
    else SwOk s false
  else SwErr AICS_ERR_OP_NOT_SUPPORTED.

Definition bad_length (l : Z) (m : memory) : bool :=
  (l <? AICS_CP_LEN)
  || ((l =? AICS_CP_SET_GAIN_LEN) && negb (cp_opcode m =? AICS_OPCODE_SET_GAIN))
  || (l >? AICS_CP_SET_GAIN_LEN).

Definition write_aics_control (inst : bt_aics) (w : att_write)
  : Z * bt_aics * list event :=
  if negb (offset w =? 0) then
    (BT_GATT_ERR BT_ATT_ERR_INVALID_OFFSET, inst, [])
  else if len w =? 0 then
    (BT_GATT_ERR BT_ATT_ERR_INVALID_ATTRIBUTE_LEN, inst, [])
  else match buf w with
  | None => (BT_GATT_ERR BT_ATT_ERR_INVALID_ATTRIBUTE_LEN, inst, [])
  | Some m =>
    if negb (VALID_AICS_OPCODE (cp_opcode m)) then
      (BT_GATT_ERR AICS_ERR_OP_NOT_SUPPORTED, inst, [])
    else if bad_length (len w) m then
      (BT_GATT_ERR BT_ATT_ERR_INVALID_ATTRIBUTE_LEN, inst, [])
    else if negb (cp_counter m =? change_counter (state inst)) then
      (BT_GATT_ERR AICS_ERR_INVALID_COUNTER, inst, [])
    else match aics_switch inst m with
    | SwErr e => (BT_GATT_ERR e, inst, [])
    | SwOk s true =>
        let s' := bump_counter s in
        (len w, with_state inst s',
         NotifyState (state_bytes s')
           :: match cb inst with
              | Some c =>
                  match cb_state c with
                  | Some f => [CallState f (index inst) (gain s') (mute s') (mode s')]
                  | None => []
                  end
              | None => []
              end)
    | SwOk s false => (len w, with_state inst s, [])
    end
  end.

End Aics.

(** * VOCS server (vocs.c, bluetooth/services/vocs.h) *)

Module Vocs.

Definition VOCS_ERR_INVALID_COUNTER : Z := 0x80.
Definition VOCS_ERR_OP_NOT_SUPPORTED : Z := 0x81.
Definition VOCS_ERR_OUT_OF_RANGE : Z := 0x82.

Definition VOCS_MIN_OFFSET : Z := -255.
Definition VOCS_MAX_OFFSET : Z := 255.

(** vocs_internal.h: the opcode, and [struct vocs_control_t] (u8 opcode, u8
    counter, s16 offset, packed) laid over the write buffer. *)
Definition VOCS_OPCODE_SET_OFFSET : Z := 0x01.
Definition sizeof_vocs_control_t : Z := 4.
Definition cp_opcode (m : memory) : Z := rd8 m 0.
Definition cp_counter (m : memory) : Z := rd8 m 1.
Definition cp_offset (m : memory) : Z := int16_le m 2.

(** [struct vocs_state_t]; the member [offset] is written [offset_] here,
    [offset] being the ATT offset of a write. *)
Record vocs_state_t := mk_state {
  offset_ : Z;
  change_counter : Z
}.

(** The member of [struct bt_vocs_cb] that the control point calls. *)
Record bt_vocs_cb := mk_cb {
  cb_state : option callback
}.

Record bt_vocs := mk_vocs {
  state : vocs_state_t;
  location : Z;
  index : Z;
  initialized : bool;
  output_desc : list Z;
  cb : option bt_vocs_cb
}.

Inductive event :=
| NotifyState (value : list Z)
| CallState (f : callback) (idx : Z) (off : Z).

Definition VALID_VOCS_OPCODE (opcode : Z) : bool :=
  opcode =? VOCS_OPCODE_SET_OFFSET.

Definition with_state (inst : bt_vocs) (s : vocs_state_t) : bt_vocs :=
  {| state := s; location := location inst; index := index inst;
     initialized := initialized inst; output_desc := output_desc inst;
     cb := cb inst |}.

Definition state_bytes (s : vocs_state_t) : list Z :=
  [(offset_ s) mod 256; ((offset_ s) mod 65536) / 256; change_counter s].

Definition write_vocs_control (inst : bt_vocs) (w : att_write)
  : Z * bt_vocs * list event :=
  if len w =? 0 then
    (BT_GATT_ERR BT_ATT_ERR_INVALID_ATTRIBUTE_LEN, inst, [])
  else match buf w with
  | None => (BT_GATT_ERR BT_ATT_ERR_INVALID_ATTRIBUTE_LEN, inst, [])
  | Some m =>
    if negb (VALID_VOCS_OPCODE (cp_opcode m)) then
      (BT_GATT_ERR VOCS_ERR_OP_NOT_SUPPORTED, inst, [])
    else if negb (offset w =? 0) then
      (BT_GATT_ERR BT_ATT_ERR_INVALID_OFFSET, inst, [])
    else if negb (len w =? sizeof_vocs_control_t) then
      (BT_GATT_ERR BT_ATT_ERR_INVALID_ATTRIBUTE_LEN, inst, [])
    else if negb (cp_counter m =? change_counter (state inst)) then
      (BT_GATT_ERR VOCS_ERR_INVALID_COUNTER, inst, [])
    else if cp_opcode m =? VOCS_OPCODE_SET_OFFSET then
      if (cp_offset m >? UINT8_MAX) || (cp_offset m <? - UINT8_MAX) then
        (BT_GATT_ERR VOCS_ERR_OUT_OF_RANGE, inst, [])
      else if negb (offset_ (state inst) =? sys_le16_to_cpu (cp_offset m)) then
        let s' := {| offset_ := sys_le16_to_cpu (cp_offset m);
                     change_counter := uint8 (change_counter (state inst) + 1) |} in
        (len w, with_state inst s',
         NotifyState (state_bytes s')
           :: match cb inst with
              | Some c =>
                  match cb_state c with
                  | Some f => [CallState f (index inst) (offset_ s')]
                  | None => []
                  end
              | None => []
              end)
      else (len w, inst, [])
    else (BT_GATT_ERR VOCS_ERR_OP_NOT_SUPPORTED, inst, [])
  end.

End Vocs.

(** * CSIS set lock (csis.c) *)

Module Csis.

(** Modelled from the spec: csip.h is not among the sources.  Section 3.4 of
    the specification gives the two values of the set lock, Released = 0x01
    and Locked = 0x02. *)
Definition BT_CSIP_RELEASE_VALUE : Z := 0x01.
Definition BT_CSIP_LOCK_VALUE : Z := 0x02.

(** The errors [write_set_lock] returns through [BT_GATT_ERR]; their byte
    values live in csip.h and att.h and play no part below. *)
Inductive att_error :=
| BT_ATT_ERR_INVALID_OFFSET
| BT_ATT_ERR_INVALID_ATTRIBUTE_LEN
| BT_CSIP_ERROR_LOCK_INVAL_VALUE
| BT_CSIP_ERROR_LOCK_DENIED
| BT_CSIP_ERROR_LOCK_RELEASE_DENIED.

(** [ssize_t] result of the write handler: the length written, or
    [BT_GATT_ERR(e)], which is negative. *)
Inductive ssize_t :=
| Len (n : Z)
| BT_GATT_ERR (e : att_error).

(** [bt_addr_le_t]: address type and 48-bit address; [bt_addr_le_cmp] is a
    [memcmp], so two addresses compare equal when both parts are equal. *)
Record bt_addr_le_t := mk_addr {
  addr_type : Z;
  addr_val : Z
}.

Definition bt_addr_le_eq (a b : bt_addr_le_t) : bool :=
  (addr_type a =? addr_type b) && (addr_val a =? addr_val b).

(** [static bt_addr_le_t server_dummy_addr; /* 0'ed address */] *)
Definition server_dummy_addr : bt_addr_le_t := {| addr_type := 0; addr_val := 0 |}.

(** A connection object: its identity (the pointer) and [bt_conn_get_dst]. *)
Record bt_conn := mk_conn {
  conn_id : nat;
  dst : bt_addr_le_t
}.

Definition same_conn (a b : bt_conn) : bool := Nat.eqb (conn_id a) (conn_id b).

Record csis_pending_notifications_t := mk_pend {
  addr : bt_addr_le_t;
  pending : bool;
  active : bool;
  age : Z
}.

Definition zero_pend : csis_pending_notifications_t :=
  {| addr := server_dummy_addr; pending := false; active := false; age := 0 |}.

(** [struct csis_instance_t], without the keys and the advertising set.
    [set_lock_timer] tells whether the delayed work is pending. *)
Record csis_instance_t := mk_inst {
  set_lock : Z;
  set_lock_timer : bool;
  lock_client_addr : bt_addr_le_t;
  pend_notify : list csis_pending_notifications_t;
  age_counter : Z
}.

Record bt_csis_cb_t := mk_cb {
  locked : option callback
}.

(** The file-scope variables [csis_inst] and [csis_cbs]. *)
Record globals := mk_globals {
  csis_inst : csis_instance_t;
  csis_cbs : option bt_csis_cb_t
}.

(** What the host knows when a handler runs: the connections that
    [bt_conn_foreach] visits and the bonds that [bt_foreach_bond] visits. *)
Record host := mk_host {
  conns : list bt_conn;
  bonds : list bt_addr_le_t
}.

Inductive event :=
| NotifyLock (c : bt_conn) (value : Z)
| CallLocked (f : callback) (c : option bt_conn) (is_locked : bool).

Definition with_inst (g : globals) (i : csis_instance_t) : globals :=
  {| csis_inst := i; csis_cbs := csis_cbs g |}.

Definition with_lock (i : csis_instance_t) (v : Z) : csis_instance_t :=
  {| set_lock := v; set_lock_timer := set_lock_timer i;
     lock_client_addr := lock_client_addr i; pend_notify := pend_notify i;
     age_counter := age_counter i |}.

Definition with_timer (i : csis_instance_t) (t : bool) : csis_instance_t :=
  {| set_lock := set_lock i; set_lock_timer := t;
     lock_client_addr := lock_client_addr i; pend_notify := pend_notify i;
     age_counter := age_counter i |}.

Definition with_addr (i : csis_instance_t) (a : bt_addr_le_t) : csis_instance_t :=
  {| set_lock := set_lock i; set_lock_timer := set_lock_timer i;
     lock_client_addr := a; pend_notify := pend_notify i;
     age_counter := age_counter i |}.

Definition with_pend (i : csis_instance_t) (p : list csis_pending_notifications_t)
  : csis_instance_t :=
  {| set_lock := set_lock i; set_lock_timer := set_lock_timer i;
     lock_client_addr := lock_client_addr i; pend_notify := p;
     age_counter := age_counter i |}.

Definition with_age_counter (i : csis_instance_t) (c : Z) : csis_instance_t :=
  {| set_lock := set_lock i; set_lock_timer := set_lock_timer i;
     lock_client_addr := lock_client_addr i; pend_notify := pend_notify i;
     age_counter := c |}.

(** [is_bonded]: [check_bond] over every bond of the default identity. *)
Definition is_bonded (h : host) (c : bt_conn) : bool :=
  existsb (fun a => bt_addr_le_eq (dst c) a) (bonds h).

Definition is_last_client_to_write (i : csis_instance_t) (c : option bt_conn) : bool :=
  match c with
  | Some c' => bt_addr_le_eq (dst c') (lock_client_addr i)
  | None => bt_addr_le_eq server_dummy_addr (lock_client_addr i)
  end.

(** A loop over [pend_notify] that changes the first entry satisfying [p] and
    breaks. *)
Fixpoint update_first (p : csis_pending_notifications_t -> bool)
  (f : csis_pending_notifications_t -> csis_pending_notifications_t)
  (l : list csis_pending_notifications_t) : list csis_pending_notifications_t :=
  match l with
  | [] => []
  | e :: l' => if p e then f e :: l' else e :: update_first p f l'
  end.

Definition set_pending (e : csis_pending_notifications_t) (b : bool)
  : csis_pending_notifications_t :=
  {| addr := addr e; pending := b; active := active e; age := age e |}.

Definition notify_client (excluded_conn : option bt_conn)
  (acc : csis_instance_t * list event) (c : bt_conn)
  : csis_instance_t * list event :=
  let '(i, evs) := acc in
  let excluded :=
    match excluded_conn with
    | Some x => same_conn c x
    | None => false
    end in
  if excluded then (i, evs)
  else (with_pend i
          (update_first (fun e => pending e && bt_addr_le_eq (dst c) (addr e))
                        (fun e => set_pending e false) (pend_notify i)),
        evs ++ [NotifyLock c (set_lock i)]).

Definition mark_pending (excluded_client : option bt_conn)
  (e : csis_pending_notifications_t) : csis_pending_notifications_t :=
  if active e then
    match excluded_client with
    | Some x => if bt_addr_le_eq (dst x) (addr e) then e else set_pending e true
    | None => set_pending e true
    end
  else e.

Definition notify_clients (h : host) (i : csis_instance_t)
  (excluded_client : option bt_conn) : csis_instance_t * list event :=
  let i1 := with_pend i (map (mark_pending excluded_client) (pend_notify i)) in
  fold_left (notify_client excluded_client) (conns h) (i1, []).

(** [if (csis_cbs && csis_cbs->locked) csis_cbs->locked(conn, locked)] *)
Definition call_locked (g : globals) (c : option bt_conn) (is_locked : bool)
  : list event :=
  match csis_cbs g with
  | Some cbs =>
      match locked cbs with
      | Some f => [CallLocked f c is_locked]
      | None => []
      end
  | None => []
  end.

(** [write_set_lock]; [m] is the write buffer, which [memcpy] reads. *)
Definition write_set_lock (h : host) (g : globals) (conn : option bt_conn)
  (m : memory) (len offset : Z) : ssize_t * globals * list event :=
  if negb (offset =? 0) then (BT_GATT_ERR BT_ATT_ERR_INVALID_OFFSET, g, [])
  else if negb (len =? 1) then (BT_GATT_ERR BT_ATT_ERR_INVALID_ATTRIBUTE_LEN, g, [])
  else
    let val := rd8 m 0 in
    let i := csis_inst g in
    if negb (val =? BT_CSIP_RELEASE_VALUE) && negb (val =? BT_CSIP_LOCK_VALUE) then
      (BT_GATT_ERR BT_CSIP_ERROR_LOCK_INVAL_VALUE, g, [])
    else if (set_lock i =? BT_CSIP_LOCK_VALUE) && (val =? BT_CSIP_LOCK_VALUE) then
      (BT_GATT_ERR BT_CSIP_ERROR_LOCK_DENIED, g, [])
    else if (set_lock i =? BT_CSIP_LOCK_VALUE)
            && negb (is_last_client_to_write i conn) then
      (BT_GATT_ERR BT_CSIP_ERROR_LOCK_RELEASE_DENIED, g, [])
    else
      let notify := negb (set_lock i =? val) in
      let i1 := with_lock i val in
      let i2 :=
        if set_lock i1 =? BT_CSIP_LOCK_VALUE then
          with_timer
            (match conn with
             | Some c => with_addr i1 (dst c)
             | None => i1
             end) true
        else with_timer (with_addr i1 server_dummy_addr) false in
      if notify then
        let '(i3, evs) := notify_clients h i2 conn in
        (Len len, with_inst g i3,
         evs ++ call_locked g conn (set_lock i3 =? BT_CSIP_LOCK_VALUE))
      else (Len len, with_inst g i2, []).

(** [set_lock_timer_handler]: the body that runs when the delayed work
    expires. *)
Definition set_lock_timer_handler (h : host) (g : globals)
  : globals * list event :=
  let i1 := with_lock (csis_inst g) BT_CSIP_RELEASE_VALUE in
  let '(i2, evs) := notify_clients h i1 None in
  (with_inst g i2, evs ++ call_locked g None (set_lock i2 =? BT_CSIP_LOCK_VALUE)).

(** Expiry of the 60-second delayed work: it stops being pending and its
    handler runs. *)
Definition timer_expiry (h : host) (g : globals) : globals * list event :=
  set_lock_timer_handler h (with_inst g (with_timer (csis_inst g) false)).

Definition csis_disconnected (h : host) (g : globals) (conn : bt_conn)
  : globals * list event :=
  if is_bonded h conn then (g, [])
  else
    let '(i1, evs) :=
      if is_last_client_to_write (csis_inst g) (Some conn) then
        let ia := with_lock (with_addr (csis_inst g) server_dummy_addr)
                            BT_CSIP_RELEASE_VALUE in
        let '(ib, evs) := notify_clients h ia None in
        (ib, evs ++ call_locked g (Some conn) (set_lock ib =? BT_CSIP_LOCK_VALUE))
      else (csis_inst g, []) in
    (with_inst g
       (with_pend i1
          (update_first (fun e => bt_addr_le_eq (dst conn) (addr e))
                        (fun _ => zero_pend) (pend_notify i1))),
     evs).

Definition csis_security_changed (h : host) (g : globals) (conn : bt_conn)
  : globals * list event :=
  if negb (is_bonded h conn) then (g, [])
  else
    let i := csis_inst g in
    let hit e := pending e && bt_addr_le_eq (dst conn) (addr e) in
    if existsb hit (pend_notify i) then
      (with_inst g
         (with_pend i (update_first hit (fun e => set_pending e false)
                                    (pend_notify i))),
       [NotifyLock conn (set_lock i)])
    else (g, []).

(** The entry that the search for the oldest one ends on: the first entry of
    smallest [age]. *)
Fixpoint oldest_from (best : nat) (best_age : Z) (k : nat)
  (l : list csis_pending_notifications_t) : nat :=
  match l with
  | [] => best
  | e :: l' =>
      if age e <? best_age then oldest_from k (age e) (S k) l'
      else oldest_from best best_age (S k) l'
  end.

Fixpoint update_nth (n : nat) (f : csis_pending_notifications_t -> csis_pending_notifications_t)
  (l : list csis_pending_notifications_t) : list csis_pending_notifications_t :=
  match l, n with
  | [], _ => []
  | e :: l', O => f e :: l'
  | e :: l', S n' => e :: update_nth n' f l'
  end.

(** [auth_pairing_complete]; [overwrite_oldest] is
    CONFIG_BT_KEYS_OVERWRITE_OLDEST.  Without it the [age] members do not
    exist and are left alone here. *)
Definition auth_pairing_complete (overwrite_oldest : bool) (g : globals)
  (conn : bt_conn) (bonded : bool) : globals :=
  if negb bonded then g
  else
    let i := csis_inst g in
    let stamp e :=
      if overwrite_oldest
      then {| addr := addr e; pending := pending e; active := active e;
              age := age_counter i |}
      else e in
    let next_age :=
      if overwrite_oldest then (age_counter i + 1) mod 2 ^ 32 else age_counter i in
    let known e := active e && bt_addr_le_eq (dst conn) (addr e) in
    let fresh e :=
      stamp {| addr := dst conn; pending := pending e; active := true; age := age e |} in
    if existsb known (pend_notify i) then
      with_inst g (with_age_counter
                     (with_pend i (update_first known stamp (pend_notify i)))
                     next_age)
    else if existsb (fun e => negb (active e)) (pend_notify i) then
      with_inst g (with_age_counter
                     (with_pend i (update_first (fun e => negb (active e)) fresh
                                                (pend_notify i)))
                     next_age)
    else if overwrite_oldest then
      match pend_notify i with
      | [] => g
      | e0 :: rest =>
          let k := oldest_from 0%nat (age e0) 1%nat rest in
          with_inst g (with_age_counter
                         (with_pend i
                            (update_nth k
                               (fun _ => {| addr := dst conn; pending := false;
                                            active := true; age := age_counter i |})
                               (pend_notify i)))
                         next_age)
      end
    else g.

Definition bt_csis_register_cb (g : globals) (c : option bt_csis_cb_t) : globals :=
  {| csis_inst := csis_inst g; csis_cbs := c |}.

(** [bt_csis_lock]: the server's own lock and release; the forged write
    carries a null connection.  The [int] it returns is 0 ([None]) or the
    negative error of the write ([Some e]). *)
Definition bt_csis_lock (h : host) (g : globals) (lock force : bool)
  : option att_error * globals * list event :=
  let lock_val := if lock then BT_CSIP_LOCK_VALUE else BT_CSIP_RELEASE_VALUE in
  if negb lock && force then
    let i1 := with_lock (csis_inst g) BT_CSIP_RELEASE_VALUE in
    let '(i2, evs) := notify_clients h i1 None in
    (None, with_inst g i2, evs ++ call_locked g None false)
  else
    match write_set_lock h g None (mem_of [lock_val]) 1 0 with
    | (Len _, g', evs) => (None, g', evs)
    | (BT_GATT_ERR e, g', evs) => (Some e, g', evs)
    end.

(** The state [bt_csis_init] leaves, for [n] = CONFIG_BT_MAX_PAIRED: the
    zero-initialised [csis_inst] with the lock released, no callbacks. *)
Definition bt_csis_init (n : nat) : globals :=
  {| csis_inst := {| set_lock := BT_CSIP_RELEASE_VALUE;
                     set_lock_timer := false;
                     lock_client_addr := server_dummy_addr;
                     pend_notify := repeat zero_pend n;
                     age_counter := 0 |};
     csis_cbs := None |}.

(** One event of the engine: a write of the set-lock characteristic, the
    server's lock API, the expiry of the lock timer (only when the delayed
    work is pending), a disconnect, a security change, a completed pairing,
    a callback registration. *)
Inductive step (overwrite_oldest : bool) : globals -> globals -> Prop :=
| step_write h g conn m len offset :
    step overwrite_oldest g (snd (fst (write_set_lock h g conn m len offset)))
| step_lock_api h g lock force :
    step overwrite_oldest g (snd (fst (bt_csis_lock h g lock force)))
| step_timer h g :
    set_lock_timer (csis_inst g) = true ->
    step overwrite_oldest g (fst (timer_expiry h g))
| step_disconnected h g conn :
    step overwrite_oldest g (fst (csis_disconnected h g conn))
| step_security_changed h g conn :
    step overwrite_oldest g (fst (csis_security_changed h g conn))
| step_pairing_complete g conn bonded :
    step overwrite_oldest g (auth_pairing_complete overwrite_oldest g conn bonded)
| step_register_cb g c :
    step overwrite_oldest g (bt_csis_register_cb g c).

Inductive reachable (overwrite_oldest : bool) (n : nat) : globals -> Prop :=
| reach_init : reachable overwrite_oldest n (bt_csis_init n)
| reach_step g g' :
    reachable overwrite_oldest n g ->
    step overwrite_oldest g g' ->
    reachable overwrite_oldest n g'.

End Csis.

(** * ASCS control-point response buffer (ascs.c) *)

Module Ascs.

(** The comment in [ascs_cp_rsp_add] gives the two response codes that turn
    Number_of_ASEs into 0xFF: 0x01 and 0x02. *)
Definition BT_ASCS_RSP_SUCCESS : Z := 0x00.
Definition BT_ASCS_RSP_NOT_SUPPORTED : Z := 0x01.
Definition BT_ASCS_RSP_TRUNCATED : Z := 0x02.

(** [struct bt_ascs_cp_ase_rsp] *)
Record bt_ascs_cp_ase_rsp := mk_ase_rsp {
  id : Z;
  code : Z;
  reason : Z
}.

(** [struct bt_ascs_cp_rsp] followed by the ASE responses added after it. *)
Record bt_ascs_cp_rsp := mk_rsp {
  op : Z;
  num_ase : Z;
  ase : list bt_ascs_cp_ase_rsp
}.

(** The static [rsp_buf]: [None] when [rsp_buf.len] is 0, as after
    [net_buf_simple_reset]; otherwise the response header at its start and
    what was added behind it. *)
Definition rsp_buf_t := option bt_ascs_cp_rsp.

Definition net_buf_simple_reset (b : rsp_buf_t) : rsp_buf_t := None.

Definition ascs_cp_rsp_alloc (op_ : Z) : bt_ascs_cp_rsp :=
  {| op := uint8 op_; num_ase := 0; ase := [] |}.

Definition ascs_cp_rsp_add (rsp_buf : rsp_buf_t) (id_ op_ code_ reason_ : Z)
  : rsp_buf_t :=
  let rsp :=
    match rsp_buf with
    | None => ascs_cp_rsp_alloc op_
    | Some r => r
    end in
  if num_ase rsp =? 0xff then Some rsp
  else
    let n :=
      if (uint8 code_ =? BT_ASCS_RSP_NOT_SUPPORTED)
         || (uint8 code_ =? BT_ASCS_RSP_TRUNCATED)
      then 0xff
      else uint8 (num_ase rsp + 1) in
    Some {| op := op rsp; num_ase := n;
            ase := ase rsp ++ [{| id := uint8 id_; code := uint8 code_;
                                  reason := uint8 reason_ |}] |}.

(** One call of [ascs_cp_rsp_add]: its four arguments. *)
Record rsp_call := mk_call {
  call_id : Z;
  call_op : Z;
  call_code : Z;
  call_reason : Z
}.

(** The calls of [ascs_cp_rsp_add] that one control-point write makes, in
    order, on the buffer that [ascs_cp_write] has reset. *)
Definition ascs_cp_rsp_adds (calls : list rsp_call) : rsp_buf_t :=
  fold_left (fun b c => ascs_cp_rsp_add b (call_id c) (call_op c) (call_code c)
                                        (call_reason c))
            calls (net_buf_simple_reset None).

End Ascs.

(** * Client side: what the GATT layer is asked to do and what the application hears *)

(** A [struct bt_conn *] argument of a client function; [None] is NULL. *)
Definition conn_t := option nat.

(** The calls a client function makes, in order: [bt_gatt_write] with the
    handle and the bytes of [write_params] and the value it returned,
    [bt_gatt_read] of a single handle and the value it returned, and a write
    callback of the application with its index and error arguments. *)
Inductive action :=
| GattWrite (handle : Z) (data : list Z) (ret : Z)
| GattRead (handle : Z) (ret : Z)
| WriteCb (f : callback) (idx : Z) (err : Z).

(** [a[i] = x] on an array held as a list. *)
Fixpoint list_set {A : Type} (n : nat) (x : A) (l : list A) : list A :=
  match l, n with
  | [], _ => []
  | _ :: l', O => x :: l'
  | y :: l', S n' => y :: list_set n' x l'
  end.

(** * AICS client (aics_client.c, aics_internal.h) *)

Module AicsClient.

(** The write callbacks of [struct bt_aics_cb]. *)
Record bt_aics_cb := mk_cb {
  set_gain : option callback;
  unmute : option callback;
  mute : option callback;
  set_manual_mode : option callback;
  set_auto_mode : option callback
}.

(** [uint8_t write_buf[sizeof(struct aics_gain_control_t)]] *)
Record write_buf_t := mk_buf {
  b0 : Z;
  b1 : Z;
  b2 : Z
}.

(** [struct aics_instance_t], without the subscription and parameter blocks. *)
Record aics_instance_t := mk_inst {
  change_counter : Z;
  mode : Z;
  start_handle : Z;
  end_handle : Z;
  state_handle : Z;
  control_handle : Z;
  busy : bool;
  index : Z;
  write_buf : write_buf_t;
  cb : option bt_aics_cb
}.

(** [struct aics_instance_t *aics_insts[CONFIG_BT_AICS_CLIENT_MAX_INSTANCE_COUNT]]:
    a slot is [None] when the pointer is null. *)
Definition aics_insts_t := list (option aics_instance_t).

Definition with_busy (i : aics_instance_t) (b : bool) : aics_instance_t :=
  {| change_counter := change_counter i; mode := mode i;
     start_handle := start_handle i; end_handle := end_handle i;
     state_handle := state_handle i; control_handle := control_handle i;
     busy := b; index := index i; write_buf := write_buf i; cb := cb i |}.

Definition with_counter (i : aics_instance_t) (c : Z) : aics_instance_t :=
  {| change_counter := c; mode := mode i;
     start_handle := start_handle i; end_handle := end_handle i;
     state_handle := state_handle i; control_handle := control_handle i;
     busy := busy i; index := index i; write_buf := write_buf i; cb := cb i |}.

Definition with_write_buf (i : aics_instance_t) (w : write_buf_t) : aics_instance_t :=
  {| change_counter := change_counter i; mode := mode i;
     start_handle := start_handle i; end_handle := end_handle i;
     state_handle := state_handle i; control_handle := control_handle i;
     busy := busy i; index := index i; write_buf := w; cb := cb i |}.

Fixpoint lookup_from (k : nat) (l : aics_insts_t) (handle : Z)
  : option (nat * aics_instance_t) :=
  match l with
  | [] => None
  | Some i :: l' =>
      if (start_handle i <=? handle) && (end_handle i >=? handle)
      then Some (k, i)
      else lookup_from (S k) l' handle
  | None :: l' => lookup_from (S k) l' handle
  end.

Definition lookup_aics_by_handle (insts : aics_insts_t) (handle : Z)
  : option (nat * aics_instance_t) :=
  lookup_from 0 insts handle.

Definition aics_cp_notify_app (aics_inst : aics_instance_t) (err : Z) : list action :=
  match cb aics_inst with
  | None => []
  | Some c =>
      let opcode := b0 (write_buf aics_inst) in
      let call (member : option callback) :=
        match member with
        | Some f => [WriteCb f (index aics_inst) err]
        | None => []
        end in
      if opcode =? Aics.AICS_OPCODE_SET_GAIN then call (set_gain c)
      else if opcode =? Aics.AICS_OPCODE_UNMUTE then call (unmute c)
      else if opcode =? Aics.AICS_OPCODE_MUTE then call (mute c)
      else if opcode =? Aics.AICS_OPCODE_SET_MANUAL then call (set_manual_mode c)
      else if opcode =? Aics.AICS_OPCODE_SET_AUTO then call (set_auto_mode c)
      else []
  end.

(** The common beginning of the two write functions: connection, index and
    instance checks.  It yields the errno to return, or the instance. *)
Definition checked_instance (insts : aics_insts_t) (conn : conn_t) (idx : Z)
  : Z + aics_instance_t :=
  match conn with
  | None => inl (- ENOTCONN)
  | Some _ =>
      if idx >=? Z.of_nat (length insts) then inl (- EINVAL)
      else match nth_error insts (Z.to_nat idx) with
           | Some (Some i) =>
               if control_handle i =? 0 then inl (- EINVAL)
               else if busy i then inl (- EBUSY)
               else inr i
           | _ => inl (- EINVAL)
           end
  end.

(** [write_ret] is what [bt_gatt_write] returns when it is called. *)
Definition aics_client_common_control (insts : aics_insts_t) (conn : conn_t)
  (opcode idx : Z) (write_ret : Z) : Z * aics_insts_t * list action :=
  if 0 <? Z.of_nat (length insts) then
    match checked_instance insts conn idx with
    | inl e => (e, insts, [])
    | inr i =>
        let w := {| b0 := uint8 opcode; b1 := change_counter i;
                    b2 := b2 (write_buf i) |} in
        let i1 := with_write_buf i w in
        let i2 := if write_ret =? 0 then with_busy i1 true else i1 in
        (write_ret, list_set (Z.to_nat idx) (Some i2) insts,
         [GattWrite (control_handle i) [b0 w; b1 w] write_ret])
    end
  else (- EOPNOTSUPP, insts, []).

Definition bt_aics_client_gain_set (insts : aics_insts_t) (conn : conn_t)
  (idx gain : Z) (write_ret : Z) : Z * aics_insts_t * list action :=
  if 0 <? Z.of_nat (length insts) then
    match checked_instance insts conn idx with
    | inl e => (e, insts, [])
    | inr i =>
        let w := {| b0 := Aics.AICS_OPCODE_SET_GAIN; b1 := change_counter i;
                    b2 := uint8 gain |} in
        let i1 := with_write_buf i w in
        let i2 := if write_ret =? 0 then with_busy i1 true else i1 in
        (write_ret, list_set (Z.to_nat idx) (Some i2) insts,
         [GattWrite (control_handle i) [b0 w; b1 w; b2 w] write_ret])
    end
  else (- EOPNOTSUPP, insts, []).

(** The end of both callbacks: [aics_inst->busy = false] and
    [aics_cp_notify_app], on the instance that slot [k] points to now. *)
Definition finish (insts : aics_insts_t) (k : nat) (err : Z)
  : aics_insts_t * list action :=
  match nth_error insts k with
  | Some (Some i) =>
      (list_set k (Some (with_busy i false)) insts, aics_cp_notify_app i err)
  | _ => (insts, [])
  end.

Definition sizeof_aics_state_t : Z := 4.

(** [internal_read_input_state_cb]: [handle] is [params->single.handle],
    [data] and [length] are the response ([None] for a null [data]),
    [write_ret] is what [bt_gatt_write] returns if the retry reaches it. *)
Definition internal_read_input_state_cb (insts : aics_insts_t) (conn : conn_t)
  (err : Z) (handle : Z) (data : option memory) (length : Z) (write_ret : Z)
  : aics_insts_t * list action :=
  match lookup_aics_by_handle insts handle with
  | None => (insts, [])
  | Some (k, i) =>
      if negb (err =? 0) then finish insts k BT_ATT_ERR_UNLIKELY
      else match data with
      | None => (insts, [])
      | Some d =>
          if length =? sizeof_aics_state_t then
            let i1 := with_busy (with_counter i (rd8 d 3)) false in
            let insts1 := list_set k (Some i1) insts in
            let '(write_err, insts2, acts) :=
              if b0 (write_buf i1) =? Aics.AICS_OPCODE_SET_GAIN then
                bt_aics_client_gain_set insts1 conn (index i1)
                                        (int8 (b2 (write_buf i1))) write_ret
              else
                aics_client_common_control insts1 conn (b0 (write_buf i1))
                                           (index i1) write_ret in
            if negb (write_err =? 0) then
              let '(insts3, acts') := finish insts2 k BT_ATT_ERR_UNLIKELY in
              (insts3, acts ++ acts')
            else (insts2, acts)
          else finish insts k BT_ATT_ERR_UNLIKELY
      end
  end.

(** [aics_client_write_aics_cp_cb]: [handle] is [params->handle], [read_ret]
    is what [bt_gatt_read] returns if it is called. *)
Definition aics_client_write_aics_cp_cb (insts : aics_insts_t) (conn : conn_t)
  (err : Z) (handle : Z) (read_ret : Z) : aics_insts_t * list action :=
  match lookup_aics_by_handle insts handle with
  | None => (insts, [])
  | Some (k, i) =>
      if (err =? Aics.AICS_ERR_INVALID_COUNTER) && negb (state_handle i =? 0) then
        if negb (read_ret =? 0) then
          let '(insts1, acts) := finish insts k err in
          (insts1, GattRead (state_handle i) read_ret :: acts)
        else (insts, [GattRead (state_handle i) read_ret])
      else finish insts k err
  end.

End AicsClient.

(** * VCS client with its VOCS instances (vcs_client.c, vcs_internal.h, vocs_internal.h) *)

Module VcsClient.

(** The write callbacks of [struct bt_vcs_cb_t], and [vocs_cb.set_offset]. *)
Record bt_vcs_cb_t := mk_cb {
  vol_down : option callback;
  vol_up : option callback;
  mute : option callback;
  unmute : option callback;
  vol_down_unmute : option callback;
  vol_up_unmute : option callback;
  vol_set : option callback;
  vocs_cb_set_offset : option callback
}.

(** [struct vocs_instance_t], without the subscription and parameter blocks;
    [vocs_offset] and [vocs_change_counter] are its [state]. *)
Record vocs_instance_t := mk_vocs {
  vocs_offset : Z;
  vocs_change_counter : Z;
  vocs_start_handle : Z;
  vocs_end_handle : Z;
  vocs_state_handle : Z;
  vocs_control_handle : Z;
  vocs_busy : bool;
  vocs_index : Z;
  vocs_write_buf : list Z
}.

(** [struct vcs_instance_t]; [write_buf] has the three bytes of
    [struct vcs_control_t]. *)
Record vcs_instance_t := mk_inst {
  state : Vcs.vcs_state_t;
  state_handle : Z;
  control_handle : Z;
  busy : bool;
  wb0 : Z;
  wb1 : Z;
  wb2 : Z;
  vocs_inst_cnt : Z;
  vocs : list vocs_instance_t
}.

(** The file-scope variables [vcs_inst] and [vcs_client_cb]. *)
Record globals := mk_globals {
  vcs_inst : vcs_instance_t;
  vcs_client_cb : option bt_vcs_cb_t
}.

Definition with_inst (g : globals) (i : vcs_instance_t) : globals :=
  {| vcs_inst := i; vcs_client_cb := vcs_client_cb g |}.

Definition with_busy (i : vcs_instance_t) (b : bool) : vcs_instance_t :=
  {| state := state i; state_handle := state_handle i;
     control_handle := control_handle i; busy := b;
     wb0 := wb0 i; wb1 := wb1 i; wb2 := wb2 i;
     vocs_inst_cnt := vocs_inst_cnt i; vocs := vocs i |}.

Definition with_state (i : vcs_instance_t) (s : Vcs.vcs_state_t) : vcs_instance_t :=
  {| state := s; state_handle := state_handle i;
     control_handle := control_handle i; busy := busy i;
     wb0 := wb0 i; wb1 := wb1 i; wb2 := wb2 i;
     vocs_inst_cnt := vocs_inst_cnt i; vocs := vocs i |}.

Definition with_write_buf (i : vcs_instance_t) (x0 x1 x2 : Z) : vcs_instance_t :=
  {| state := state i; state_handle := state_handle i;
     control_handle := control_handle i; busy := busy i;
     wb0 := x0; wb1 := x1; wb2 := x2;
     vocs_inst_cnt := vocs_inst_cnt i; vocs := vocs i |}.

Definition with_vocs (i : vcs_instance_t) (l : list vocs_instance_t) : vcs_instance_t :=
  {| state := state i; state_handle := state_handle i;
     control_handle := control_handle i; busy := busy i;
     wb0 := wb0 i; wb1 := wb1 i; wb2 := wb2 i;
     vocs_inst_cnt := vocs_inst_cnt i; vocs := l |}.

Definition vcs_cp_notify_app (g : globals) (opcode err : Z) : list action :=
  match vcs_client_cb g with
  | None => []
  | Some c =>
      let call (member : option callback) :=
        match member with
        | Some f => [WriteCb f 0 err]
        | None => []
        end in
      if opcode =? Vcs.VCS_OPCODE_REL_VOL_DOWN then call (vol_down c)
      else if opcode =? Vcs.VCS_OPCODE_REL_VOL_UP then call (vol_up c)
      else if opcode =? Vcs.VCS_OPCODE_UNMUTE_REL_VOL_DOWN then call (vol_down_unmute c)
      else if opcode =? Vcs.VCS_OPCODE_UNMUTE_REL_VOL_UP then call (vol_up_unmute c)
      else if opcode =? Vcs.VCS_OPCODE_SET_ABS_VOL then call (vol_set c)
      else if opcode =? Vcs.VCS_OPCODE_UNMUTE then call (unmute c)
      else if opcode =? Vcs.VCS_OPCODE_MUTE then call (mute c)
      else []
  end.

(** [vcs_client_common_vcs_cp]; [busy] is set before [bt_gatt_write] is
    called and stays set whatever it returns. *)
Definition vcs_client_common_vcs_cp (g : globals) (conn : conn_t) (opcode : Z)
  (write_ret : Z) : Z * globals * list action :=
  match conn with
  | None => (- ENOTCONN, g, [])
  | Some _ =>
      let i := vcs_inst g in
      if control_handle i =? 0 then (- EINVAL, g, [])
      else if busy i then (- EBUSY, g, [])
      else
        let i1 := with_write_buf (with_busy i true) (uint8 opcode)
                                 (Vcs.change_counter (state i)) (wb2 i) in
        (write_ret, with_inst g i1,
         [GattWrite (control_handle i) [wb0 i1; wb1 i1] write_ret])
  end.

Definition bt_vcs_client_set_volume (g : globals) (conn : conn_t) (volume : Z)
  (write_ret : Z) : Z * globals * list action :=
  match conn with
  | None => (- ENOTCONN, g, [])
  | Some _ =>
      let i := vcs_inst g in
      if control_handle i =? 0 then (- EINVAL, g, [])
      else if busy i then (- EBUSY, g, [])
      else
        let i1 := with_write_buf (with_busy i true) Vcs.VCS_OPCODE_SET_ABS_VOL
                                 (Vcs.change_counter (state i)) (uint8 volume) in
        (write_ret, with_inst g i1,
         [GattWrite (control_handle i) [wb0 i1; wb1 i1; wb2 i1] write_ret])
  end.

Definition sizeof_vcs_state : Z := 3.

(** [internal_read_volume_state_cb]; the local [opcode] is read from
    [write_buf[0]] on entry. *)
Definition internal_read_volume_state_cb (g : globals) (conn : conn_t)
  (err : Z) (data : option memory) (length : Z) (write_ret : Z)
  : globals * list action :=
  let opcode := wb0 (vcs_inst g) in
  let fail (g' : globals) (acts : list action) :=
    (with_inst g' (with_busy (vcs_inst g') false),
     acts ++ vcs_cp_notify_app g' opcode BT_ATT_ERR_UNLIKELY) in
  if negb (err =? 0) then fail g []
  else match data with
  | None => (g, [])
  | Some d =>
      if length =? sizeof_vcs_state then
        let s := {| Vcs.volume := rd8 d 0; Vcs.mute := rd8 d 1;
                    Vcs.change_counter := rd8 d 2 |} in
        let g1 := with_inst g (with_busy (with_state (vcs_inst g) s) false) in
        let '(write_err, g2, acts) :=
          if wb0 (vcs_inst g1) =? Vcs.VCS_OPCODE_SET_ABS_VOL then
            bt_vcs_client_set_volume g1 conn (wb2 (vcs_inst g1)) write_ret
          else vcs_client_common_vcs_cp g1 conn opcode write_ret in
        if negb (write_err =? 0) then fail g2 acts else (g2, acts)
      else fail g []
  end.


(** ** The VOCS instances of the VCS client *)

Definition vocs_with_busy (v : vocs_instance_t) (b : bool) : vocs_instance_t :=
  {| vocs_offset := vocs_offset v; vocs_change_counter := vocs_change_counter v;
     vocs_start_handle := vocs_start_handle v; vocs_end_handle := vocs_end_handle v;
     vocs_state_handle := vocs_state_handle v;
     vocs_control_handle := vocs_control_handle v;
     vocs_busy := b; vocs_index := vocs_index v;
     vocs_write_buf := vocs_write_buf v |}.

Definition vocs_with_state (v : vocs_instance_t) (off ctr : Z) : vocs_instance_t :=
  {| vocs_offset := off; vocs_change_counter := ctr;
     vocs_start_handle := vocs_start_handle v; vocs_end_handle := vocs_end_handle v;
     vocs_state_handle := vocs_state_handle v;
     vocs_control_handle := vocs_control_handle v;
     vocs_busy := vocs_busy v; vocs_index := vocs_index v;
     vocs_write_buf := vocs_write_buf v |}.

Definition vocs_with_write_buf (v : vocs_instance_t) (w : list Z) : vocs_instance_t :=
  {| vocs_offset := vocs_offset v; vocs_change_counter := vocs_change_counter v;
     vocs_start_handle := vocs_start_handle v; vocs_end_handle := vocs_end_handle v;
     vocs_state_handle := vocs_state_handle v;
     vocs_control_handle := vocs_control_handle v;
     vocs_busy := vocs_busy v; vocs_index := vocs_index v;
     vocs_write_buf := w |}.

(** The loop of [lookup_vocs_by_handle] from index [k], over the [n] entries
    still below [vocs_inst_cnt]. *)
Fixpoint lookup_vocs_from (k n : nat) (l : list vocs_instance_t) (handle : Z)
  : option (nat * vocs_instance_t) :=
  match n, l with
  | S n', v :: l' =>
      if (vocs_start_handle v <=? handle) && (vocs_end_handle v >=? handle)
      then Some (k, v)
      else lookup_vocs_from (S k) n' l' handle
  | _, _ => None
  end.

Definition lookup_vocs_by_handle (i : vcs_instance_t) (handle : Z)
  : option (nat * vocs_instance_t) :=
  lookup_vocs_from 0 (Z.to_nat (vocs_inst_cnt i)) (vocs i) handle.

Definition vocs_cp_notify_app (g : globals) (idx err : Z) : list action :=
  match vcs_client_cb g with
  | Some c =>
      match vocs_cb_set_offset c with
      | Some f => [WriteCb f idx err]
      | None => []
      end
  | None => []
  end.

(** The two bytes of an [int16_t], low byte first. *)
Definition le16_bytes (v : Z) : list Z := [v mod 256; (v mod 65536) / 256].

Definition bt_vcs_client_vocs_set_offset (g : globals) (conn : conn_t)
  (idx : Z) (off : Z) (write_ret : Z) : Z * globals * list action :=
  match conn with
  | None => (- ENOTCONN, g, [])
  | Some _ =>
      if idx >=? Z.of_nat (length (vocs (vcs_inst g))) then (- EINVAL, g, [])
      else match nth_error (vocs (vcs_inst g)) (Z.to_nat idx) with
      | None => (- EINVAL, g, [])
      | Some v =>
          if vocs_control_handle v =? 0 then (- EINVAL, g, [])
          else if vocs_busy v then (- EBUSY, g, [])
          else
            let w := Vocs.VOCS_OPCODE_SET_OFFSET :: vocs_change_counter v
                       :: le16_bytes off in
            let v1 := vocs_with_write_buf v w in
            let v2 := if write_ret =? 0 then vocs_with_busy v1 true else v1 in
            (write_ret,
             with_inst g (with_vocs (vcs_inst g)
                            (list_set (Z.to_nat idx) v2 (vocs (vcs_inst g)))),
             [GattWrite (vocs_control_handle v) w write_ret])
      end
  end.

Definition vocs_finish (g : globals) (k : nat) (err : Z) : globals * list action :=
  match nth_error (vocs (vcs_inst g)) k with
  | Some v =>
      (with_inst g (with_vocs (vcs_inst g)
                      (list_set k (vocs_with_busy v false) (vocs (vcs_inst g)))),
       vocs_cp_notify_app g (vocs_index v) err)
  | None => (g, [])
  end.

Definition sizeof_vocs_state : Z := 3.

Definition int16_of_bytes (lo hi : Z) : Z :=
  let u := uint8 lo + 256 * uint8 hi in
  if u <? 32768 then u else u - 65536.

(** [internal_read_volume_offset_state_cb].  Its [cp] points at
    [vcs_inst.write_buf], the three-byte buffer of the VCS control point, not
    at the buffer of the VOCS instance; [cp->offset] is therefore made of
    [vcs_inst.write_buf[2]] and of the byte that follows the buffer in
    [vcs_inst], given here as [next_byte]. *)
Definition internal_read_volume_offset_state_cb (g : globals) (conn : conn_t)
  (err : Z) (handle : Z) (data : option memory) (length : Z)
  (next_byte : Z) (write_ret : Z) : globals * list action :=
  match lookup_vocs_by_handle (vcs_inst g) handle with
  | None => (g, [])
  | Some (k, v) =>
      if negb (err =? 0) then vocs_finish g k BT_ATT_ERR_UNLIKELY
      else match data with
      | None => (g, [])
      | Some d =>
          if length =? sizeof_vocs_state then
            let v1 := vocs_with_busy
                        (vocs_with_state v (int16_le d 0) (rd8 d 2)) false in
            let g1 := with_inst g (with_vocs (vcs_inst g)
                                     (list_set k v1 (vocs (vcs_inst g)))) in
            let cp_offset := int16_of_bytes (wb2 (vcs_inst g)) next_byte in
            let '(write_err, g2, acts) :=
              bt_vcs_client_vocs_set_offset g1 conn (vocs_index v1) cp_offset
                                            write_ret in
            if negb (write_err =? 0) then
              let '(g3, acts') := vocs_finish g2 k BT_ATT_ERR_UNLIKELY in
              (g3, acts ++ acts')
            else (g2, acts)
          else vocs_finish g k BT_ATT_ERR_UNLIKELY
      end
  end.


End VcsClient.

(** * Statements about the servers *)

(** The guards of [write_vcs_control] before the counter is looked at. *)
Definition vcs_guards (w : att_write) (m : memory) : Prop :=
  offset w = 0 /\ len w <> 0 /\ buf w = Some m
  /\ Vcs.VALID_VCS_OPCODE (Vcs.cp_opcode m) = true
  /\ Vcs.bad_length (len w) m = false.

(** The guards of [write_aics_control] before the counter is looked at. *)
Definition aics_guards (w : att_write) (m : memory) : Prop :=
  offset w = 0 /\ len w <> 0 /\ buf w = Some m
  /\ Aics.VALID_AICS_OPCODE (Aics.cp_opcode m) = true
  /\ Aics.bad_length (len w) m = false.

(** The guards of [write_vocs_control] before the counter is looked at. *)
Definition vocs_guards (w : att_write) (m : memory) : Prop :=
  offset w = 0 /\ len w <> 0 /\ buf w = Some m
  /\ Vocs.VALID_VOCS_OPCODE (Vocs.cp_opcode m) = true
  /\ len w = Vocs.sizeof_vocs_control_t.

(** Instances and writes used in the examples below. *)
Definition vocs_inst0 : Vocs.bt_vocs :=
  {| Vocs.state := {| Vocs.offset_ := 0; Vocs.change_counter := 0 |};
     Vocs.location := 0; Vocs.index := 0; Vocs.initialized := true;
     Vocs.output_desc := []; Vocs.cb := None |}.

Definition write_of (bytes : list Z) (off : Z) : att_write :=
  {| buf := Some (mem_of bytes); len := Z.of_nat (length bytes); offset := off |}.

Definition aics_inst0 : Aics.bt_aics :=
  {| Aics.state := {| Aics.gain := 0; Aics.mute := Aics.AICS_STATE_UNMUTED;
                      Aics.mode := Aics.AICS_MODE_AUTO; Aics.change_counter := 0 |};
     Aics.gain_settings := {| Aics.units := 1; Aics.minimum := -10; Aics.maximum := 10 |};
     Aics.initialized := true; Aics.type := 0; Aics.status := 1; Aics.index := 0;
     Aics.cb := None |}.

(** The same instance in Manual Only mode. *)
Definition aics_inst1 : Aics.bt_aics :=
  Aics.with_state aics_inst0
    {| Aics.gain := 0; Aics.mute := Aics.AICS_STATE_UNMUTED;
       Aics.mode := Aics.AICS_MODE_MANUAL_ONLY; Aics.change_counter := 0 |}.

(** ** Set Gain as the specification words it

    Section 4.1 of the specification: a Set Gain that passes the guards is
    applied when the mode is Manual or Auto, and accepted without being
    applied when the mode is Manual Only or Auto Only. *)
Definition set_gain_as_specified (inst : Aics.bt_aics) (w : att_write) (m : memory)
  : Prop :=
  aics_guards w m ->
  Aics.cp_opcode m = Aics.AICS_OPCODE_SET_GAIN ->
  Aics.cp_counter m = Aics.change_counter (Aics.state inst) ->
  Aics.minimum (Aics.gain_settings inst) <= Aics.cp_gain_setting m
    <= Aics.maximum (Aics.gain_settings inst) ->
  let '(ret, inst', _) := Aics.write_aics_control inst w in
  (Aics.mode (Aics.state inst) = Aics.AICS_MODE_MANUAL
   \/ Aics.mode (Aics.state inst) = Aics.AICS_MODE_AUTO ->
   Aics.gain (Aics.state inst') = Aics.cp_gain_setting m)
  /\ (Aics.mode (Aics.state inst) = Aics.AICS_MODE_MANUAL_ONLY
      \/ Aics.mode (Aics.state inst) = Aics.AICS_MODE_AUTO_ONLY ->
      ret = len w /\ Aics.gain (Aics.state inst') = Aics.gain (Aics.state inst)).

(** ** Commit of a control-point write *)

(** The fields of a state other than its change counter. *)
Definition vcs_fields (s : Vcs.vcs_state_t) : Z * Z := (Vcs.volume s, Vcs.mute s).

Definition aics_fields (s : Aics.aics_state_t) : Z * Z * Z :=
  (Aics.gain s, Aics.mute s, Aics.mode s).

Definition is_state_notify (e : Vcs.event) : bool :=
  match e with Vcs.Notify Vcs.BT_UUID_VCS_STATE _ => true | _ => false end.

Definition is_flags_notify (e : Vcs.event) : bool :=
  match e with Vcs.Notify Vcs.BT_UUID_VCS_FLAGS _ => true | _ => false end.

(** The data-model ranges of section 3.1: [volume] is a [uint8_t] and
    [volume_step] lies in 1..255. *)
Definition vcs_inst_ok (inst : Vcs.vcs_inst_t) : Prop :=
  0 <= Vcs.volume (Vcs.state inst) <= 255
  /\ 1 <= Vcs.volume_step inst <= 255.

(** A registered callback structure that has a [state] member also has a
    [flags] member. *)
Definition vcs_cb_sound (inst : Vcs.vcs_inst_t) : Prop :=
  forall c, Vcs.cb inst = Some c -> Vcs.cb_state c <> None -> Vcs.cb_flags c <> None.

(** ** Sessions of the VCS server *)

(** The opcodes whose case sets [volume_change]. *)
Definition volume_changing (opcode : Z) : bool :=
  (Vcs.VCS_OPCODE_REL_VOL_DOWN <=? opcode) && (opcode <=? Vcs.VCS_OPCODE_SET_ABS_VOL).

Inductive vcs_op :=
| OpWrite (w : att_write)
| OpCbRegister (c : option Vcs.bt_vcs_cb_t)
| OpVolumeStepSet (step : Z)
| OpVolumeGet
| OpFlagsGet.

Definition apply_op (inst : Vcs.vcs_inst_t) (op : vcs_op) : Vcs.outcome :=
  match op with
  | OpWrite w => Vcs.write_vcs_control inst w
  | OpCbRegister c => Vcs.Return 0 (Vcs.bt_vcs_server_cb_register inst c) []
  | OpVolumeStepSet n =>
      let '(r, i) := Vcs.bt_vcs_volume_step_set inst n in Vcs.Return r i []
  | OpVolumeGet => Vcs.bt_vcs_volume_get inst
  | OpFlagsGet => Vcs.bt_vcs_flags_get inst
  end.

(** The instance after a sequence of operations and everything emitted on
    the way; a call through a null pointer ends the session.  The local
    calls [bt_vcs_volume_down], [bt_vcs_volume_set], [bt_vcs_mute] and the
    like forge a control-point write and are [OpWrite]s. *)
Fixpoint session (inst : Vcs.vcs_inst_t) (ops : list vcs_op)
  : Vcs.vcs_inst_t * list Vcs.event :=
  match ops with
  | [] => (inst, [])
  | op :: rest =>
      match apply_op inst op with
      | Vcs.Return _ i e => let '(i', e') := session i rest in (i', e ++ e')
      | Vcs.NullCall i e => (i, e)
      end
  end.

(** A callback structure with a [state] member and no [flags] member. *)
Definition cb_state_only : Vcs.bt_vcs_cb_t :=
  {| Vcs.cb_state := Some 1%nat; Vcs.cb_flags := None |}.

Definition aics_is_notify (e : Aics.event) : bool :=
  match e with Aics.NotifyState _ => true | _ => false end.

Definition vocs_is_notify (e : Vocs.event) : bool :=
  match e with Vocs.NotifyState _ => true | _ => false end.

Definition is_call_flags (e : Vcs.event) : bool :=
  match e with Vcs.CallFlags _ _ => true | _ => false end.

(** * Statements about the ASCS response *)

(** An ASE response whose code is Not Supported or Truncated. *)
Definition overloads_num_ase (a : Ascs.bt_ascs_cp_ase_rsp) : bool :=
  (Ascs.code a =? Ascs.BT_ASCS_RSP_NOT_SUPPORTED)
  || (Ascs.code a =? Ascs.BT_ASCS_RSP_TRUNCATED).

Definition call_overloads (c : Ascs.rsp_call) : bool :=
  (uint8 (Ascs.call_code c) =? Ascs.BT_ASCS_RSP_NOT_SUPPORTED)
  || (uint8 (Ascs.call_code c) =? Ascs.BT_ASCS_RSP_TRUNCATED).

Definition ascs_cp_rsp_add_call (b : Ascs.rsp_buf_t) (c : Ascs.rsp_call)
  : Ascs.rsp_buf_t :=
  Ascs.ascs_cp_rsp_add b (Ascs.call_id c) (Ascs.call_op c) (Ascs.call_code c)
                       (Ascs.call_reason c).

(** What holds of the response buffer between two calls. *)
Definition rsp_invariant (n_calls : nat) (clean : bool) (b : Ascs.rsp_buf_t) : Prop :=
  match b with
  | None => n_calls = 0%nat
  | Some rsp =>
      (existsb overloads_num_ase (Ascs.ase rsp) = true -> Ascs.num_ase rsp = 0xff)
      /\ (existsb overloads_num_ase (Ascs.ase rsp) = false ->
          Ascs.num_ase rsp = Z.of_nat (length (Ascs.ase rsp))
          /\ (length (Ascs.ase rsp) <= 255)%nat)
      /\ (clean = true ->
          existsb overloads_num_ase (Ascs.ase rsp) = false
          /\ length (Ascs.ase rsp) = Nat.min n_calls 255)
  end.

(** Two successful ASE responses followed by Truncated, and the response they
    build. *)
Definition ascs_example_calls : list Ascs.rsp_call :=
  [Ascs.mk_call 1 0x01 Ascs.BT_ASCS_RSP_SUCCESS 0;
   Ascs.mk_call 2 0x01 Ascs.BT_ASCS_RSP_SUCCESS 0;
   Ascs.mk_call 0 0x01 Ascs.BT_ASCS_RSP_TRUNCATED 0].

Definition ascs_example_rsp : Ascs.bt_ascs_cp_rsp :=
  {| Ascs.op := 1; Ascs.num_ase := 0xff;
     Ascs.ase := [Ascs.mk_ase_rsp 1 0 0; Ascs.mk_ase_rsp 2 0 0;
                  Ascs.mk_ase_rsp 0 2 0] |}.

(** * Statements about the CSIS set lock *)

(** The lock invariant as section 3.4 of the specification words it:
    Locked exactly when the holder's address is not empty and the timer is
    armed. *)
Definition lock_invariant_as_specified (g : Csis.globals) : Prop :=
  Csis.set_lock (Csis.csis_inst g) = Csis.BT_CSIP_LOCK_VALUE
  <-> (Csis.lock_client_addr (Csis.csis_inst g) <> Csis.server_dummy_addr
       /\ Csis.set_lock_timer (Csis.csis_inst g) = true).

(** The part of it that the engine keeps: the lock has one of its two values,
    and while it is Locked the timer is armed. *)
Definition lock_ok (i : Csis.csis_instance_t) : Prop :=
  (Csis.set_lock i = Csis.BT_CSIP_LOCK_VALUE
   \/ Csis.set_lock i = Csis.BT_CSIP_RELEASE_VALUE)
  /\ (Csis.set_lock i = Csis.BT_CSIP_LOCK_VALUE -> Csis.set_lock_timer i = true).

(** The three fields the invariant speaks of. *)
Definition lock_fields (i : Csis.csis_instance_t) : Z * bool * Csis.bt_addr_le_t :=
  (Csis.set_lock i, Csis.set_lock_timer i, Csis.lock_client_addr i).

(** A host with two connected peers and no bond; peer A. *)
Definition peer_a : Csis.bt_conn :=
  {| Csis.conn_id := 1; Csis.dst := {| Csis.addr_type := 1; Csis.addr_val := 0xA |} |}.

Definition peer_b : Csis.bt_conn :=
  {| Csis.conn_id := 2; Csis.dst := {| Csis.addr_type := 1; Csis.addr_val := 0xB |} |}.

Definition host_ab : Csis.host :=
  {| Csis.conns := [peer_a; peer_b]; Csis.bonds := [] |}.

(** The engine after [bt_csis_lock(true, false)] on the initial state. *)
Definition csis_server_locked : Csis.globals :=
  snd (fst (Csis.bt_csis_lock host_ab (Csis.bt_csis_init 1) true false)).

(** The engine after peer A has written Lock and the server has then called
    [bt_csis_lock(false, true)]. *)
Definition csis_forced_release : Csis.globals :=
  snd (fst (Csis.bt_csis_lock host_ab
              (snd (fst (Csis.write_set_lock host_ab (Csis.bt_csis_init 1)
                           (Some peer_a) (mem_of [Csis.BT_CSIP_LOCK_VALUE]) 1 0)))
              false true)).

(** * Statements about the client write, re-read and retry *)

(** The bytes that the AICS client writes again after a re-read that
    returned the counter [ctr]: rebuilt from the opcode, and for Set Gain the
    gain, that [write_buf] still holds. *)
Definition aics_retry_data (i : AicsClient.aics_instance_t) (ctr : Z) : list Z :=
  if AicsClient.b0 (AicsClient.write_buf i) =? Aics.AICS_OPCODE_SET_GAIN
  then [Aics.AICS_OPCODE_SET_GAIN; ctr;
        uint8 (int8 (AicsClient.b2 (AicsClient.write_buf i)))]
  else [uint8 (AicsClient.b0 (AicsClient.write_buf i)); ctr].

(** The same for the VCS client. *)
Definition vcs_retry_data (i : VcsClient.vcs_instance_t) (ctr : Z) : list Z :=
  if VcsClient.wb0 i =? Vcs.VCS_OPCODE_SET_ABS_VOL
  then [Vcs.VCS_OPCODE_SET_ABS_VOL; ctr; uint8 (VcsClient.wb2 i)]
  else [uint8 (VcsClient.wb0 i); ctr].


Definition is_write_cb (a : action) : bool :=
  match a with WriteCb _ _ _ => true | _ => false end.


(** An AICS client instance with every write callback registered. *)
Definition aics_client_cb0 : AicsClient.bt_aics_cb :=
  {| AicsClient.set_gain := Some 1%nat; AicsClient.unmute := Some 2%nat;
     AicsClient.mute := Some 3%nat; AicsClient.set_manual_mode := Some 4%nat;
     AicsClient.set_auto_mode := Some 5%nat |}.

Definition aics_client_inst0 : AicsClient.aics_instance_t :=
  {| AicsClient.change_counter := 0; AicsClient.mode := 0;
     AicsClient.start_handle := 0x10; AicsClient.end_handle := 0x20;
     AicsClient.state_handle := 0x12; AicsClient.control_handle := 0x1a;
     AicsClient.busy := false; AicsClient.index := 0;
     AicsClient.write_buf := {| AicsClient.b0 := 0; AicsClient.b1 := 0;
                                AicsClient.b2 := 0 |};
     AicsClient.cb := Some aics_client_cb0 |}.


(** * The local calls of the servers

    With a null connection the public calls act on the local server: they
    build a control-point structure that carries the server's own change
    counter, hand it to the write handler and turn a positive return value
    (the length written) into 0. *)

(** errno.h of the C library. *)
Definition ERANGE : Z := 34.

(** [err > 0 ? 0 : err] *)
Definition local_ret (err : Z) : Z := if err >? 0 then 0 else err.

Module VcsApi.

(** [write_vcs_control(NULL, NULL, &cp, length, 0, 0)] followed by
    [return err > 0 ? 0 : err]. *)
Definition local_write (inst : Vcs.vcs_inst_t) (cp : list Z) (length : Z)
  : Vcs.outcome :=
  match Vcs.write_vcs_control inst
          {| buf := Some (mem_of cp); len := length; offset := 0 |} with
  | Vcs.Return err i e => Vcs.Return (local_ret err) i e
  | Vcs.NullCall i e => Vcs.NullCall i e
  end.

(** [const struct vcs_control_t cp = { .opcode = ..., .counter =
    vcs_inst.state.change_counter }]: the member [volume] that is not named
    is zero. *)
Definition control (inst : Vcs.vcs_inst_t) (opcode volume : Z) : list Z :=
  [opcode; Vcs.change_counter (Vcs.state inst); volume].

Definition bt_vcs_volume_down (inst : Vcs.vcs_inst_t) : Vcs.outcome :=
  local_write inst (control inst Vcs.VCS_OPCODE_REL_VOL_DOWN 0) Vcs.VCS_CP_LEN.

Definition bt_vcs_volume_up (inst : Vcs.vcs_inst_t) : Vcs.outcome :=
  local_write inst (control inst Vcs.VCS_OPCODE_REL_VOL_UP 0) Vcs.VCS_CP_LEN.

Definition bt_vcs_unmute_volume_down (inst : Vcs.vcs_inst_t) : Vcs.outcome :=
  local_write inst (control inst Vcs.VCS_OPCODE_UNMUTE_REL_VOL_DOWN 0) Vcs.VCS_CP_LEN.

Definition bt_vcs_unmute_volume_up (inst : Vcs.vcs_inst_t) : Vcs.outcome :=
  local_write inst (control inst Vcs.VCS_OPCODE_UNMUTE_REL_VOL_UP 0) Vcs.VCS_CP_LEN.

(** [volume] is the [uint8_t] argument. *)
Definition bt_vcs_volume_set (inst : Vcs.vcs_inst_t) (volume : Z) : Vcs.outcome :=
  local_write inst (control inst Vcs.VCS_OPCODE_SET_ABS_VOL (uint8 volume))
    Vcs.VCS_CP_ABS_VOL_LEN.

Definition bt_vcs_unmute (inst : Vcs.vcs_inst_t) : Vcs.outcome :=
  local_write inst (control inst Vcs.VCS_OPCODE_UNMUTE 0) Vcs.VCS_CP_LEN.

Definition bt_vcs_mute (inst : Vcs.vcs_inst_t) : Vcs.outcome :=
  local_write inst (control inst Vcs.VCS_OPCODE_MUTE 0) Vcs.VCS_CP_LEN.

End VcsApi.

Module AicsApi.

(** [static struct bt_aics aics_insts[CONFIG_BT_AICS_MAX_INSTANCE_COUNT]] *)
Definition aics_insts_t := list Aics.bt_aics.

(** [index >= ARRAY_SIZE(aics_insts)] fails with [-ERANGE]; otherwise
    [write_aics_control(NULL, &attr, &cp, sizeof(cp), 0, 0)] runs on
    [aics_insts[index]], where [cp] is a [struct aics_gain_control_t] of
    three bytes, and the call returns [err > 0 ? 0 : err]. *)
Definition local_write (insts : aics_insts_t) (index : Z)
  (cp : Aics.bt_aics -> list Z) : Z * aics_insts_t * list Aics.event :=
  if uint8 index >=? Z.of_nat (length insts) then (- ERANGE, insts, [])
  else match nth_error insts (Z.to_nat (uint8 index)) with
  | None => (- ERANGE, insts, [])
  | Some inst =>
      let '(err, inst', evs) :=
        Aics.write_aics_control inst
          {| buf := Some (mem_of (cp inst)); len := 3; offset := 0 |} in
      (local_ret err, list_set (Z.to_nat (uint8 index)) inst' insts, evs)
  end.

(** [cp.cp.opcode] and [cp.cp.counter] are assigned; [cp.gain_setting] is
    assigned by [bt_aics_gain_set] only and is otherwise what the stack
    holds, [stack] here. *)
Definition control (opcode gain_setting : Z) (inst : Aics.bt_aics) : list Z :=
  [opcode; Aics.change_counter (Aics.state inst); gain_setting].

Definition bt_aics_input_unmute (insts : aics_insts_t) (index stack : Z) :=
  local_write insts index (control Aics.AICS_OPCODE_UNMUTE stack).

Definition bt_aics_input_mute (insts : aics_insts_t) (index stack : Z) :=
  local_write insts index (control Aics.AICS_OPCODE_MUTE stack).

Definition bt_aics_manual_input_gain_set (insts : aics_insts_t) (index stack : Z) :=
  local_write insts index (control Aics.AICS_OPCODE_SET_MANUAL stack).

Definition bt_aics_automatic_input_gain_set (insts : aics_insts_t) (index stack : Z) :=
  local_write insts index (control Aics.AICS_OPCODE_SET_AUTO stack).

(** [gain] is the [int8_t] argument. *)
Definition bt_aics_gain_set (insts : aics_insts_t) (index gain : Z) :=
  local_write insts index (control Aics.AICS_OPCODE_SET_GAIN (int8 gain)).

End AicsApi.

Module VocsApi.

(** [static struct bt_vocs vocs_insts[CONFIG_BT_VOCS_MAX_INSTANCE_COUNT]] *)
Definition vocs_insts_t := list Vocs.bt_vocs.

(** [sys_cpu_to_le16] on a little-endian host. *)
Definition sys_cpu_to_le16 (v : Z) : Z := v.

(** [bt_vocs_state_set]: [offset] is the [int16_t] argument, stored in the
    two bytes of [cp.offset]. *)
Definition bt_vocs_state_set (insts : vocs_insts_t) (index offset : Z)
  : Z * vocs_insts_t * list Vocs.event :=
  if uint8 index >=? Z.of_nat (length insts) then (- ERANGE, insts, [])
  else match nth_error insts (Z.to_nat (uint8 index)) with
  | None => (- ERANGE, insts, [])
  | Some inst =>
      let cp := [Vocs.VOCS_OPCODE_SET_OFFSET; Vocs.change_counter (Vocs.state inst)]
                  ++ VcsClient.le16_bytes (sys_cpu_to_le16 offset) in
      let '(err, inst', evs) :=
        Vocs.write_vocs_control inst
          {| buf := Some (mem_of cp); len := Vocs.sizeof_vocs_control_t; offset := 0 |} in
      (local_ret err, list_set (Z.to_nat (uint8 index)) inst' insts, evs)
  end.

End VocsApi.

(** ** Sequences of control-point writes *)

(** The instance after a sequence of writes to a control point, whatever
    each of them returns. *)
Definition aics_writes (inst : Aics.bt_aics) (ws : list att_write) : Aics.bt_aics :=
  fold_left (fun i w => snd (fst (Aics.write_aics_control i w))) ws inst.

Definition vocs_writes (inst : Vocs.bt_vocs) (ws : list att_write) : Vocs.bt_vocs :=
  fold_left (fun i w => snd (fst (Vocs.write_vocs_control i w))) ws inst.

(** The gain lies within the gain settings of the instance. *)
Definition aics_gain_ok (inst : Aics.bt_aics) : Prop :=
  Aics.minimum (Aics.gain_settings inst) <= Aics.gain (Aics.state inst)
  <= Aics.maximum (Aics.gain_settings inst).

(** An instance in Manual mode with mute disabled and the gain range
    [-10, 10]. *)
Definition aics_inst2 : Aics.bt_aics :=
  Aics.with_state aics_inst0
    {| Aics.gain := 0; Aics.mute := Aics.AICS_STATE_MUTE_DISABLED;
       Aics.mode := Aics.AICS_MODE_MANUAL; Aics.change_counter := 0 |}.

(** * The description characteristics (vocs.c write_output_desc, aics.c
      write_input_desc) *)

Module Desc.

(** A [char] array is the list of its bytes; [strlen] counts the bytes in
    front of the first NUL and stops at the end of the list, where the C
    function would run on past the array. *)
Fixpoint strlen (s : list Z) : nat :=
  match s with
  | [] => O
  | c :: s' => if c =? 0 then O else S (strlen s')
  end.

(** The [n] bytes [buf[0] .. buf[n-1]]. *)
Definition bytes (buf : memory) (n : nat) : list Z := map (rd8 buf) (seq 0 n).

Fixpoint bytes_eqb (a b : list Z) : bool :=
  match a, b with
  | [], [] => true
  | x :: a', y :: b' => (x =? y) && bytes_eqb a' b'
  | _, _ => false
  end.

(** [memcmp(buf, s, n) != 0], for [n] within the array. *)
Definition memcmp (buf : memory) (s : list Z) (n : nat) : bool :=
  negb (bytes_eqb (bytes buf n) (firstn n s)).

(** [memcpy(s, buf, n)], for [n] within the array. *)
Definition memcpy (s : list Z) (buf : memory) (n : nat) : list Z :=
  bytes buf n ++ skipn n s.

(** The value of a string characteristic: the bytes in front of the NUL. *)
Definition string_of (s : list Z) : list Z := firstn (strlen s) s.

Inductive event :=
| NotifyDescription (value : list Z)
| CallDescription (f : callback) (idx : Z) (desc : list Z).

(** [if (len >= sizeof(desc)) len = sizeof(desc) - 1;] *)
Definition clip (size len : Z) : Z := if len >=? size then size - 1 else len.

(** The body of the [if]: copy, terminate, notify [strlen] bytes, call
    [cb->description] when [cb] and the member are set ([description] is
    that member, [None] when either is null). *)
Definition store (desc : list Z) (idx : Z) (description : option callback)
  (buf : memory) (n : nat) : list Z * list event :=
  let desc' := list_set n 0 (memcpy desc buf n) in
  (desc',
   NotifyDescription (string_of desc')
     :: match description with
        | Some f => [CallDescription f idx desc']
        | None => []
        end).

(** vocs.c: [len] is the [uint16_t] length of the write. *)
Definition write_output_desc (inst : Vocs.bt_vocs) (description : option callback)
  (buf : memory) (len : Z) : Z * Vocs.bt_vocs * list event :=
  let len := clip (Z.of_nat (length (Vocs.output_desc inst))) len in
  if negb (len =? Z.of_nat (strlen (Vocs.output_desc inst)))
     || memcmp buf (Vocs.output_desc inst) (Z.to_nat len)
  then
    let '(desc', evs) :=
      store (Vocs.output_desc inst) (Vocs.index inst) description buf (Z.to_nat len) in
    (len,
     {| Vocs.state := Vocs.state inst; Vocs.location := Vocs.location inst;
        Vocs.index := Vocs.index inst; Vocs.initialized := Vocs.initialized inst;
        Vocs.output_desc := desc'; Vocs.cb := Vocs.cb inst |},
     evs)
  else (len, inst, []).

(** aics.c: the same handler on [inst->input_desc], without the [strlen]
    comparison.  [input_desc] and [idx] are the members [input_desc] and
    [index] of the instance. *)
Definition write_input_desc (input_desc : list Z) (idx : Z)
  (description : option callback) (buf : memory) (len : Z)
  : Z * list Z * list event :=
  let len := clip (Z.of_nat (length input_desc)) len in
  if memcmp buf input_desc (Z.to_nat len)
  then
    let '(desc', evs) := store input_desc idx description buf (Z.to_nat len) in
    (len, desc', evs)
  else (len, input_desc, []).

End Desc.

(** A description array of eight bytes holding the string Mic. *)
Definition desc_mic : list Z := [77; 105; 99; 0; 0; 0; 0; 0].

Definition vocs_inst_mic : Vocs.bt_vocs :=
  {| Vocs.state := {| Vocs.offset_ := 0; Vocs.change_counter := 0 |};
     Vocs.location := 0; Vocs.index := 0; Vocs.initialized := true;
     Vocs.output_desc := desc_mic; Vocs.cb := None |}.

(** * Statements about the CSIS lock protocol *)

(** A write of the set-lock characteristic: who writes, and the arguments
    of the handler. *)
Record csis_write := mk_csis_write {
  w_conn : option Csis.bt_conn;
  w_buf : memory;
  w_len : Z;
  w_offset : Z
}.

(** The engine after a sequence of writes, and everything emitted. *)
Fixpoint csis_writes (h : Csis.host) (g : Csis.globals) (ws : list csis_write)
  : Csis.globals * list Csis.event :=
  match ws with
  | [] => (g, [])
  | w :: rest =>
      let '(_, g1, e1) :=
        Csis.write_set_lock h g (w_conn w) (w_buf w) (w_len w) (w_offset w) in
      let '(g2, e2) := csis_writes h g1 rest in
      (g2, e1 ++ e2)
  end.

(** The connections that [notify_client] does not skip: all of them for a
    null [excluded_conn], all but that connection otherwise. *)
Definition csis_notified (h : Csis.host) (excluded_conn : option Csis.bt_conn)
  : list Csis.bt_conn :=
  filter (fun c => negb match excluded_conn with
                        | Some x => Csis.same_conn c x
                        | None => false
                        end) (Csis.conns h).

(** One lock notification, carrying [value], to each of [cs] in turn. *)
Definition lock_notifications (cs : list Csis.bt_conn) (value : Z) : list Csis.event :=
  map (fun c => Csis.NotifyLock c value) cs.

(** A third peer, bonded and not connected, and the engine after its
    pairing has completed. *)
Definition peer_c : Csis.bt_conn :=
  {| Csis.conn_id := 3; Csis.dst := {| Csis.addr_type := 1; Csis.addr_val := 0xC |} |}.

Definition csis_bonded_c : Csis.globals :=
  Csis.auth_pairing_complete false (Csis.bt_csis_init 1) peer_c true.

(** * The random part of the PSRI (csis.c generate_prand) *)

Module CsisRand.

Definition BT_CSIS_SIH_PRAND_SIZE : Z := 3.

(** One call of [bt_rand(dest, BT_CSIS_SIH_PRAND_SIZE)]: what it returns and
    the three bytes it writes. *)
Record draw := mk_draw {
  res : Z;
  r0 : Z;
  r1 : Z;
  r2 : Z
}.

(** [*dest] after the call on a little-endian host: the three bytes below
    the top byte, which [*dest = 0] has cleared. *)
Definition dest_of (d : draw) : Z :=
  uint8 (r0 d) + 256 * uint8 (r1 d) + 65536 * uint8 (r2 d).

Definition BIT (n : Z) : Z := Z.shiftl 1 n.

(** [generate_prand] against the successive results of [bt_rand]: the value
    returned and [*dest].  The loop has no bound of its own; [None] says it
    is still asking for numbers when [draws] is used up. *)
Fixpoint generate_prand (draws : list draw) : option (Z * Z) :=
  match draws with
  | [] => None
  | d :: rest =>
      if negb (res d =? 0) then Some (res d, dest_of d)
      else if negb (dest_of d =? 0) && negb (dest_of d =? 0x3FFFFF) then
        Some (0, Z.lor (Z.land (dest_of d) 0x3FFFFF) (BIT 22))
      else generate_prand rest
  end.

End CsisRand.

(** * Statements about the client write functions *)

(** A call of one of the two write functions of the VCS client, with what
    [bt_gatt_write] returns if the call reaches it. *)
Inductive vcs_client_call :=
| CallCommon (opcode write_ret : Z)
| CallSetVolume (volume write_ret : Z).

Definition vcs_client_do (g : VcsClient.globals) (conn : conn_t)
  (call : vcs_client_call) : Z * VcsClient.globals * list action :=
  match call with
  | CallCommon opcode write_ret =>
      VcsClient.vcs_client_common_vcs_cp g conn opcode write_ret
  | CallSetVolume volume write_ret =>
      VcsClient.bt_vcs_client_set_volume g conn volume write_ret
  end.

(** A VCS client that has discovered the handles and is idle. *)
Definition vcs_client_g0 : VcsClient.globals :=
  {| VcsClient.vcs_inst :=
       {| VcsClient.state := Vcs.mk_state 0 0 0;
          VcsClient.state_handle := 0x03; VcsClient.control_handle := 0x06;
          VcsClient.busy := false;
          VcsClient.wb0 := 0; VcsClient.wb1 := 0; VcsClient.wb2 := 0;
          VcsClient.vocs_inst_cnt := 0; VcsClient.vocs := [] |};
     VcsClient.vcs_client_cb := None |}.

(** * Initialisation of the VOCS and AICS instances (vocs.c bt_vocs_init,
      aics.c bt_aics_init) *)

(** errno.h of the C library. *)
Definition EALREADY : Z := 120.

(** The end of both functions: [bt_gatt_service_register] returned
    [register_ret]; a failure is returned, a success sets [initialized]. *)
Definition registered {A : Type} (set_initialized : A -> A) (inst : A)
  (register_ret : Z) : Z * A :=
  if negb (register_ret =? 0) then (register_ret, inst)
  else (0, set_initialized inst).

(** [strncpy(dst, src, n)] into an array of [n] bytes: the string of [src],
    then NULs, cut at [n]. *)
Definition strncpy (src : list Z) (n : nat) : list Z :=
  firstn n (Desc.string_of src ++ repeat 0 n).

Module VocsInit.

(** [struct bt_vocs_init] (vocs.h); the structure tag shares its name with
    the function. *)
Record bt_vocs_init_t := mk_init {
  location : Z;
  location_writable : bool;
  offset : Z;
  output_desc : list Z;
  desc_writable : bool
}.

(** [bt_vocs_init] on the members of [struct bt_vocs]; the loop that installs
    the write handlers in the attribute table acts on the GATT service only.
    [init] is [None] for a null pointer. *)
Definition bt_vocs_init (vocs : Vocs.bt_vocs) (init : option bt_vocs_init_t)
  (register_ret : Z) : Z * Vocs.bt_vocs :=
  let set_initialized v :=
    {| Vocs.state := Vocs.state v; Vocs.location := Vocs.location v;
       Vocs.index := Vocs.index v; Vocs.initialized := true;
       Vocs.output_desc := Vocs.output_desc v; Vocs.cb := Vocs.cb v |} in
  if Vocs.initialized vocs then (- EALREADY, vocs)
  else match init with
  | Some i =>
      if (offset i >? Vocs.VOCS_MAX_OFFSET) || (offset i <? Vocs.VOCS_MIN_OFFSET)
      then (- EINVAL, vocs)
      else
        registered set_initialized
          {| Vocs.state := {| Vocs.offset_ := offset i;
                              Vocs.change_counter :=
                                Vocs.change_counter (Vocs.state vocs) |};
             Vocs.location := uint8 (location i);
             Vocs.index := Vocs.index vocs;
             Vocs.initialized := Vocs.initialized vocs;
             Vocs.output_desc :=
               strncpy (output_desc i) (length (Vocs.output_desc vocs));
             Vocs.cb := Vocs.cb vocs |}
          register_ret
  | None => registered set_initialized vocs register_ret
  end.

End VocsInit.

Module AicsInit.

Definition AICS_INPUT_TYPE_NETWORK : Z := 0x06.
Definition AICS_INPUT_TYPE_OTHER : Z := 0x255.

(** [struct bt_aics_init] (aics.h): [gain], [min_gain], [max_gain] and
    [input_type] are [int8_t], [mute], [mode] and [units] are [uint8_t]. *)
Record bt_aics_init_t := mk_init {
  gain : Z;
  mute : Z;
  mode : Z;
  units : Z;
  min_gain : Z;
  max_gain : Z;
  input_type : Z;
  input_state : bool;
  desc_writable : bool;
  input_desc : list Z
}.

(** [bt_aics_init] on the members of [struct bt_aics] that the control point
    uses; the description array and the attribute table are outside.
    [aics->type] is a [uint8_t]. *)
Definition bt_aics_init (aics : Aics.bt_aics) (init : option bt_aics_init_t)
  (register_ret : Z) : Z * Aics.bt_aics :=
  let set_initialized a :=
    {| Aics.state := Aics.state a; Aics.gain_settings := Aics.gain_settings a;
       Aics.initialized := true; Aics.type := Aics.type a;
       Aics.status := Aics.status a; Aics.index := Aics.index a;
       Aics.cb := Aics.cb a |} in
  if Aics.initialized aics then (- EALREADY, aics)
  else match init with
  | Some i =>
      if (uint8 (mute i) >? Aics.AICS_STATE_MUTE_DISABLED)
         || (uint8 (mode i) >? Aics.AICS_MODE_AUTO)
         || ((int8 (input_type i) >? AICS_INPUT_TYPE_NETWORK)
             && negb (int8 (input_type i) =? AICS_INPUT_TYPE_OTHER))
      then (- EINVAL, aics)
      else
        registered set_initialized
          {| Aics.state := {| Aics.gain := int8 (gain i);
                              Aics.mute := uint8 (mute i);
                              Aics.mode := uint8 (mode i);
                              Aics.change_counter :=
                                Aics.change_counter (Aics.state aics) |};
             Aics.gain_settings := {| Aics.units := uint8 (units i);
                                      Aics.minimum := int8 (min_gain i);
                                      Aics.maximum := int8 (max_gain i) |};
             Aics.initialized := Aics.initialized aics;
             Aics.type := uint8 (int8 (input_type i));
             Aics.status := if input_state i then 1 else 0;
             Aics.index := Aics.index aics;
             Aics.cb := Aics.cb aics |}
          register_ret
  | None => registered set_initialized aics register_ret
  end.

End AicsInit.

(** An instance as static storage holds it before [bt_aics_init]: zeroed. *)
Definition aics_zeroed : Aics.bt_aics :=
  {| Aics.state := {| Aics.gain := 0; Aics.mute := 0; Aics.mode := 0;
                      Aics.change_counter := 0 |};
     Aics.gain_settings := {| Aics.units := 0; Aics.minimum := 0; Aics.maximum := 0 |};
     Aics.initialized := false; Aics.type := 0; Aics.status := 0; Aics.index := 0;
     Aics.cb := None |}.

Definition vocs_zeroed : Vocs.bt_vocs :=
  {| Vocs.state := {| Vocs.offset_ := 0; Vocs.change_counter := 0 |};
     Vocs.location := 0; Vocs.index := 0; Vocs.initialized := false;
     Vocs.output_desc := [0; 0; 0; 0; 0; 0; 0; 0]; Vocs.cb := None |}.

(** * Notifications at the VCS client (vcs_client.c vcs_notify_handler) *)

Module VcsClientNotify.

(** The members of [vcs_inst] and of [struct bt_vcs_cb_t] that only the
    notification handler uses: the flags handle, the cached flags, and the
    [state] and [flags] callbacks. *)
Record notify_part := mk_part {
  flag_handle : Z;
  flags : Z;
  cb_state : option callback;
  cb_flags : option callback
}.

Inductive event :=
| CallState (f : callback) (volume mute : Z)
| CallFlags (f : callback) (fl : Z).

(** [if (vcs_client_cb && vcs_client_cb->member)] *)
Definition call (g : VcsClient.globals) (member : option callback)
  (e : callback -> event) : list event :=
  match VcsClient.vcs_client_cb g, member with
  | Some _, Some f => [e f]
  | _, _ => []
  end.

(** [handle] is [params->value_handle]; [data] is [None] for a null
    pointer.  The handler always returns BT_GATT_ITER_CONTINUE. *)
Definition vcs_notify_handler (g : VcsClient.globals) (p : notify_part)
  (handle : Z) (data : option memory) (length : Z)
  : VcsClient.globals * notify_part * list event :=
  match data with
  | None => (g, p, [])
  | Some d =>
      if handle =? VcsClient.state_handle (VcsClient.vcs_inst g) then
        if length =? VcsClient.sizeof_vcs_state then
          let s := {| Vcs.volume := rd8 d 0; Vcs.mute := rd8 d 1;
                      Vcs.change_counter := rd8 d 2 |} in
          (VcsClient.with_inst g (VcsClient.with_state (VcsClient.vcs_inst g) s),
           p,
           call g (cb_state p) (fun f => CallState f (Vcs.volume s) (Vcs.mute s)))
        else (g, p, [])
      else if handle =? flag_handle p then
        if length =? 1 then
          (g,
           {| flag_handle := flag_handle p; flags := rd8 d 0;
              cb_state := cb_state p; cb_flags := cb_flags p |},
           call g (cb_flags p) (fun f => CallFlags f (rd8 d 0)))
        else (g, p, [])
      else (g, p, [])
  end.

End VcsClientNotify.
(** * Properties *)

(** ** The guards of the server control points *)

Ltac unfold_consts :=
  unfold BT_GATT_ERR, BT_ATT_ERR_INVALID_OFFSET, BT_ATT_ERR_INVALID_ATTRIBUTE_LEN,
    BT_ATT_ERR_UNLIKELY, UINT8_MAX in *.

Ltac split_ifs :=
  repeat match goal with
         | |- context [if ?b then _ else _] => destruct b eqn:?
         end.

Lemma vcs_guards_len w m : vcs_guards w m -> len w = 2 \/ len w = 3.
Proof.
  unfold vcs_guards, Vcs.bad_length, Vcs.VCS_CP_LEN, Vcs.VCS_CP_ABS_VOL_LEN.
  intros (_ & _ & _ & _ & H). lia.
Qed.

Lemma aics_guards_len w m : aics_guards w m -> len w = 2 \/ len w = 3.
Proof.
  unfold aics_guards, Aics.bad_length, Aics.AICS_CP_LEN, Aics.AICS_CP_SET_GAIN_LEN.
  intros (_ & _ & _ & _ & H). lia.
Qed.

(** Once the guards are passed [write_vcs_control] is the counter check
    followed by the switch and the two commit blocks. *)
Lemma write_vcs_control_guarded inst w m :
  vcs_guards w m ->
  Vcs.write_vcs_control inst w =
    if negb (Vcs.cp_counter m =? Vcs.change_counter (Vcs.state inst)) then
      Vcs.Return (BT_GATT_ERR Vcs.VCS_ERR_INVALID_COUNTER) inst []
    else match Vcs.vcs_switch (Vcs.volume_step inst) (Vcs.state inst) m with
         | None => Vcs.Return (BT_GATT_ERR Vcs.VCS_ERR_OP_NOT_SUPPORTED) inst []
         | Some r =>
             let '(inst1, evs1) := Vcs.commit_state inst r in
             Vcs.latch_flags (len w) inst1 evs1 (Vcs.sw_volume_change r)
         end.
Proof.
  intros (Ho & Hl & Hb & Hv & Hbad). unfold Vcs.write_vcs_control.
  rewrite Ho, Hb, Hv, Hbad. simpl.
  destruct (len w =? 0) eqn:E; [lia | reflexivity].
Qed.

Lemma write_aics_control_guarded inst w m :
  aics_guards w m ->
  Aics.write_aics_control inst w =
    if negb (Aics.cp_counter m =? Aics.change_counter (Aics.state inst)) then
      (BT_GATT_ERR Aics.AICS_ERR_INVALID_COUNTER, inst, [])
    else match Aics.aics_switch inst m with
         | Aics.SwErr e => (BT_GATT_ERR e, inst, [])
         | Aics.SwOk s true =>
             let s' := Aics.bump_counter s in
             (len w, Aics.with_state inst s',
              Aics.NotifyState (Aics.state_bytes s')
                :: match Aics.cb inst with
                   | Some c =>
                       match Aics.cb_state c with
                       | Some f => [Aics.CallState f (Aics.index inst) (Aics.gain s')
                                                   (Aics.mute s') (Aics.mode s')]
                       | None => []
                       end
                   | None => []
                   end)
         | Aics.SwOk s false => (len w, Aics.with_state inst s, [])
         end.
Proof.
  intros (Ho & Hl & Hb & Hv & Hbad). unfold Aics.write_aics_control.
  rewrite Ho, Hb, Hv, Hbad. simpl.
  destruct (len w =? 0) eqn:E; [lia | reflexivity].
Qed.

(** A write that fails a guard of [write_vcs_control] returns one of the
    three guard errors and leaves everything alone. *)
Lemma write_vcs_control_unguarded inst w :
  (forall m, ~ vcs_guards w m) ->
  exists e, Vcs.write_vcs_control inst w = Vcs.Return (BT_GATT_ERR e) inst []
            /\ (e = BT_ATT_ERR_INVALID_OFFSET \/ e = BT_ATT_ERR_INVALID_ATTRIBUTE_LEN
                \/ e = Vcs.VCS_ERR_OP_NOT_SUPPORTED).
Proof.
  intros H. unfold Vcs.write_vcs_control.
  destruct (negb (offset w =? 0)) eqn:Eo; [eauto|].
  destruct (len w =? 0) eqn:El; [eauto|].
  destruct (buf w) as [m|] eqn:Eb; [|eauto].
  destruct (negb (Vcs.VALID_VCS_OPCODE (Vcs.cp_opcode m))) eqn:Ev; [eauto 6|].
  destruct (Vcs.bad_length (len w) m) eqn:Ebad; [eauto|].
  exfalso. apply (H m). unfold vcs_guards. repeat split; first [assumption | lia].
Qed.

Lemma write_aics_control_unguarded inst w :
  (forall m, ~ aics_guards w m) ->
  exists e, Aics.write_aics_control inst w = (BT_GATT_ERR e, inst, [])
            /\ (e = BT_ATT_ERR_INVALID_OFFSET \/ e = BT_ATT_ERR_INVALID_ATTRIBUTE_LEN
                \/ e = Aics.AICS_ERR_OP_NOT_SUPPORTED).
Proof.
  intros H. unfold Aics.write_aics_control.
  destruct (negb (offset w =? 0)) eqn:Eo; [eauto|].
  destruct (len w =? 0) eqn:El; [eauto|].
  destruct (buf w) as [m|] eqn:Eb; [|eauto].
  destruct (negb (Aics.VALID_AICS_OPCODE (Aics.cp_opcode m))) eqn:Ev; [eauto 6|].
  destruct (Aics.bad_length (len w) m) eqn:Ebad; [eauto|].
  exfalso. apply (H m). unfold aics_guards. repeat split; first [assumption | lia].
Qed.

Lemma write_vocs_control_unguarded inst w :
  (forall m, ~ vocs_guards w m) ->
  exists e, Vocs.write_vocs_control inst w = (BT_GATT_ERR e, inst, [])
            /\ (e = BT_ATT_ERR_INVALID_OFFSET \/ e = BT_ATT_ERR_INVALID_ATTRIBUTE_LEN
                \/ e = Vocs.VOCS_ERR_OP_NOT_SUPPORTED).
Proof.
  intros H. unfold Vocs.write_vocs_control.
  destruct (len w =? 0) eqn:El; [eauto|].
  destruct (buf w) as [m|] eqn:Eb; [|eauto].
  destruct (negb (Vocs.VALID_VOCS_OPCODE (Vocs.cp_opcode m))) eqn:Ev; [eauto 6|].
  destruct (negb (offset w =? 0)) eqn:Eo; [eauto|].
  destruct (negb (len w =? Vocs.sizeof_vocs_control_t)) eqn:Es; [eauto|].
  exfalso. apply (H m). unfold vocs_guards. repeat split; first [assumption | lia].
Qed.

Lemma write_vocs_control_guarded inst w m :
  vocs_guards w m ->
  Vocs.write_vocs_control inst w =
    if negb (Vocs.cp_counter m =? Vocs.change_counter (Vocs.state inst)) then
      (BT_GATT_ERR Vocs.VOCS_ERR_INVALID_COUNTER, inst, [])
    else if (Vocs.cp_offset m >? UINT8_MAX) || (Vocs.cp_offset m <? - UINT8_MAX) then
      (BT_GATT_ERR Vocs.VOCS_ERR_OUT_OF_RANGE, inst, [])
    else if negb (Vocs.offset_ (Vocs.state inst) =? sys_le16_to_cpu (Vocs.cp_offset m)) then
      let s' := {| Vocs.offset_ := sys_le16_to_cpu (Vocs.cp_offset m);
                   Vocs.change_counter :=
                     uint8 (Vocs.change_counter (Vocs.state inst) + 1) |} in
      (len w, Vocs.with_state inst s',
       Vocs.NotifyState (Vocs.state_bytes s')
         :: match Vocs.cb inst with
            | Some c =>
                match Vocs.cb_state c with
                | Some f => [Vocs.CallState f (Vocs.index inst) (Vocs.offset_ s')]
                | None => []
                end
            | None => []
            end)
    else (len w, inst, []).
Proof.
  intros (Ho & Hl & Hb & Hv & Hs). unfold Vocs.write_vocs_control.
  rewrite Ho, Hb, Hv. simpl.
  destruct (len w =? 0) eqn:E; [lia|].
  destruct (negb (len w =? Vocs.sizeof_vocs_control_t)) eqn:E2; [lia|].
  unfold Vocs.VALID_VOCS_OPCODE in Hv. rewrite Hv. reflexivity.
Qed.

Lemma vcs_guards_dec w : (exists m, vcs_guards w m) \/ (forall m, ~ vcs_guards w m).
Proof.
  unfold vcs_guards. destruct (buf w) as [m|].
  - destruct (Z.eq_dec (offset w) 0); [|right; intros m' H; tauto].
    destruct (Z.eq_dec (len w) 0); [right; intros m' H; tauto|].
    destruct (Vcs.VALID_VCS_OPCODE (Vcs.cp_opcode m)) eqn:Ev;
      [|right; intros m' (_ & _ & E & H & _); injection E as <-; congruence].
    destruct (Vcs.bad_length (len w) m) eqn:Eb;
      [right; intros m' (_ & _ & E & _ & H); injection E as <-; congruence|].
    left. exists m. auto.
  - right. intros m (_ & _ & H & _). discriminate.
Qed.

Lemma aics_guards_dec w : (exists m, aics_guards w m) \/ (forall m, ~ aics_guards w m).
Proof.
  unfold aics_guards. destruct (buf w) as [m|].
  - destruct (Z.eq_dec (offset w) 0); [|right; intros m' H; tauto].
    destruct (Z.eq_dec (len w) 0); [right; intros m' H; tauto|].
    destruct (Aics.VALID_AICS_OPCODE (Aics.cp_opcode m)) eqn:Ev;
      [|right; intros m' (_ & _ & E & H & _); injection E as <-; congruence].
    destruct (Aics.bad_length (len w) m) eqn:Eb;
      [right; intros m' (_ & _ & E & _ & H); injection E as <-; congruence|].
    left. exists m. auto.
  - right. intros m (_ & _ & H & _). discriminate.
Qed.

Lemma vocs_guards_dec w : (exists m, vocs_guards w m) \/ (forall m, ~ vocs_guards w m).
Proof.
  unfold vocs_guards. destruct (buf w) as [m|].
  - destruct (Z.eq_dec (offset w) 0); [|right; intros m' H; tauto].
    destruct (Z.eq_dec (len w) 0); [right; intros m' H; tauto|].
    destruct (Vocs.VALID_VOCS_OPCODE (Vocs.cp_opcode m)) eqn:Ev;
      [|right; intros m' (_ & _ & E & H & _); injection E as <-; congruence].
    destruct (Z.eq_dec (len w) Vocs.sizeof_vocs_control_t);
      [|right; intros m' H; tauto].
    left. exists m. auto.
  - right. intros m (_ & _ & H & _). discriminate.
Qed.

Lemma vcs_guards_buf w m m' : vcs_guards w m -> vcs_guards w m' -> m' = m.
Proof. intros (_ & _ & H & _) (_ & _ & H' & _). congruence. Qed.

Lemma aics_guards_buf w m m' : aics_guards w m -> aics_guards w m' -> m' = m.
Proof. intros (_ & _ & H & _) (_ & _ & H' & _). congruence. Qed.

Lemma vocs_guards_buf w m m' : vocs_guards w m -> vocs_guards w m' -> m' = m.
Proof. intros (_ & _ & H & _) (_ & _ & H' & _). congruence. Qed.

(** ** Offset guard *)

(** [write_vcs_control] looks at the offset before anything else. *)
Lemma vcs_offset_guard_first inst w :
  offset w <> 0 ->
  Vcs.write_vcs_control inst w =
    Vcs.Return (BT_GATT_ERR BT_ATT_ERR_INVALID_OFFSET) inst [].
Proof.
  intros H. unfold Vcs.write_vcs_control.
  destruct (negb (offset w =? 0)) eqn:E; [reflexivity | lia].
Qed.

(** [write_aics_control] looks at the offset before anything else. *)
Lemma aics_offset_guard_first inst w :
  offset w <> 0 ->
  Aics.write_aics_control inst w =
    (BT_GATT_ERR BT_ATT_ERR_INVALID_OFFSET, inst, []).
Proof.
  intros H. unfold Aics.write_aics_control.
  destruct (negb (offset w =? 0)) eqn:E; [reflexivity | lia].
Qed.

(** [write_vocs_control] answers a non-zero offset with Invalid Offset only
    when the write is not empty and starts with the Set Offset opcode. *)
Lemma vocs_offset_guard_late inst w :
  offset w <> 0 ->
  Vocs.write_vocs_control inst w =
    if len w =? 0 then (BT_GATT_ERR BT_ATT_ERR_INVALID_ATTRIBUTE_LEN, inst, [])
    else match buf w with
         | None => (BT_GATT_ERR BT_ATT_ERR_INVALID_ATTRIBUTE_LEN, inst, [])
         | Some m =>
             if Vocs.cp_opcode m =? Vocs.VOCS_OPCODE_SET_OFFSET
             then (BT_GATT_ERR BT_ATT_ERR_INVALID_OFFSET, inst, [])
             else (BT_GATT_ERR Vocs.VOCS_ERR_OP_NOT_SUPPORTED, inst, [])
         end.
Proof.
  intros H. unfold Vocs.write_vocs_control, Vocs.VALID_VOCS_OPCODE.
  destruct (len w =? 0); [reflexivity|].
  destruct (buf w) as [m|]; [|reflexivity].
  destruct (Vocs.cp_opcode m =? Vocs.VOCS_OPCODE_SET_OFFSET); simpl; [|reflexivity].
  destruct (negb (offset w =? 0)) eqn:E; [reflexivity | lia].
Qed.

(** C6: a VOCS control-point write at ATT offset 1 whose first byte is not the
    Set Offset opcode is answered with Opcode Not Supported (0x81), and an
    empty one with Invalid Attribute Length, not with Invalid Offset: the
    VOCS handler reaches its offset guard only after the emptiness and opcode
    guards, unlike the VCS and AICS handlers. *)
Theorem C6_vocs_offset_guard_not_first :
  Vocs.write_vocs_control vocs_inst0 (write_of [0x00; 0; 0; 0] 1)
    = (BT_GATT_ERR Vocs.VOCS_ERR_OP_NOT_SUPPORTED, vocs_inst0, [])
  /\ Vocs.write_vocs_control vocs_inst0 (write_of [] 1)
    = (BT_GATT_ERR BT_ATT_ERR_INVALID_ATTRIBUTE_LEN, vocs_inst0, [])
  /\ BT_GATT_ERR Vocs.VOCS_ERR_OP_NOT_SUPPORTED <> BT_GATT_ERR BT_ATT_ERR_INVALID_OFFSET
  /\ BT_GATT_ERR BT_ATT_ERR_INVALID_ATTRIBUTE_LEN <> BT_GATT_ERR BT_ATT_ERR_INVALID_OFFSET.
Proof.
  repeat split; try reflexivity; discriminate.
Qed.

(** ** Counter guard *)

Lemma vcs_latch_ret ret inst evs vc r i e :
  Vcs.latch_flags ret inst evs vc = Vcs.Return r i e -> r = ret.
Proof.
  unfold Vcs.latch_flags.
  destruct (vc && (Vcs.flags inst =? 0)); [|congruence].
  destruct (Vcs.cb_and_state (Vcs.cb inst)) as [[c f]|]; [|congruence].
  destruct (Vcs.cb_flags c); congruence.
Qed.

Lemma vcs_counter_guard inst w :
  (Vcs.out_ret (Vcs.write_vcs_control inst w)
     = Some (BT_GATT_ERR Vcs.VCS_ERR_INVALID_COUNTER)
   <-> exists m, vcs_guards w m
                 /\ Vcs.cp_counter m <> Vcs.change_counter (Vcs.state inst))
  /\ (Vcs.out_ret (Vcs.write_vcs_control inst w)
        = Some (BT_GATT_ERR Vcs.VCS_ERR_INVALID_COUNTER) ->
      Vcs.write_vcs_control inst w
        = Vcs.Return (BT_GATT_ERR Vcs.VCS_ERR_INVALID_COUNTER) inst []).
Proof.
  destruct (vcs_guards_dec w) as [[m G] | N].
  - rewrite (write_vcs_control_guarded inst w m G).
    destruct (negb (Vcs.cp_counter m =? Vcs.change_counter (Vcs.state inst))) eqn:Ec.
    + split; [|reflexivity]. split; [|reflexivity].
      intros _. exists m. split; [assumption | lia].
    + assert (Hno : forall o,
                 o = match Vcs.vcs_switch (Vcs.volume_step inst) (Vcs.state inst) m with
                     | None => Vcs.Return (BT_GATT_ERR Vcs.VCS_ERR_OP_NOT_SUPPORTED) inst []
                     | Some r =>
                         let '(inst1, evs1) := Vcs.commit_state inst r in
                         Vcs.latch_flags (len w) inst1 evs1 (Vcs.sw_volume_change r)
                     end ->
                 Vcs.out_ret o <> Some (BT_GATT_ERR Vcs.VCS_ERR_INVALID_COUNTER)).
      { intros o ->.
        destruct (Vcs.vcs_switch _ _ _) as [r|]; [|simpl; discriminate].
        destruct (Vcs.commit_state inst r) as [inst1 evs1].
        destruct (Vcs.latch_flags _ _ _ _) as [r' i e|i e] eqn:El; [|discriminate].
        apply vcs_latch_ret in El. subst r'. simpl.
        pose proof (vcs_guards_len w m G).
        unfold BT_GATT_ERR, Vcs.VCS_ERR_INVALID_COUNTER. intros [=]. lia. }
      split; [|intros H; exfalso; eapply Hno; eauto].
      split; [intros H; exfalso; eapply Hno; eauto|].
      intros (m' & G' & Hc). rewrite (vcs_guards_buf w m m' G G') in Hc. lia.
  - destruct (write_vcs_control_unguarded inst w N) as (e & -> & He).
    cbn [Vcs.out_ret].
    assert (BT_GATT_ERR e <> BT_GATT_ERR Vcs.VCS_ERR_INVALID_COUNTER).
    { unfold BT_GATT_ERR, Vcs.VCS_ERR_INVALID_COUNTER.
      destruct He as [-> | [-> | ->]]; discriminate. }
    split; [|congruence]. split; [congruence|].
    intros (m & G & _). exfalso. exact (N m G).
Qed.

Lemma aics_switch_err inst m e :
  Aics.aics_switch inst m = Aics.SwErr e ->
  e = Aics.AICS_ERR_OUT_OF_RANGE \/ e = Aics.AICS_ERR_MUTE_DISABLED
  \/ e = Aics.AICS_ERR_GAIN_MODE_NO_SUPPORT \/ e = Aics.AICS_ERR_OP_NOT_SUPPORTED.
Proof.
  unfold Aics.aics_switch. split_ifs; intros [=]; subst; auto.
Qed.

Lemma aics_counter_guard inst w :
  (fst (fst (Aics.write_aics_control inst w))
     = BT_GATT_ERR Aics.AICS_ERR_INVALID_COUNTER
   <-> exists m, aics_guards w m
                 /\ Aics.cp_counter m <> Aics.change_counter (Aics.state inst))
  /\ (fst (fst (Aics.write_aics_control inst w))
        = BT_GATT_ERR Aics.AICS_ERR_INVALID_COUNTER ->
      Aics.write_aics_control inst w
        = (BT_GATT_ERR Aics.AICS_ERR_INVALID_COUNTER, inst, [])).
Proof.
  destruct (aics_guards_dec w) as [[m G] | N].
  - rewrite (write_aics_control_guarded inst w m G).
    destruct (negb (Aics.cp_counter m =? Aics.change_counter (Aics.state inst))) eqn:Ec.
    + split; [|reflexivity]. split; [|reflexivity].
      intros _. exists m. split; [assumption | lia].
    + pose proof (aics_guards_len w m G) as Hlen.
      assert (Hno : fst (fst match Aics.aics_switch inst m with
                     | Aics.SwErr e => (BT_GATT_ERR e, inst, [])
                     | Aics.SwOk s true =>
                         let s' := Aics.bump_counter s in
                         (len w, Aics.with_state inst s',
                          Aics.NotifyState (Aics.state_bytes s')
                            :: match Aics.cb inst with
                               | Some c =>
                                   match Aics.cb_state c with
                                   | Some f => [Aics.CallState f (Aics.index inst) (Aics.gain s')
                                                               (Aics.mute s') (Aics.mode s')]
                                   | None => []
                                   end
                               | None => []
                               end)
                     | Aics.SwOk s false => (len w, Aics.with_state inst s, [])
                     end) <> BT_GATT_ERR Aics.AICS_ERR_INVALID_COUNTER).
      { destruct (Aics.aics_switch inst m) as [e|s [|]] eqn:Es; cbn [fst];
          unfold BT_GATT_ERR, Aics.AICS_ERR_INVALID_COUNTER; try lia.
        apply aics_switch_err in Es.
        destruct Es as [-> | [-> | [-> | ->]]]; discriminate. }
      split; [|intros H; contradiction].
      split; [intros H; contradiction|].
      intros (m' & G' & Hc). rewrite (aics_guards_buf w m m' G G') in Hc. lia.
  - destruct (write_aics_control_unguarded inst w N) as (e & -> & He).
    cbn [fst].
    assert (BT_GATT_ERR e <> BT_GATT_ERR Aics.AICS_ERR_INVALID_COUNTER).
    { unfold BT_GATT_ERR, Aics.AICS_ERR_INVALID_COUNTER.
      destruct He as [-> | [-> | ->]]; discriminate. }
    split; [|contradiction]. split; [contradiction|].
    intros (m & G & _). exfalso. exact (N m G).
Qed.

Lemma vocs_counter_guard inst w :
  (fst (fst (Vocs.write_vocs_control inst w))
     = BT_GATT_ERR Vocs.VOCS_ERR_INVALID_COUNTER
   <-> exists m, vocs_guards w m
                 /\ Vocs.cp_counter m <> Vocs.change_counter (Vocs.state inst))
  /\ (fst (fst (Vocs.write_vocs_control inst w))
        = BT_GATT_ERR Vocs.VOCS_ERR_INVALID_COUNTER ->
      Vocs.write_vocs_control inst w
        = (BT_GATT_ERR Vocs.VOCS_ERR_INVALID_COUNTER, inst, [])).
Proof.
  destruct (vocs_guards_dec w) as [[m G] | N].
  - rewrite (write_vocs_control_guarded inst w m G).
    assert (Hlen : len w = 4) by (destruct G as (_ & _ & _ & _ & H); exact H).
    destruct (negb (Vocs.cp_counter m =? Vocs.change_counter (Vocs.state inst))) eqn:Ec.
    + split; [|reflexivity]. split; [|reflexivity].
      intros _. exists m. split; [assumption | lia].
    + assert (Hno : forall r,
                 r = fst (fst (if (Vocs.cp_offset m >? UINT8_MAX) || (Vocs.cp_offset m <? - UINT8_MAX)
                  then (BT_GATT_ERR Vocs.VOCS_ERR_OUT_OF_RANGE, inst, [])
                  else if negb (Vocs.offset_ (Vocs.state inst) =? sys_le16_to_cpu (Vocs.cp_offset m))
                  then
                    let s' := {| Vocs.offset_ := sys_le16_to_cpu (Vocs.cp_offset m);
                                 Vocs.change_counter :=
                                   uint8 (Vocs.change_counter (Vocs.state inst) + 1) |} in
                    (len w, Vocs.with_state inst s',
                     Vocs.NotifyState (Vocs.state_bytes s')
                       :: match Vocs.cb inst with
                          | Some c =>
                              match Vocs.cb_state c with
                              | Some f => [Vocs.CallState f (Vocs.index inst) (Vocs.offset_ s')]
                              | None => []
                              end
                          | None => []
                          end)
                  else (len w, inst, []))) ->
                 r <> BT_GATT_ERR Vocs.VOCS_ERR_INVALID_COUNTER).
      { intros r ->.
        destruct ((Vocs.cp_offset m >? UINT8_MAX) || (Vocs.cp_offset m <? - UINT8_MAX));
          [discriminate|].
        destruct (negb (Vocs.offset_ (Vocs.state inst) =? sys_le16_to_cpu (Vocs.cp_offset m)));
          cbn [fst]; rewrite Hlen; discriminate. }
      split; [|intros H; exfalso; eapply Hno; eauto].
      split; [intros H; exfalso; eapply Hno; eauto|].
      intros (m' & G' & Hc). rewrite (vocs_guards_buf w m m' G G') in Hc. lia.
  - destruct (write_vocs_control_unguarded inst w N) as (e & -> & He).
    cbn [fst].
    assert (BT_GATT_ERR e <> BT_GATT_ERR Vocs.VOCS_ERR_INVALID_COUNTER).
    { unfold BT_GATT_ERR, Vocs.VOCS_ERR_INVALID_COUNTER.
      destruct He as [-> | [-> | ->]]; discriminate. }
    split; [|contradiction]. split; [contradiction|].
    intros (m & G & _). exfalso. exact (N m G).
Qed.

(** C5: each of the three control-point handlers returns the Invalid Change
    Counter error (0x80, as [BT_GATT_ERR]) exactly when the write passes the
    offset, emptiness, opcode and length guards and its counter byte differs
    from the current [change_counter]; such a return leaves the instance as it
    was and emits nothing. *)
Theorem C5_invalid_change_counter :
  (forall inst w,
      (Vcs.out_ret (Vcs.write_vcs_control inst w)
         = Some (BT_GATT_ERR Vcs.VCS_ERR_INVALID_COUNTER)
       <-> exists m, vcs_guards w m
                     /\ Vcs.cp_counter m <> Vcs.change_counter (Vcs.state inst))
      /\ (Vcs.out_ret (Vcs.write_vcs_control inst w)
            = Some (BT_GATT_ERR Vcs.VCS_ERR_INVALID_COUNTER) ->
          Vcs.write_vcs_control inst w
            = Vcs.Return (BT_GATT_ERR Vcs.VCS_ERR_INVALID_COUNTER) inst []))
  /\ (forall inst w,
      (fst (fst (Aics.write_aics_control inst w))
         = BT_GATT_ERR Aics.AICS_ERR_INVALID_COUNTER
       <-> exists m, aics_guards w m
                     /\ Aics.cp_counter m <> Aics.change_counter (Aics.state inst))
      /\ (fst (fst (Aics.write_aics_control inst w))
            = BT_GATT_ERR Aics.AICS_ERR_INVALID_COUNTER ->
          Aics.write_aics_control inst w
            = (BT_GATT_ERR Aics.AICS_ERR_INVALID_COUNTER, inst, [])))
  /\ (forall inst w,
      (fst (fst (Vocs.write_vocs_control inst w))
         = BT_GATT_ERR Vocs.VOCS_ERR_INVALID_COUNTER
       <-> exists m, vocs_guards w m
                     /\ Vocs.cp_counter m <> Vocs.change_counter (Vocs.state inst))
      /\ (fst (fst (Vocs.write_vocs_control inst w))
            = BT_GATT_ERR Vocs.VOCS_ERR_INVALID_COUNTER ->
          Vocs.write_vocs_control inst w
            = (BT_GATT_ERR Vocs.VOCS_ERR_INVALID_COUNTER, inst, [])))
  /\ BT_GATT_ERR Vcs.VCS_ERR_INVALID_COUNTER = - 0x80
  /\ BT_GATT_ERR Aics.AICS_ERR_INVALID_COUNTER = - 0x80
  /\ BT_GATT_ERR Vocs.VOCS_ERR_INVALID_COUNTER = - 0x80.
Proof.
  split; [exact vcs_counter_guard|].
  split; [exact aics_counter_guard|].
  split; [exact vocs_counter_guard|].
  repeat split.
Qed.

(** ** VOCS Set Offset *)

(** C8: a VOCS Set Offset write that passes the offset, opcode, length and
    counter guards fails with Out Of Range (0x82) and changes nothing when
    its 16-bit operand v has |v| > 255, and otherwise succeeds and leaves
    exactly v as the stored offset. *)
Theorem C8_vocs_set_offset inst w m :
  vocs_guards w m ->
  Vocs.cp_counter m = Vocs.change_counter (Vocs.state inst) ->
  (Z.abs (Vocs.cp_offset m) > 255 ->
   Vocs.write_vocs_control inst w = (- 0x82, inst, []))
  /\ (- 255 <= Vocs.cp_offset m <= 255 ->
      fst (fst (Vocs.write_vocs_control inst w)) = len w
      /\ Vocs.offset_ (Vocs.state (snd (fst (Vocs.write_vocs_control inst w))))
         = Vocs.cp_offset m).
Proof.
  intros G Hc. rewrite (write_vocs_control_guarded inst w m G).
  destruct (negb (Vocs.cp_counter m =? Vocs.change_counter (Vocs.state inst))) eqn:Ec;
    [lia|].
  unfold sys_le16_to_cpu.
  destruct ((Vocs.cp_offset m >? UINT8_MAX) || (Vocs.cp_offset m <? - UINT8_MAX)) eqn:E;
    unfold UINT8_MAX in E; (split; intros Hv; [try reflexivity; lia|]); [lia|].
  destruct (negb (Vocs.offset_ (Vocs.state inst) =? Vocs.cp_offset m)) eqn:E2;
    cbn; split; try reflexivity; lia.
Qed.

Lemma C8_vocs_set_offset_witness :
  vocs_guards (write_of [0x01; 0; 0x00; 0x01] 0) (mem_of [0x01; 0; 0x00; 0x01])
  /\ Vocs.cp_counter (mem_of [0x01; 0; 0x00; 0x01])
     = Vocs.change_counter (Vocs.state vocs_inst0)
  /\ Vocs.write_vocs_control vocs_inst0 (write_of [0x01; 0; 0x00; 0x01] 0)
     = (- 0x82, vocs_inst0, [])
  /\ Vocs.offset_
       (Vocs.state (snd (fst (Vocs.write_vocs_control vocs_inst0
                                (write_of [0x01; 0; 0x01; 0xff] 0)))))
     = - 255.
Proof.
  assert (G : forall l, l = [0x01; 0; 0x00; 0x01] \/ l = [0x01; 0; 0x01; 0xff] ->
                        vocs_guards (write_of l 0) (mem_of l)).
  { intros l [-> | ->]; repeat split; discriminate. }
  split; [apply G; left; reflexivity|].
  split; [reflexivity|].
  split.
  - apply (C8_vocs_set_offset vocs_inst0 _ _ (G _ (or_introl eq_refl)) eq_refl).
    vm_compute. reflexivity.
  - apply (C8_vocs_set_offset vocs_inst0 _ _ (G _ (or_intror eq_refl)) eq_refl).
    vm_compute. split; discriminate.
Defined.

(** ** AICS Set Gain *)

Lemma aics_with_state_id inst : Aics.with_state inst (Aics.state inst) = inst.
Proof. destruct inst; reflexivity. Qed.

(** C1, as the code has it: a Set Gain write that passes the offset, opcode,
    length, counter and range guards returns success; in the modes Manual and
    Manual Only the operand becomes the gain, in the modes Auto and Auto Only
    the instance is left exactly as it was and nothing is notified. *)
Theorem C1_set_gain_by_mode inst w m :
  aics_guards w m ->
  Aics.cp_opcode m = Aics.AICS_OPCODE_SET_GAIN ->
  Aics.cp_counter m = Aics.change_counter (Aics.state inst) ->
  Aics.minimum (Aics.gain_settings inst) <= Aics.cp_gain_setting m
    <= Aics.maximum (Aics.gain_settings inst) ->
  fst (fst (Aics.write_aics_control inst w)) = len w
  /\ (Aics.mode (Aics.state inst) = Aics.AICS_MODE_MANUAL
      \/ Aics.mode (Aics.state inst) = Aics.AICS_MODE_MANUAL_ONLY ->
      Aics.gain (Aics.state (snd (fst (Aics.write_aics_control inst w))))
        = Aics.cp_gain_setting m)
  /\ (Aics.mode (Aics.state inst) = Aics.AICS_MODE_AUTO
      \/ Aics.mode (Aics.state inst) = Aics.AICS_MODE_AUTO_ONLY ->
      Aics.write_aics_control inst w = (len w, inst, [])).
Proof.
  intros G Hop Hc Hr. rewrite (write_aics_control_guarded inst w m G).
  destruct (negb (Aics.cp_counter m =? Aics.change_counter (Aics.state inst))) eqn:Ec;
    [lia|].
  unfold Aics.aics_switch. rewrite Hop. cbn [Z.eqb Aics.AICS_OPCODE_SET_GAIN Pos.eqb].
  destruct ((Aics.cp_gain_setting m <? Aics.minimum (Aics.gain_settings inst))
            || (Aics.cp_gain_setting m >? Aics.maximum (Aics.gain_settings inst))) eqn:Erange;
    [lia|].
  unfold Aics.AICS_INPUT_MODE_SETTABLE, Aics.AICS_MODE_MANUAL, Aics.AICS_MODE_MANUAL_ONLY,
    Aics.AICS_MODE_AUTO, Aics.AICS_MODE_AUTO_ONLY.
  destruct (((Aics.mode (Aics.state inst) =? 0) || (Aics.mode (Aics.state inst) =? 2))
            && negb (Aics.gain (Aics.state inst) =? Aics.cp_gain_setting m)) eqn:Eset;
    cbn [fst snd Aics.state Aics.with_state Aics.gain Aics.bump_counter Aics.set_gain].
  - split; [reflexivity|]. split; [reflexivity|]. lia.
  - rewrite aics_with_state_id. split; [reflexivity|]. split; [|reflexivity]. lia.
Qed.

Lemma C1_set_gain_by_mode_witness :
  aics_guards (write_of [0x01; 0; 5] 0) (mem_of [0x01; 0; 5])
  /\ Aics.gain (Aics.state (snd (fst (Aics.write_aics_control aics_inst1
                                        (write_of [0x01; 0; 5] 0))))) = 5
  /\ Aics.write_aics_control aics_inst0 (write_of [0x01; 0; 5] 0)
     = (3, aics_inst0, []).
Proof.
  assert (G : aics_guards (write_of [0x01; 0; 5] 0) (mem_of [0x01; 0; 5]))
    by (repeat split; discriminate).
  split; [exact G|].
  split.
  - refine (proj1 (proj2 (C1_set_gain_by_mode aics_inst1 _ _ G eq_refl eq_refl _)) _).
    + vm_compute. split; discriminate.
    + right. reflexivity.
  - refine (proj2 (proj2 (C1_set_gain_by_mode aics_inst0 _ _ G eq_refl eq_refl _)) _).
    + vm_compute. split; discriminate.
    + left. reflexivity.
Defined.

(** C1, counterexample to the wording of the specification: in mode Auto a
    Set Gain of 5 that passes every guard leaves the gain at 0. *)
Lemma C1_set_gain_counterexample :
  ~ set_gain_as_specified aics_inst0 (write_of [0x01; 0; 5] 0) (mem_of [0x01; 0; 5]).
Proof.
  unfold set_gain_as_specified. intros H.
  assert (G : aics_guards (write_of [0x01; 0; 5] 0) (mem_of [0x01; 0; 5]))
    by (repeat split; discriminate).
  specialize (H G eq_refl eq_refl).
  assert (R : Aics.minimum (Aics.gain_settings aics_inst0)
              <= Aics.cp_gain_setting (mem_of [0x01; 0; 5])
              <= Aics.maximum (Aics.gain_settings aics_inst0))
    by (vm_compute; split; discriminate).
  specialize (H R). vm_compute in H.
  destruct H as [H _]. specialize (H (or_intror eq_refl)). discriminate.
Qed.

(** ** VCS: the switch, the commit and the flags latch *)

Lemma uint8_small z : 0 <= z <= 255 -> uint8 z = z.
Proof. intros H. unfold uint8. apply Z.mod_small. lia. Qed.

Lemma vcs_switch_valid step s m :
  Vcs.VALID_VCS_OPCODE (Vcs.cp_opcode m) = true ->
  exists r, Vcs.vcs_switch step s m = Some r
            /\ Vcs.sw_volume_change r = volume_changing (Vcs.cp_opcode m).
Proof.
  unfold Vcs.VALID_VCS_OPCODE, Vcs.vcs_switch, volume_changing,
    Vcs.VCS_OPCODE_REL_VOL_DOWN, Vcs.VCS_OPCODE_REL_VOL_UP,
    Vcs.VCS_OPCODE_UNMUTE_REL_VOL_DOWN, Vcs.VCS_OPCODE_UNMUTE_REL_VOL_UP,
    Vcs.VCS_OPCODE_SET_ABS_VOL, Vcs.VCS_OPCODE_UNMUTE, Vcs.VCS_OPCODE_MUTE.
  intros Hv.
  repeat match goal with
         | |- context [if Vcs.cp_opcode m =? ?k then _ else _] =>
             destruct (Vcs.cp_opcode m =? k) eqn:?
         end;
    try (eexists; split; [reflexivity|];
         unfold Vcs.unmute, Vcs.vol_down, Vcs.vol_up, Vcs.volume_changed;
         cbn [Vcs.sw_volume_change Vcs.sw_state Vcs.sw_notify];
         split_ifs; cbn [Vcs.sw_volume_change]; lia).
  exfalso. lia.
Qed.

(** What the switch leaves: the counter is untouched, [notify] is set exactly
    when the volume or the mute value has really changed. *)
Lemma vcs_switch_notify step s m r :
  0 <= Vcs.volume s <= 255 -> 1 <= step <= 255 ->
  Vcs.vcs_switch step s m = Some r ->
  Vcs.change_counter (Vcs.sw_state r) = Vcs.change_counter s
  /\ (Vcs.sw_notify r = true -> vcs_fields (Vcs.sw_state r) <> vcs_fields s)
  /\ (Vcs.sw_notify r = false -> Vcs.sw_state r = s).
Proof.
  intros Hvol Hstep. unfold Vcs.vcs_switch, Vcs.vol_down, Vcs.vol_up, Vcs.unmute,
    Vcs.volume_changed, Vcs.VOLUME_DOWN, Vcs.VOLUME_UP, UINT8_MAX, vcs_fields.
  cbn [Vcs.sw_state Vcs.sw_notify Vcs.sw_volume_change].
  split_ifs; intros [= <-];
    cbn [Vcs.sw_state Vcs.sw_notify Vcs.sw_volume_change Vcs.set_volume Vcs.set_mute
         Vcs.volume Vcs.mute Vcs.change_counter] in *;
    (split; [reflexivity|]); (split; [|try discriminate; try reflexivity]);
    try discriminate; intros _ [=];
    unfold uint8, Vcs.cp_volume, rd8, uint8 in *;
    try (Z.to_euclidean_division_equations; lia).
Qed.

Lemma filter_app_nil {A} (f : A -> bool) l1 l2 :
  filter f l2 = [] -> filter f (l1 ++ l2) = filter f l1.
Proof. intros H. rewrite filter_app, H. apply app_nil_r. Qed.

(** The [if (notify)] block: nothing without [notify]; with it the counter
    is bumped and exactly one state notification carries the new state. *)
Lemma vcs_commit_state inst r inst1 evs1 :
  Vcs.commit_state inst r = (inst1, evs1) ->
  Vcs.flags inst1 = Vcs.flags inst /\ Vcs.cb inst1 = Vcs.cb inst
  /\ Vcs.volume_step inst1 = Vcs.volume_step inst
  /\ filter is_flags_notify evs1 = []
  /\ (Vcs.sw_notify r = false ->
      Vcs.state inst1 = Vcs.sw_state r /\ evs1 = [])
  /\ (Vcs.sw_notify r = true ->
      Vcs.state inst1 = Vcs.bump_counter (Vcs.sw_state r)
      /\ filter is_state_notify evs1
         = [Vcs.Notify Vcs.BT_UUID_VCS_STATE (Vcs.state_bytes (Vcs.state inst1))]).
Proof.
  unfold Vcs.commit_state. destruct (Vcs.sw_notify r); intros [= <- <-];
    cbn [Vcs.flags Vcs.cb Vcs.volume_step Vcs.state]; repeat split;
    try discriminate; try reflexivity;
    destruct (Vcs.cb_and_state (Vcs.cb inst)) as [[c f]|]; reflexivity.
Qed.

(** The flags block: it never touches the state, and what it emits is no
    state notification. *)
Lemma vcs_latch_flags_state ret inst evs vc :
  Vcs.state (Vcs.out_inst (Vcs.latch_flags ret inst evs vc)) = Vcs.state inst
  /\ Vcs.cb (Vcs.out_inst (Vcs.latch_flags ret inst evs vc)) = Vcs.cb inst
  /\ Vcs.volume_step (Vcs.out_inst (Vcs.latch_flags ret inst evs vc))
     = Vcs.volume_step inst
  /\ filter is_state_notify (Vcs.out_events (Vcs.latch_flags ret inst evs vc))
     = filter is_state_notify evs.
Proof.
  unfold Vcs.latch_flags.
  destruct (vc && (Vcs.flags inst =? 0)); [|repeat split].
  destruct (Vcs.cb_and_state (Vcs.cb inst)) as [[c f]|];
    [destruct (Vcs.cb_flags c)|];
    cbn [Vcs.out_inst Vcs.out_events Vcs.state Vcs.cb Vcs.volume_step];
    repeat split; rewrite <- ?app_assoc; apply filter_app_nil; reflexivity.
Qed.

(** The flags block in detail: it acts when [volume_change] is set and
    [flags] is still 0, setting [flags] to 1 and sending one Flags
    notification with the value 1; otherwise it does nothing. *)
Lemma vcs_latch_flags_flags ret inst evs vc :
  let o := Vcs.latch_flags ret inst evs vc in
  (vc = true -> Vcs.flags inst = 0 ->
   Vcs.flags (Vcs.out_inst o) = 1
   /\ filter is_flags_notify (Vcs.out_events o)
      = filter is_flags_notify evs ++ [Vcs.Notify Vcs.BT_UUID_VCS_FLAGS [1]])
  /\ (vc = false \/ Vcs.flags inst <> 0 -> o = Vcs.Return ret inst evs).
Proof.
  unfold Vcs.latch_flags. split.
  - intros -> ->. cbn [andb Z.eqb].
    destruct (Vcs.cb_and_state (Vcs.cb inst)) as [[c f]|];
      [destruct (Vcs.cb_flags c)|];
      cbn [Vcs.out_inst Vcs.out_events Vcs.flags]; (split; [reflexivity|]);
      rewrite ?filter_app; cbn [filter is_flags_notify]; rewrite ?app_nil_r; reflexivity.
  - intros H. destruct (vc && (Vcs.flags inst =? 0)) eqn:E; [|reflexivity].
    exfalso. destruct H as [-> | H]; [discriminate | lia].
Qed.

(** Whether the flags block returns or calls through a null pointer. *)
Lemma vcs_latch_flags_ret ret inst evs vc :
  (vcs_cb_sound inst ->
   Vcs.out_ret (Vcs.latch_flags ret inst evs vc) = Some ret)
  /\ (forall c f, vc = true -> Vcs.flags inst = 0 ->
                  Vcs.cb inst = Some c -> Vcs.cb_state c = Some f ->
                  Vcs.cb_flags c = None ->
                  Vcs.out_ret (Vcs.latch_flags ret inst evs vc) = None).
Proof.
  unfold Vcs.latch_flags, vcs_cb_sound, Vcs.cb_and_state. split.
  - intros S. destruct (vc && (Vcs.flags inst =? 0)); [|reflexivity].
    destruct (Vcs.cb inst) as [c|]; [|reflexivity].
    destruct (Vcs.cb_state c) as [f|] eqn:Es; [|reflexivity].
    destruct (Vcs.cb_flags c) as [g|] eqn:Ef; [reflexivity|].
    exfalso. apply (S c eq_refl); congruence.
  - intros c f -> -> -> -> ->. reflexivity.
Qed.

(** The VCS part of C4. *)
Lemma vcs_commit inst w m :
  vcs_guards w m ->
  Vcs.cp_counter m = Vcs.change_counter (Vcs.state inst) ->
  vcs_inst_ok inst ->
  let o := Vcs.write_vcs_control inst w in
  (vcs_fields (Vcs.state (Vcs.out_inst o)) = vcs_fields (Vcs.state inst) ->
   Vcs.state (Vcs.out_inst o) = Vcs.state inst
   /\ filter is_state_notify (Vcs.out_events o) = [])
  /\ (vcs_fields (Vcs.state (Vcs.out_inst o)) <> vcs_fields (Vcs.state inst) ->
      Vcs.change_counter (Vcs.state (Vcs.out_inst o))
        = (Vcs.change_counter (Vcs.state inst) + 1) mod 256
      /\ filter is_state_notify (Vcs.out_events o)
         = [Vcs.Notify Vcs.BT_UUID_VCS_STATE
              (Vcs.state_bytes (Vcs.state (Vcs.out_inst o)))])
  /\ (vcs_cb_sound inst -> Vcs.out_ret o = Some (len w)).
Proof.
  intros G Hc [Hvol Hstep]. cbv zeta.
  rewrite (write_vcs_control_guarded inst w m G).
  destruct (negb (Vcs.cp_counter m =? Vcs.change_counter (Vcs.state inst))) eqn:Ec;
    [lia|].
  destruct G as (_ & _ & _ & Hv & _).
  destruct (vcs_switch_valid (Vcs.volume_step inst) (Vcs.state inst) m Hv)
    as (r & Hr & _).
  rewrite Hr.
  destruct (vcs_switch_notify _ _ _ _ Hvol Hstep Hr) as (Hctr & Hyes & Hno).
  destruct (Vcs.commit_state inst r) as [inst1 evs1] eqn:Ecommit.
  destruct (vcs_commit_state _ _ _ _ Ecommit) as (_ & Hcb & _ & _ & Hn0 & Hn1).
  destruct (vcs_latch_flags_state (len w) inst1 evs1 (Vcs.sw_volume_change r))
    as (Hst & Hcb' & _ & Hev).
  rewrite Hst, Hev.
  destruct (Vcs.sw_notify r) eqn:En.
  - destruct (Hn1 eq_refl) as [Hs1 Hf1]. specialize (Hyes eq_refl).
    rewrite Hs1 in *. unfold vcs_fields in *.
    cbn [Vcs.bump_counter Vcs.volume Vcs.mute Vcs.change_counter] in *.
    split; [intros H; contradiction|].
    split; [intros _; split; [rewrite Hctr; reflexivity | exact Hf1]|].
    intros S. apply vcs_latch_flags_ret. unfold vcs_cb_sound. rewrite Hcb. exact S.
  - destruct (Hn0 eq_refl) as [Hs1 He1]. specialize (Hno eq_refl).
    rewrite Hs1, Hno, He1.
    split; [intros _; split; reflexivity|].
    split; [intros H; contradiction|].
    intros S. apply vcs_latch_flags_ret. unfold vcs_cb_sound. rewrite Hcb. exact S.
Qed.

(** ** AICS and VOCS: the commit *)

Lemma aics_switch_notify inst m s n :
  Aics.aics_switch inst m = Aics.SwOk s n ->
  Aics.change_counter s = Aics.change_counter (Aics.state inst)
  /\ (n = true -> aics_fields s <> aics_fields (Aics.state inst))
  /\ (n = false -> s = Aics.state inst).
Proof.
  unfold Aics.aics_switch, aics_fields.
  split_ifs; intros [= <- <-];
    cbn [Aics.set_gain Aics.set_mute Aics.set_mode Aics.gain Aics.mute Aics.mode
         Aics.change_counter];
    (split; [reflexivity|]); (split; [|try discriminate; try reflexivity]);
    try discriminate; intros _ [=]; lia.
Qed.

(** The AICS part of C4. *)
Lemma aics_commit inst w m :
  aics_guards w m ->
  Aics.cp_counter m = Aics.change_counter (Aics.state inst) ->
  0 <= fst (fst (Aics.write_aics_control inst w)) ->
  fst (fst (Aics.write_aics_control inst w)) = len w
  /\ (aics_fields (Aics.state (snd (fst (Aics.write_aics_control inst w))))
        = aics_fields (Aics.state inst) ->
      Aics.write_aics_control inst w = (len w, inst, []))
  /\ (aics_fields (Aics.state (snd (fst (Aics.write_aics_control inst w))))
        <> aics_fields (Aics.state inst) ->
      Aics.change_counter (Aics.state (snd (fst (Aics.write_aics_control inst w))))
        = (Aics.change_counter (Aics.state inst) + 1) mod 256
      /\ filter aics_is_notify (snd (Aics.write_aics_control inst w))
         = [Aics.NotifyState
              (Aics.state_bytes
                 (Aics.state (snd (fst (Aics.write_aics_control inst w)))))]).
Proof.
  intros G Hc. rewrite (write_aics_control_guarded inst w m G).
  destruct (negb (Aics.cp_counter m =? Aics.change_counter (Aics.state inst))) eqn:Ec;
    [lia|].
  destruct (Aics.aics_switch inst m) as [e|s n] eqn:Es.
  - apply aics_switch_err in Es. cbn [fst]. intros H. exfalso.
    unfold BT_GATT_ERR in H.
    destruct Es as [-> | [-> | [-> | ->]]]; revert H; vm_compute; intros H; apply H; reflexivity.
  - destruct (aics_switch_notify _ _ _ _ Es) as (Hctr & Hyes & Hno).
    destruct n; intros _; cbv zeta; cbn [fst snd Aics.state Aics.with_state].
    + specialize (Hyes eq_refl).
      split; [reflexivity|]. split; [intros H; exfalso; apply Hyes; exact H|].
      intros _. split.
      * cbn [Aics.bump_counter Aics.change_counter]. rewrite Hctr. reflexivity.
      * cbn [filter aics_is_notify]. f_equal.
        destruct (Aics.cb inst) as [c|]; [destruct (Aics.cb_state c)|]; reflexivity.
    + rewrite (Hno eq_refl), aics_with_state_id.
      split; [reflexivity|]. split; [reflexivity|]. intros H. contradiction.
Qed.

(** The VOCS part of C4. *)
Lemma vocs_commit inst w m :
  vocs_guards w m ->
  Vocs.cp_counter m = Vocs.change_counter (Vocs.state inst) ->
  0 <= fst (fst (Vocs.write_vocs_control inst w)) ->
  fst (fst (Vocs.write_vocs_control inst w)) = len w
  /\ (Vocs.offset_ (Vocs.state (snd (fst (Vocs.write_vocs_control inst w))))
        = Vocs.offset_ (Vocs.state inst) ->
      Vocs.write_vocs_control inst w = (len w, inst, []))
  /\ (Vocs.offset_ (Vocs.state (snd (fst (Vocs.write_vocs_control inst w))))
        <> Vocs.offset_ (Vocs.state inst) ->
      Vocs.change_counter (Vocs.state (snd (fst (Vocs.write_vocs_control inst w))))
        = (Vocs.change_counter (Vocs.state inst) + 1) mod 256
      /\ filter vocs_is_notify (snd (Vocs.write_vocs_control inst w))
         = [Vocs.NotifyState
              (Vocs.state_bytes
                 (Vocs.state (snd (fst (Vocs.write_vocs_control inst w)))))]).
Proof.
  intros G Hc. rewrite (write_vocs_control_guarded inst w m G).
  destruct (negb (Vocs.cp_counter m =? Vocs.change_counter (Vocs.state inst))) eqn:Ec;
    [lia|].
  destruct ((Vocs.cp_offset m >? UINT8_MAX) || (Vocs.cp_offset m <? - UINT8_MAX)) eqn:Er.
  - cbn [fst]. vm_compute. intros H. exfalso. apply H. reflexivity.
  - unfold sys_le16_to_cpu.
    destruct (negb (Vocs.offset_ (Vocs.state inst) =? Vocs.cp_offset m)) eqn:Eo;
      intros _; cbv zeta; cbn [fst snd Vocs.state Vocs.with_state Vocs.offset_
                                 Vocs.change_counter].
    + split; [reflexivity|]. split; [intros H; exfalso; lia|].
      intros _. split; [reflexivity|].
      cbn [filter vocs_is_notify]. f_equal.
      destruct (Vocs.cb inst) as [c|]; [destruct (Vocs.cb_state c)|]; reflexivity.
    + split; [reflexivity|]. split; [reflexivity|]. intros H. contradiction.
Qed.



(** ** VCS: the flags latch over a session *)

(** A write either leaves [flags] alone and sends no Flags notification, or
    finds [flags] at 0, sets it to 1 and sends exactly one. *)
Lemma write_vcs_flags inst w :
  let o := Vcs.write_vcs_control inst w in
  (Vcs.flags (Vcs.out_inst o) = Vcs.flags inst
   /\ filter is_flags_notify (Vcs.out_events o) = [])
  \/ (Vcs.flags inst = 0 /\ Vcs.flags (Vcs.out_inst o) = 1
      /\ filter is_flags_notify (Vcs.out_events o)
         = [Vcs.Notify Vcs.BT_UUID_VCS_FLAGS [1]]).
Proof.
  cbv zeta. unfold Vcs.write_vcs_control.
  destruct (negb (offset w =? 0)); [left; split; reflexivity|].
  destruct (len w =? 0); [left; split; reflexivity|].
  destruct (buf w) as [m|]; [|left; split; reflexivity].
  destruct (negb (Vcs.VALID_VCS_OPCODE (Vcs.cp_opcode m))); [left; split; reflexivity|].
  destruct (Vcs.bad_length (len w) m); [left; split; reflexivity|].
  destruct (negb (Vcs.cp_counter m =? Vcs.change_counter (Vcs.state inst)));
    [left; split; reflexivity|].
  destruct (Vcs.vcs_switch _ _ _) as [r|]; [|left; split; reflexivity].
  destruct (Vcs.commit_state inst r) as [inst1 evs1] eqn:Ec.
  destruct (vcs_commit_state _ _ _ _ Ec) as (Hf & _ & _ & Hnf & _).
  destruct (vcs_latch_flags_flags (len w) inst1 evs1 (Vcs.sw_volume_change r))
    as [Hyes Hno].
  destruct (Vcs.sw_volume_change r) eqn:Evc.
  - destruct (Z.eq_dec (Vcs.flags inst1) 0) as [E0 | E0].
    + right. destruct (Hyes eq_refl E0) as [H1 H2].
      rewrite H1, H2, Hnf. split; [congruence|]. split; reflexivity.
    + left. rewrite (Hno (or_intror E0)). cbn [Vcs.out_inst Vcs.out_events].
      split; assumption.
  - left. rewrite (Hno (or_introl eq_refl)). cbn [Vcs.out_inst Vcs.out_events].
    split; assumption.
Qed.

Lemma apply_op_flags inst op :
  let o := apply_op inst op in
  (Vcs.flags (Vcs.out_inst o) = Vcs.flags inst
   /\ filter is_flags_notify (Vcs.out_events o) = [])
  \/ (Vcs.flags inst = 0 /\ Vcs.flags (Vcs.out_inst o) = 1
      /\ filter is_flags_notify (Vcs.out_events o)
         = [Vcs.Notify Vcs.BT_UUID_VCS_FLAGS [1]]).
Proof.
  destruct op as [w | c | n | |]; cbn [apply_op].
  - apply write_vcs_flags.
  - left. split; reflexivity.
  - left. unfold Vcs.bt_vcs_volume_step_set.
    destruct (uint8 n >? 0); split; reflexivity.
  - left. unfold Vcs.bt_vcs_volume_get.
    destruct (Vcs.cb_and_state (Vcs.cb inst)) as [[c f]|]; split; reflexivity.
  - left. unfold Vcs.bt_vcs_flags_get.
    destruct (Vcs.cb_and_state (Vcs.cb inst)) as [[c f]|];
      [destruct (Vcs.cb_flags c)|]; split; reflexivity.
Qed.

Lemma session_latched ops : forall inst,
  Vcs.flags inst = 1 ->
  Vcs.flags (fst (session inst ops)) = 1
  /\ filter is_flags_notify (snd (session inst ops)) = [].
Proof.
  induction ops as [|op ops IH]; intros inst Hf; cbn [session].
  - split; [exact Hf | reflexivity].
  - destruct (apply_op_flags inst op) as [[H1 H2] | [H0 _]]; [|congruence].
    destruct (apply_op inst op) as [r i e | i e]; cbn [Vcs.out_inst Vcs.out_events] in *.
    + destruct (IH i) as [IH1 IH2]; [congruence|].
      destruct (session i ops) as [i' e']. cbn [fst snd] in *.
      split; [exact IH1|]. rewrite filter_app, H2, IH2. reflexivity.
    + cbn [fst snd]. split; [congruence | exact H2].
Qed.

Lemma session_flags_once ops : forall inst,
  Vcs.flags inst = 0 ->
  (Vcs.flags (fst (session inst ops)) = 0 \/ Vcs.flags (fst (session inst ops)) = 1)
  /\ (length (filter is_flags_notify (snd (session inst ops))) <= 1)%nat.
Proof.
  induction ops as [|op ops IH]; intros inst Hf; cbn [session].
  - split; [left; exact Hf | cbn; lia].
  - destruct (apply_op_flags inst op) as [[H1 H2] | (_ & H1 & H2)];
      destruct (apply_op inst op) as [r i e | i e];
      cbn [Vcs.out_inst Vcs.out_events] in *.
    + destruct (IH i) as [IH1 IH2]; [congruence|].
      destruct (session i ops) as [i' e']. cbn [fst snd] in *.
      split; [exact IH1|]. rewrite filter_app, H2. exact IH2.
    + cbn [fst snd]. rewrite H2. split; [left; congruence | cbn; lia].
    + destruct (session_latched ops i H1) as [L1 L2].
      destruct (session i ops) as [i' e']. cbn [fst snd] in *.
      split; [right; exact L1|]. rewrite filter_app, H2, L2. cbn. lia.
    + cbn [fst snd]. rewrite H2. split; [right; exact H1 | cbn; lia].
Qed.

(** The ranges of the data model hold throughout a session that starts
    within them, as the initial instance does. *)
Lemma vcs_switch_range step s m r :
  0 <= Vcs.volume s <= 255 ->
  Vcs.vcs_switch step s m = Some r ->
  0 <= Vcs.volume (Vcs.sw_state r) <= 255.
Proof.
  intros Hvol. unfold Vcs.vcs_switch, Vcs.vol_down, Vcs.vol_up, Vcs.unmute,
    Vcs.volume_changed, Vcs.VOLUME_DOWN, Vcs.VOLUME_UP, Vcs.cp_volume, rd8.
  cbn [Vcs.sw_state Vcs.sw_notify Vcs.sw_volume_change].
  split_ifs; intros [= <-];
    cbn [Vcs.sw_state Vcs.set_volume Vcs.set_mute Vcs.volume];
    try assumption; unfold uint8;
    match goal with
    | |- 0 <= ?x mod 256 <= 255 =>
        pose proof (Z.mod_pos_bound x 256 eq_refl); lia
    end.
Qed.

Lemma write_vcs_inst_ok inst w :
  vcs_inst_ok inst -> vcs_inst_ok (Vcs.out_inst (Vcs.write_vcs_control inst w)).
Proof.
  intros [Hvol Hstep]. unfold Vcs.write_vcs_control.
  destruct (negb (offset w =? 0)); [split; assumption|].
  destruct (len w =? 0); [split; assumption|].
  destruct (buf w) as [m|]; [|split; assumption].
  destruct (negb (Vcs.VALID_VCS_OPCODE (Vcs.cp_opcode m))); [split; assumption|].
  destruct (Vcs.bad_length (len w) m); [split; assumption|].
  destruct (negb (Vcs.cp_counter m =? Vcs.change_counter (Vcs.state inst)));
    [split; assumption|].
  destruct (Vcs.vcs_switch _ _ _) as [r|] eqn:Esw; [|split; assumption].
  pose proof (vcs_switch_range _ _ _ _ Hvol Esw) as Hr.
  destruct (Vcs.commit_state inst r) as [inst1 evs1] eqn:Ec.
  destruct (vcs_commit_state _ _ _ _ Ec) as (_ & _ & Hs1 & _ & Hn0 & Hn1).
  destruct (vcs_latch_flags_state (len w) inst1 evs1 (Vcs.sw_volume_change r))
    as (Hst & _ & Hvs & _).
  unfold vcs_inst_ok. rewrite Hst, Hvs, Hs1. split; [|assumption].
  destruct (Vcs.sw_notify r).
  - destruct (Hn1 eq_refl) as [-> _]. exact Hr.
  - destruct (Hn0 eq_refl) as [-> _]. exact Hr.
Qed.

Lemma apply_op_inst_ok inst op :
  vcs_inst_ok inst -> vcs_inst_ok (Vcs.out_inst (apply_op inst op)).
Proof.
  intros Ok. destruct op as [w | c | n | |]; cbn [apply_op].
  - apply write_vcs_inst_ok. exact Ok.
  - exact Ok.
  - unfold Vcs.bt_vcs_volume_step_set.
    destruct (uint8 n >? 0) eqn:E; [|exact Ok].
    destruct Ok as [Hvol _]. split; [exact Hvol|].
    cbn [Vcs.out_inst Vcs.volume_step]. unfold uint8 in *.
    pose proof (Z.mod_pos_bound n 256 eq_refl). lia.
  - unfold Vcs.bt_vcs_volume_get.
    destruct (Vcs.cb_and_state (Vcs.cb inst)) as [[c f]|]; exact Ok.
  - unfold Vcs.bt_vcs_flags_get.
    destruct (Vcs.cb_and_state (Vcs.cb inst)) as [[c f]|];
      [destruct (Vcs.cb_flags c)|]; exact Ok.
Qed.

Lemma session_inst_ok ops : forall inst,
  vcs_inst_ok inst -> vcs_inst_ok (fst (session inst ops)).
Proof.
  induction ops as [|op ops IH]; intros inst Ok; cbn [session].
  - exact Ok.
  - pose proof (apply_op_inst_ok inst op Ok) as Ok'.
    destruct (apply_op inst op) as [r i e | i e]; cbn [Vcs.out_inst] in Ok'.
    + specialize (IH i Ok'). destruct (session i ops) as [i' e']. exact IH.
    + exact Ok'.
Qed.

(** A handler that returns a non-negative value has passed every guard. *)
Lemma vcs_success_guards inst w ret inst' evs :
  Vcs.write_vcs_control inst w = Vcs.Return ret inst' evs -> 0 <= ret ->
  exists m, vcs_guards w m
            /\ Vcs.cp_counter m = Vcs.change_counter (Vcs.state inst).
Proof.
  intros H Hr. destruct (vcs_guards_dec w) as [[m G] | N].
  - exists m. split; [exact G|].
    rewrite (write_vcs_control_guarded inst w m G) in H.
    destruct (negb (Vcs.cp_counter m =? Vcs.change_counter (Vcs.state inst))) eqn:Ec;
      [|lia].
    injection H as <- _ _. exfalso. revert Hr. vm_compute. intros Hr. apply Hr. reflexivity.
  - destruct (write_vcs_control_unguarded inst w N) as (e & He & Hcase).
    rewrite He in H. injection H as <- _ _. exfalso.
    destruct Hcase as [-> | [-> | ->]]; revert Hr; vm_compute; intros Hr; apply Hr; reflexivity.
Qed.

(** [flags] changes only in a control-point write that passes every guard
    and carries a volume-changing opcode. *)
Lemma flags_changed_by op inst :
  Vcs.flags (Vcs.out_inst (apply_op inst op)) <> Vcs.flags inst ->
  exists w m, op = OpWrite w /\ vcs_guards w m
              /\ Vcs.cp_counter m = Vcs.change_counter (Vcs.state inst)
              /\ volume_changing (Vcs.cp_opcode m) = true.
Proof.
  destruct op as [w | c | n | |]; cbn [apply_op].
  - intros H. exists w.
    destruct (vcs_guards_dec w) as [[m G] | N].
    + exists m. split; [reflexivity|]. split; [exact G|].
      rewrite (write_vcs_control_guarded inst w m G) in H.
      destruct (negb (Vcs.cp_counter m =? Vcs.change_counter (Vcs.state inst))) eqn:Ec;
        [exfalso; apply H; reflexivity|].
      split; [lia|].
      destruct G as (_ & _ & _ & Hv & _).
      destruct (vcs_switch_valid (Vcs.volume_step inst) (Vcs.state inst) m Hv)
        as (r & Hsw & Hvcr).
      rewrite Hsw in H. rewrite <- Hvcr.
      destruct (Vcs.commit_state inst r) as [inst1 evs1] eqn:Ecommit.
      destruct (vcs_commit_state _ _ _ _ Ecommit) as (Hf1 & _).
      destruct (vcs_latch_flags_flags (len w) inst1 evs1 (Vcs.sw_volume_change r))
        as [_ Hno].
      destruct (Vcs.sw_volume_change r); [reflexivity|].
      exfalso. apply H. rewrite (Hno (or_introl eq_refl)). exact Hf1.
    + exfalso. destruct (write_vcs_control_unguarded inst w N) as (e & He & _).
      rewrite He in H. apply H. reflexivity.
  - intros H. exfalso. apply H. reflexivity.
  - unfold Vcs.bt_vcs_volume_step_set.
    destruct (uint8 n >? 0); intros H; exfalso; apply H; reflexivity.
  - unfold Vcs.bt_vcs_volume_get.
    destruct (Vcs.cb_and_state (Vcs.cb inst)) as [[c f]|];
      intros H; exfalso; apply H; reflexivity.
  - unfold Vcs.bt_vcs_flags_get.
    destruct (Vcs.cb_and_state (Vcs.cb inst)) as [[c f]|];
      [destruct (Vcs.cb_flags c)|]; intros H; exfalso; apply H; reflexivity.
Qed.

(** C7: a successful VCS control-point write with one of the five
    volume-changing opcodes, met with [flags] at 0, leaves [flags] at 1 (bit 0
    set) and sends exactly one Flags notification, whether or not the volume
    changed; from then on every operation of the session leaves [flags] at 1
    and sends no Flags notification; a session that starts from the initial
    instance sends at most one Flags notification in all; and nothing but a
    volume-changing write that passes every guard ever changes [flags], so
    that the write which finds [flags] at 0 is the first such write. *)
Theorem C7_flags_latch :
  (forall inst w m ret inst' evs,
      buf w = Some m ->
      volume_changing (Vcs.cp_opcode m) = true ->
      Vcs.flags inst = 0 ->
      Vcs.write_vcs_control inst w = Vcs.Return ret inst' evs ->
      0 <= ret ->
      Vcs.flags inst' = 1 /\ Z.testbit (Vcs.flags inst') 0 = true
      /\ filter is_flags_notify evs = [Vcs.Notify Vcs.BT_UUID_VCS_FLAGS [1]])
  /\ (forall inst ops,
      Vcs.flags inst = 1 ->
      Vcs.flags (fst (session inst ops)) = 1
      /\ filter is_flags_notify (snd (session inst ops)) = [])
  /\ (forall ops,
      (Vcs.flags (fst (session Vcs.vcs_inst ops)) = 0
       \/ Vcs.flags (fst (session Vcs.vcs_inst ops)) = 1)
      /\ (length (filter is_flags_notify (snd (session Vcs.vcs_inst ops))) <= 1)%nat)
  /\ (forall inst op,
      Vcs.flags (Vcs.out_inst (apply_op inst op)) <> Vcs.flags inst ->
      exists w m, op = OpWrite w /\ vcs_guards w m
                  /\ Vcs.cp_counter m = Vcs.change_counter (Vcs.state inst)
                  /\ volume_changing (Vcs.cp_opcode m) = true).
Proof.
  split; [|split; [|split; [|exact (fun inst op => flags_changed_by op inst)]]].
  - intros inst w m ret inst' evs Hb Hvc Hf H Hr.
    destruct (vcs_success_guards _ _ _ _ _ H Hr) as (m' & G & Hc).
    assert (m' = m) by (destruct G as (_ & _ & G & _); congruence). subst m'.
    rewrite (write_vcs_control_guarded inst w m G) in H.
    destruct (negb (Vcs.cp_counter m =? Vcs.change_counter (Vcs.state inst))) eqn:Ec;
      [lia|].
    destruct G as (_ & _ & _ & Hv & _).
    destruct (vcs_switch_valid (Vcs.volume_step inst) (Vcs.state inst) m Hv)
      as (r & Hsw & Hvcr).
    rewrite Hsw in H.
    destruct (Vcs.commit_state inst r) as [inst1 evs1] eqn:Ecommit.
    destruct (vcs_commit_state _ _ _ _ Ecommit) as (Hf1 & _ & _ & Hnf & _).
    destruct (vcs_latch_flags_flags (len w) inst1 evs1 (Vcs.sw_volume_change r))
      as [Hyes _].
    rewrite Hvcr, Hvc in *. rewrite H in Hyes. cbn [Vcs.out_inst Vcs.out_events] in Hyes.
    destruct (Hyes eq_refl) as [F1 F2]; [congruence|].
    rewrite F1, F2, Hnf. repeat split.
  - exact (fun inst ops => session_latched ops inst).
  - intros ops. apply session_flags_once. reflexivity.
Qed.

Lemma C7_flags_latch_witness :
  Vcs.flags (Vcs.out_inst (Vcs.write_vcs_control Vcs.vcs_inst
                             (write_of [0x04; 0; 100] 0))) = 1
  /\ Vcs.flags (fst (session (Vcs.out_inst (Vcs.write_vcs_control Vcs.vcs_inst
                                              (write_of [0x04; 0; 100] 0)))
                             [OpWrite (write_of [0x01; 0] 0);
                              OpWrite (write_of [0x00; 1] 0)])) = 1.
Proof.
  split.
  - refine (proj1 (proj1 C7_flags_latch Vcs.vcs_inst (write_of [0x04; 0; 100] 0)
                     (mem_of [0x04; 0; 100]) 3 _ _ eq_refl eq_refl eq_refl eq_refl _)).
    vm_compute. discriminate.
  - refine (proj1 (proj1 (proj2 C7_flags_latch) _ _ _)). reflexivity.
Defined.

(** ** VCS: the guard in front of the flags callback *)

(** C10: in the flags-latch block the call of the [flags] member is guarded by
    the [state] member alone.  For a write that passes the guards with a
    volume-changing opcode while [flags] is 0: with callbacks whose [state]
    member is set and whose [flags] member is null the handler calls through
    the null pointer; with callbacks whose [state] member is null the [flags]
    member is never called, set or not; with both set it is called with the
    value 1. *)
Theorem C10_flags_callback_guard inst w m :
  vcs_guards w m ->
  Vcs.cp_counter m = Vcs.change_counter (Vcs.state inst) ->
  volume_changing (Vcs.cp_opcode m) = true ->
  Vcs.flags inst = 0 ->
  let o := Vcs.write_vcs_control inst w in
  (forall c f, Vcs.cb inst = Some c -> Vcs.cb_state c = Some f ->
               Vcs.cb_flags c = None ->
               exists i e, o = Vcs.NullCall i e)
  /\ (forall c, Vcs.cb inst = Some c -> Vcs.cb_state c = None ->
                Vcs.out_ret o = Some (len w)
                /\ filter is_call_flags (Vcs.out_events o) = [])
  /\ (forall c f g, Vcs.cb inst = Some c -> Vcs.cb_state c = Some f ->
                    Vcs.cb_flags c = Some g ->
                    Vcs.out_ret o = Some (len w)
                    /\ filter is_call_flags (Vcs.out_events o) = [Vcs.CallFlags g 1]).
Proof.
  intros G Hc Hvc Hf. cbv zeta.
  rewrite (write_vcs_control_guarded inst w m G).
  destruct (negb (Vcs.cp_counter m =? Vcs.change_counter (Vcs.state inst))) eqn:Ec;
    [lia|].
  destruct G as (_ & _ & _ & Hv & _).
  destruct (vcs_switch_valid (Vcs.volume_step inst) (Vcs.state inst) m Hv)
    as (r & Hsw & Hvcr).
  rewrite Hsw, Hvcr, Hvc.
  assert (Hcommit : exists s evs1,
             Vcs.commit_state inst r
             = ({| Vcs.state := s; Vcs.flags := Vcs.flags inst; Vcs.cb := Vcs.cb inst;
                   Vcs.volume_step := Vcs.volume_step inst |}, evs1)
             /\ filter is_call_flags evs1 = []).
  { unfold Vcs.commit_state. destruct (Vcs.sw_notify r).
    - eexists _, _. split; [reflexivity|].
      destruct (Vcs.cb_and_state (Vcs.cb inst)) as [[c f]|]; reflexivity.
    - eexists _, _. split; reflexivity. }
  destruct Hcommit as (s & evs1 & -> & Hnc).
  unfold Vcs.latch_flags, Vcs.cb_and_state. cbn [Vcs.flags Vcs.cb andb].
  rewrite Hf. cbn [Z.eqb].
  split; [|split].
  - intros c f -> -> ->. eauto.
  - intros c -> ->. cbn [Vcs.out_ret Vcs.out_events]. split; [reflexivity|].
    rewrite filter_app, Hnc. reflexivity.
  - intros c f g -> -> ->. cbn [Vcs.out_ret Vcs.out_events]. split; [reflexivity|].
    rewrite !filter_app, Hnc. reflexivity.
Qed.

Lemma C10_flags_callback_guard_witness :
  vcs_guards (write_of [0x01; 0] 0) (mem_of [0x01; 0])
  /\ exists i e,
       Vcs.write_vcs_control
         (Vcs.bt_vcs_server_cb_register Vcs.vcs_inst (Some cb_state_only))
         (write_of [0x01; 0] 0)
       = Vcs.NullCall i e.
Proof.
  assert (G : vcs_guards (write_of [0x01; 0] 0) (mem_of [0x01; 0]))
    by (repeat split; discriminate).
  split; [exact G|].
  exact (proj1 (C10_flags_callback_guard
                  (Vcs.bt_vcs_server_cb_register Vcs.vcs_inst (Some cb_state_only))
                  _ _ G eq_refl eq_refl eq_refl)
               cb_state_only 1%nat eq_refl eq_refl eq_refl).
Defined.

(** ** ASCS: Number_of_ASEs *)

Lemma existsb_snoc {A} (f : A -> bool) l x :
  existsb f (l ++ [x]) = existsb f l || f x.
Proof. rewrite existsb_app. cbn. rewrite orb_false_r. reflexivity. Qed.

(** Once Number_of_ASEs is 0xFF, [ascs_cp_rsp_add] returns at once. *)
Lemma ascs_cp_rsp_add_saturated rsp id op code reason :
  Ascs.num_ase rsp = 0xff ->
  Ascs.ascs_cp_rsp_add (Some rsp) id op code reason = Some rsp.
Proof. intros H. unfold Ascs.ascs_cp_rsp_add. rewrite H. reflexivity. Qed.

Lemma rsp_invariant_step n clean b c :
  (n = 0%nat -> b = None) ->
  rsp_invariant n clean b ->
  rsp_invariant (S n) (clean && negb (call_overloads c)) (ascs_cp_rsp_add_call b c).
Proof.
  intros Hn0 Inv.
  assert (Hrsp : exists rsp,
             (match b with None => Ascs.ascs_cp_rsp_alloc (Ascs.call_op c) | Some r => r end)
             = rsp
             /\ rsp_invariant n clean (Some rsp)
             /\ (n = 0%nat -> Ascs.ase rsp = [])).
  { destruct b as [r|].
    - exists r. split; [reflexivity|]. split; [exact Inv|].
      intros E. specialize (Hn0 E). discriminate.
    - cbn in Inv. subst n. eexists. split; [reflexivity|].
      cbn. repeat split; try discriminate; try reflexivity; lia. }
  destruct Hrsp as (rsp & Hb & (I1 & I2 & I3) & _).
  unfold ascs_cp_rsp_add_call, Ascs.ascs_cp_rsp_add. rewrite Hb.
  destruct (Ascs.num_ase rsp =? 0xff) eqn:Eff.
  - cbn. split; [exact I1|]. split; [exact I2|].
    intros Hc. apply andb_true_iff in Hc. destruct Hc as [Hc _].
    destruct (I3 Hc) as [I3a I3b]. split; [exact I3a|].
    destruct (I2 I3a) as [I2a I2b]. lia.
  - assert (Hclean : existsb overloads_num_ase (Ascs.ase rsp) = false).
    { destruct (existsb overloads_num_ase (Ascs.ase rsp)) eqn:E; [|reflexivity].
      specialize (I1 eq_refl). lia. }
    destruct (I2 Hclean) as [I2a I2b].
    cbn [rsp_invariant Ascs.num_ase Ascs.ase].
    rewrite existsb_snoc, Hclean, length_app. cbn [orb length].
    unfold overloads_num_ase at 1 2 3. cbn [Ascs.code].
    unfold call_overloads.
    destruct ((uint8 (Ascs.call_code c) =? Ascs.BT_ASCS_RSP_NOT_SUPPORTED)
              || (uint8 (Ascs.call_code c) =? Ascs.BT_ASCS_RSP_TRUNCATED)) eqn:Ecode.
    + split; [reflexivity|]. split; [discriminate|].
      rewrite andb_false_r. discriminate.
    + split; [discriminate|]. split.
      * intros _. rewrite uint8_small; lia.
      * rewrite andb_true_r. intros Hc. split; [reflexivity|].
        destruct (I3 Hc) as [_ I3b]. lia.
Qed.

Lemma rsp_invariant_fold calls : forall n clean b,
  (n = 0%nat -> b = None) ->
  rsp_invariant n clean b ->
  rsp_invariant (n + length calls) (clean && forallb (fun c => negb (call_overloads c)) calls)
                (fold_left ascs_cp_rsp_add_call calls b).
Proof.
  induction calls as [|c calls IH]; intros n clean b Hn0 Inv; cbn [fold_left length forallb].
  - rewrite Nat.add_0_r, andb_true_r. exact Inv.
  - rewrite andb_assoc. replace (n + S (length calls))%nat with (S n + length calls)%nat by lia.
    apply IH; [discriminate|]. apply rsp_invariant_step; assumption.
Qed.

(** C9: in the response that a control-point write builds with
    [ascs_cp_rsp_add] on the reset buffer, Number_of_ASEs is 0xFF as soon as
    an entry with the code Not Supported or Truncated is in it, and a buffer
    whose Number_of_ASEs is 0xFF is not changed by further calls; without
    such an entry Number_of_ASEs is the number of ASE entries in the
    response, which is the number of calls made (up to the 255 that the
    field can count). *)
Theorem C9_num_ases calls rsp :
  Ascs.ascs_cp_rsp_adds calls = Some rsp ->
  (existsb overloads_num_ase (Ascs.ase rsp) = true -> Ascs.num_ase rsp = 0xff)
  /\ (Ascs.num_ase rsp = 0xff ->
      forall id op code reason,
        Ascs.ascs_cp_rsp_add (Some rsp) id op code reason = Some rsp)
  /\ (existsb overloads_num_ase (Ascs.ase rsp) = false ->
      Ascs.num_ase rsp = Z.of_nat (length (Ascs.ase rsp)))
  /\ (forallb (fun c => negb (call_overloads c)) calls = true ->
      Ascs.num_ase rsp = Z.of_nat (Nat.min (length calls) 255)).
Proof.
  intros H.
  pose proof (rsp_invariant_fold calls 0 true None (fun _ => eq_refl) eq_refl) as Inv.
  unfold Ascs.ascs_cp_rsp_adds, Ascs.net_buf_simple_reset in H.
  change (fold_left ascs_cp_rsp_add_call calls None = Some rsp) in H.
  rewrite H in Inv. cbn [rsp_invariant andb Nat.add] in Inv.
  destruct Inv as (I1 & I2 & I3).
  split; [exact I1|]. split.
  - intros Hff id op code reason. apply ascs_cp_rsp_add_saturated. exact Hff.
  - split; [intros Hc; apply I2; exact Hc|].
    intros Hc. destruct (I3 Hc) as [I3a I3b]. destruct (I2 I3a) as [I2a _]. congruence.
Qed.

Lemma C9_num_ases_witness :
  Ascs.ascs_cp_rsp_adds ascs_example_calls = Some ascs_example_rsp
  /\ Ascs.num_ase ascs_example_rsp = 0xff
  /\ Ascs.num_ase ascs_example_rsp <> Z.of_nat (length (Ascs.ase ascs_example_rsp)).
Proof.
  split; [reflexivity|]. split; [|discriminate].
  exact (proj1 (C9_num_ases ascs_example_calls ascs_example_rsp eq_refl) eq_refl).
Defined.

(** ** CSIS: the set lock *)

Lemma notify_client_lock_fields x acc c :
  lock_fields (fst (Csis.notify_client x acc c)) = lock_fields (fst acc).
Proof.
  destruct acc as [i evs]. unfold Csis.notify_client.
  destruct (match x with Some x0 => Csis.same_conn c x0 | None => false end);
    reflexivity.
Qed.

(** The host state is the same throughout one handler call. *)
Section OneCall.

Variable h : Csis.host.

Lemma notify_clients_lock_fields i x :
  lock_fields (fst (Csis.notify_clients h i x)) = lock_fields i.
Proof.
  unfold Csis.notify_clients.
  set (acc := (Csis.with_pend i (map (Csis.mark_pending x) (Csis.pend_notify i)), [])).
  change (lock_fields i) with (lock_fields (fst acc)).
  generalize acc. clear acc.
  induction (Csis.conns h) as [|c cs IH]; intros acc; cbn [fold_left].
  - reflexivity.
  - rewrite IH. apply notify_client_lock_fields.
Qed.

Lemma lock_fields_inv i j :
  lock_fields i = lock_fields j ->
  Csis.set_lock i = Csis.set_lock j
  /\ Csis.set_lock_timer i = Csis.set_lock_timer j
  /\ Csis.lock_client_addr i = Csis.lock_client_addr j.
Proof. unfold lock_fields. intros [= H1 H2 H3]. auto. Qed.

Lemma lock_ok_fields i j : lock_fields i = lock_fields j -> lock_ok j -> lock_ok i.
Proof.
  intros H. destruct (lock_fields_inv _ _ H) as (H1 & H2 & _).
  unfold lock_ok. rewrite H1, H2. auto.
Qed.

(** What a successful write of the set-lock characteristic leaves. *)
Lemma write_set_lock_fields g conn m len offset n g' evs :
  Csis.write_set_lock h g conn m len offset = (Csis.Len n, g', evs) ->
  lock_fields (Csis.csis_inst g')
  = if rd8 m 0 =? Csis.BT_CSIP_LOCK_VALUE
    then (Csis.BT_CSIP_LOCK_VALUE, true,
          match conn with
          | Some c => Csis.dst c
          | None => Csis.lock_client_addr (Csis.csis_inst g)
          end)
    else (Csis.BT_CSIP_RELEASE_VALUE, false, Csis.server_dummy_addr).
Proof.
  unfold Csis.write_set_lock.
  destruct (negb (offset =? 0)); [discriminate|].
  destruct (negb (len =? 1)); [discriminate|].
  destruct (negb (rd8 m 0 =? Csis.BT_CSIP_RELEASE_VALUE)
            && negb (rd8 m 0 =? Csis.BT_CSIP_LOCK_VALUE)) eqn:Eval; [discriminate|].
  destruct ((Csis.set_lock (Csis.csis_inst g) =? Csis.BT_CSIP_LOCK_VALUE)
            && (rd8 m 0 =? Csis.BT_CSIP_LOCK_VALUE)); [discriminate|].
  destruct ((Csis.set_lock (Csis.csis_inst g) =? Csis.BT_CSIP_LOCK_VALUE)
            && negb (Csis.is_last_client_to_write (Csis.csis_inst g) conn));
    [discriminate|].
  cbn [Csis.with_lock Csis.set_lock].
  set (i2 := if rd8 m 0 =? Csis.BT_CSIP_LOCK_VALUE then _ else _).
  assert (Hi2 : lock_fields i2
                = if rd8 m 0 =? Csis.BT_CSIP_LOCK_VALUE
                  then (Csis.BT_CSIP_LOCK_VALUE, true,
                        match conn with
                        | Some c => Csis.dst c
                        | None => Csis.lock_client_addr (Csis.csis_inst g)
                        end)
                  else (Csis.BT_CSIP_RELEASE_VALUE, false, Csis.server_dummy_addr)).
  { subst i2. destruct (rd8 m 0 =? Csis.BT_CSIP_LOCK_VALUE) eqn:El.
    - assert (rd8 m 0 = Csis.BT_CSIP_LOCK_VALUE) as -> by lia.
      destruct conn; reflexivity.
    - assert (rd8 m 0 = Csis.BT_CSIP_RELEASE_VALUE) as -> by lia. reflexivity. }
  destruct (negb (Csis.set_lock (Csis.csis_inst g) =? rd8 m 0)).
  - pose proof (notify_clients_lock_fields i2 conn) as Hn.
    destruct (Csis.notify_clients h i2 conn) as [i3 evs3]. cbn [fst] in Hn.
    intros [= _ <- _]. cbn [Csis.csis_inst Csis.with_inst]. congruence.
  - intros [= _ <- _]. cbn [Csis.csis_inst Csis.with_inst]. exact Hi2.
Qed.

(** A write that fails leaves the engine as it was. *)
Lemma write_set_lock_error g conn m len offset e g' evs :
  Csis.write_set_lock h g conn m len offset = (Csis.BT_GATT_ERR e, g', evs) ->
  g' = g.
Proof.
  unfold Csis.write_set_lock.
  repeat match goal with
         | |- context [if ?b then (Csis.BT_GATT_ERR _, _, _) else _] =>
             destruct b; [intros [= _ <- _]; reflexivity|]
         end.
  destruct (negb (Csis.set_lock (Csis.csis_inst g) =? rd8 m 0)).
  - destruct (Csis.notify_clients _ _ _). discriminate.
  - discriminate.
Qed.

Lemma write_set_lock_ok g conn m len offset :
  lock_ok (Csis.csis_inst g) ->
  lock_ok (Csis.csis_inst (snd (fst (Csis.write_set_lock h g conn m len offset)))).
Proof.
  intros Ok.
  destruct (Csis.write_set_lock h g conn m len offset) as [[[n|e] g'] evs] eqn:E;
    cbn [fst snd].
  - apply write_set_lock_fields in E. unfold lock_ok.
    destruct (rd8 m 0 =? Csis.BT_CSIP_LOCK_VALUE);
      unfold lock_fields in E; injection E as E1 E2 _;
      rewrite E1, E2; split; auto; discriminate.
  - apply write_set_lock_error in E. subst g'. exact Ok.
Qed.

Lemma released_ok i :
  Csis.set_lock i = Csis.BT_CSIP_RELEASE_VALUE -> lock_ok i.
Proof. intros H. unfold lock_ok. rewrite H. split; [auto | discriminate]. Qed.

Lemma timer_expiry_ok g : lock_ok (Csis.csis_inst (fst (Csis.timer_expiry h g))).
Proof.
  unfold Csis.timer_expiry, Csis.set_lock_timer_handler.
  cbn [Csis.csis_inst Csis.with_inst].
  set (i1 := Csis.with_lock _ _).
  pose proof (notify_clients_lock_fields i1 None) as Hn.
  destruct (Csis.notify_clients h i1 None) as [i2 evs]. cbn [fst] in *.
  cbn [Csis.csis_inst Csis.with_inst].
  apply released_ok. apply lock_fields_inv in Hn. destruct Hn as [-> _]. reflexivity.
Qed.

Lemma update_pend_lock_fields i p :
  lock_fields (Csis.with_pend i p) = lock_fields i.
Proof. reflexivity. Qed.

Lemma csis_disconnected_ok g conn :
  lock_ok (Csis.csis_inst g) ->
  lock_ok (Csis.csis_inst (fst (Csis.csis_disconnected h g conn))).
Proof.
  intros Ok. unfold Csis.csis_disconnected.
  destruct (Csis.is_bonded h conn); [exact Ok|].
  destruct (Csis.is_last_client_to_write (Csis.csis_inst g) (Some conn)).
  - set (ia := Csis.with_lock _ _).
    pose proof (notify_clients_lock_fields ia None) as Hn.
    destruct (Csis.notify_clients h ia None) as [ib evs]. cbn [fst] in *.
    cbn [fst Csis.csis_inst Csis.with_inst].
    apply released_ok. cbn [Csis.with_pend Csis.set_lock].
    apply lock_fields_inv in Hn. destruct Hn as [-> _]. reflexivity.
  - cbn [fst Csis.csis_inst Csis.with_inst].
    eapply lock_ok_fields; [apply update_pend_lock_fields | exact Ok].
Qed.

Lemma csis_security_changed_ok g conn :
  lock_ok (Csis.csis_inst g) ->
  lock_ok (Csis.csis_inst (fst (Csis.csis_security_changed h g conn))).
Proof.
  intros Ok. unfold Csis.csis_security_changed.
  destruct (negb (Csis.is_bonded h conn)); [exact Ok|].
  destruct (existsb _ _); [|exact Ok].
  cbn [fst Csis.csis_inst Csis.with_inst].
  eapply lock_ok_fields; [apply update_pend_lock_fields | exact Ok].
Qed.

Lemma auth_pairing_complete_ok oo g conn bonded :
  lock_ok (Csis.csis_inst g) ->
  lock_ok (Csis.csis_inst (Csis.auth_pairing_complete oo g conn bonded)).
Proof.
  intros Ok. unfold Csis.auth_pairing_complete.
  destruct (negb bonded); [exact Ok|].
  destruct (existsb _ _); [exact Ok|].
  destruct (existsb _ _); [exact Ok|].
  destruct oo; [|exact Ok].
  destruct (Csis.pend_notify (Csis.csis_inst g)); exact Ok.
Qed.

Lemma bt_csis_lock_ok g lock force :
  lock_ok (Csis.csis_inst g) ->
  lock_ok (Csis.csis_inst (snd (fst (Csis.bt_csis_lock h g lock force)))).
Proof.
  intros Ok. unfold Csis.bt_csis_lock.
  destruct (negb lock && force).
  - set (i1 := Csis.with_lock _ _).
    pose proof (notify_clients_lock_fields i1 None) as Hn.
    destruct (Csis.notify_clients h i1 None) as [i2 evs]. cbn [fst snd] in *.
    cbn [Csis.csis_inst Csis.with_inst].
    apply released_ok. apply lock_fields_inv in Hn. destruct Hn as [-> _]. reflexivity.
  - pose proof (write_set_lock_ok g None
                  (mem_of [if lock then Csis.BT_CSIP_LOCK_VALUE
                           else Csis.BT_CSIP_RELEASE_VALUE]) 1 0 Ok) as Hw.
    destruct (Csis.write_set_lock _ _ _ _ _ _) as [[[n|e] g'] evs]; exact Hw.
Qed.

End OneCall.

Lemma step_lock_ok oo g g' :
  Csis.step oo g g' -> lock_ok (Csis.csis_inst g) -> lock_ok (Csis.csis_inst g').
Proof.
  intros S Ok. destruct S.
  - apply write_set_lock_ok; exact Ok.
  - apply bt_csis_lock_ok; exact Ok.
  - apply timer_expiry_ok.
  - apply csis_disconnected_ok; exact Ok.
  - apply csis_security_changed_ok; exact Ok.
  - apply auth_pairing_complete_ok; exact Ok.
  - exact Ok.
Qed.

Lemma reachable_lock_ok oo n g :
  Csis.reachable oo n g -> lock_ok (Csis.csis_inst g).
Proof.
  induction 1 as [|g g' _ IH S].
  - apply released_ok. reflexivity.
  - exact (step_lock_ok oo g g' S IH).
Qed.

(** C3, as the code has it: in every state that the engine reaches through
    set-lock writes, the server's lock API, timer expiry, disconnects,
    security changes, pairings and callback registration, the lock is
    Released or Locked, and while it is Locked the lock timer is armed.  A
    successful Lock write leaves Locked, the timer armed, and the writer's
    address in [lock_client_addr] when there is a connection, the old content
    of [lock_client_addr] when the server itself locks; a successful Release
    write leaves Released, the timer cancelled and [lock_client_addr]
    zeroed. *)
Theorem C3_locked_implies_timer oo n g :
  Csis.reachable oo n g ->
  lock_ok (Csis.csis_inst g)
  /\ (forall h conn m len offset k g' evs,
      Csis.write_set_lock h g conn m len offset = (Csis.Len k, g', evs) ->
      lock_fields (Csis.csis_inst g')
      = if rd8 m 0 =? Csis.BT_CSIP_LOCK_VALUE
        then (Csis.BT_CSIP_LOCK_VALUE, true,
              match conn with
              | Some c => Csis.dst c
              | None => Csis.lock_client_addr (Csis.csis_inst g)
              end)
        else (Csis.BT_CSIP_RELEASE_VALUE, false, Csis.server_dummy_addr)).
Proof.
  intros R. split.
  - exact (reachable_lock_ok oo n g R).
  - intros h conn m len offset k g' evs H.
    exact (write_set_lock_fields h g conn m len offset k g' evs H).
Qed.

Lemma csis_server_locked_reachable : Csis.reachable false 1 csis_server_locked.
Proof.
  unfold csis_server_locked.
  apply (Csis.reach_step false 1 (Csis.bt_csis_init 1)).
  - apply Csis.reach_init.
  - apply Csis.step_lock_api.
Qed.

Lemma C3_locked_implies_timer_witness :
  Csis.reachable false 1 csis_server_locked
  /\ lock_ok (Csis.csis_inst csis_server_locked)
  /\ Csis.set_lock_timer (Csis.csis_inst csis_server_locked) = true.
Proof.
  split; [exact csis_server_locked_reachable|].
  pose (T := C3_locked_implies_timer false 1 csis_server_locked
               csis_server_locked_reachable).
  split; [exact (proj1 T)|].
  exact (proj2 (proj1 T) eq_refl).
Defined.

(** C3, counterexample to the wording of the specification: after
    [bt_csis_lock(true, false)] on the initial engine the lock is Locked and
    the timer armed while [lock_client_addr] is still the zeroed address. *)
Lemma C3_lock_invariant_counterexample :
  Csis.reachable false 1 csis_server_locked
  /\ ~ lock_invariant_as_specified csis_server_locked.
Proof.
  split; [exact csis_server_locked_reachable|].
  unfold lock_invariant_as_specified. intros [H _].
  destruct (H eq_refl) as [Hne _]. apply Hne. reflexivity.
Qed.

(** The other direction of the specified invariant is lost on a forced
    release: [bt_csis_lock(false, true)] sets the lock to Released without
    cancelling the timer or clearing [lock_client_addr]. *)
Lemma csis_forced_release_fields :
  Csis.reachable false 1 csis_forced_release
  /\ lock_fields (Csis.csis_inst csis_forced_release)
     = (Csis.BT_CSIP_RELEASE_VALUE, true, Csis.dst peer_a).
Proof.
  split; [|reflexivity].
  unfold csis_forced_release.
  eapply Csis.reach_step; [|apply Csis.step_lock_api].
  eapply Csis.reach_step; [apply Csis.reach_init|].
  apply (Csis.step_write false host_ab (Csis.bt_csis_init 1) (Some peer_a)
           (mem_of [Csis.BT_CSIP_LOCK_VALUE]) 1 0).
Qed.

(** ** Clients: write, re-read, retry *)

Lemma nth_error_list_set {A} (l : list A) : forall n x y,
  nth_error l n = Some y -> nth_error (list_set n x l) n = Some x.
Proof.
  induction l as [|z l IH]; intros [|n] x y H; cbn in *; try discriminate.
  - reflexivity.
  - eapply IH; eassumption.
Qed.

Lemma list_set_twice {A} (l : list A) : forall n x y,
  list_set n y (list_set n x l) = list_set n y l.
Proof.
  induction l as [|z l IH]; intros [|n] x y; cbn; try reflexivity.
  rewrite IH. reflexivity.
Qed.

Lemma length_list_set {A} (l : list A) : forall n x,
  length (list_set n x l) = length l.
Proof.
  induction l as [|z l IH]; intros [|n] x; cbn; try reflexivity.
  rewrite IH. reflexivity.
Qed.

Lemma aics_lookup_from_nth l handle : forall b k i,
  AicsClient.lookup_from b l handle = Some (k, i) ->
  (b <= k)%nat /\ nth_error l (k - b) = Some (Some i).
Proof.
  induction l as [|[j|] l IH]; intros b k i H; cbn in H.
  - discriminate.
  - destruct ((AicsClient.start_handle j <=? handle)
              && (AicsClient.end_handle j >=? handle)).
    + injection H as <- <-. rewrite Nat.sub_diag. split; [lia | reflexivity].
    + destruct (IH _ _ _ H) as [Hle Hn]. split; [lia|].
      replace (k - b)%nat with (S (k - S b)) by lia. exact Hn.
  - destruct (IH _ _ _ H) as [Hle Hn]. split; [lia|].
    replace (k - b)%nat with (S (k - S b)) by lia. exact Hn.
Qed.

Lemma aics_lookup_nth insts handle k i :
  AicsClient.lookup_aics_by_handle insts handle = Some (k, i) ->
  nth_error insts k = Some (Some i).
Proof.
  intros H. apply aics_lookup_from_nth in H. rewrite Nat.sub_0_r in H. apply H.
Qed.

(** The end of both AICS callbacks, on the instance the lookup found. *)
Lemma aics_finish insts handle k i err :
  AicsClient.lookup_aics_by_handle insts handle = Some (k, i) ->
  AicsClient.finish insts k err
  = (list_set k (Some (AicsClient.with_busy i false)) insts,
     AicsClient.aics_cp_notify_app i err).
Proof.
  intros H. unfold AicsClient.finish. rewrite (aics_lookup_nth _ _ _ _ H). reflexivity.
Qed.


(** AICS client: the re-read that succeeds stores the counter it read and
    writes the control point again, once, with that counter. *)
Lemma aics_client_retries insts c handle k i d :
  AicsClient.lookup_aics_by_handle insts handle = Some (k, i) ->
  AicsClient.index i = Z.of_nat k ->
  AicsClient.control_handle i <> 0 ->
  exists i',
    AicsClient.internal_read_input_state_cb insts (Some c) 0 handle (Some d) 4 0
    = (list_set k (Some i') insts,
       [GattWrite (AicsClient.control_handle i) (aics_retry_data i (rd8 d 3)) 0])
    /\ AicsClient.change_counter i' = rd8 d 3
    /\ AicsClient.busy i' = true.
Proof.
  intros H Hidx Hctl. unfold AicsClient.internal_read_input_state_cb. rewrite H.
  pose proof (aics_lookup_nth _ _ _ _ H) as Hn.
  assert (Hlen : (k < length insts)%nat) by (apply nth_error_Some; congruence).
  cbn [negb Z.eqb AicsClient.sizeof_aics_state_t Pos.eqb].
  set (i1 := AicsClient.with_busy (AicsClient.with_counter i (rd8 d 3)) false).
  assert (Hchk : AicsClient.checked_instance (list_set k (Some i1) insts) (Some c)
                   (AicsClient.index i) = inr i1).
  { unfold AicsClient.checked_instance.
    rewrite Hidx, length_list_set, Nat2Z.id.
    destruct (Z.of_nat k >=? Z.of_nat (length insts)) eqn:E; [lia|].
    rewrite (nth_error_list_set insts k (Some i1) (Some i) Hn).
    change (AicsClient.control_handle i1) with (AicsClient.control_handle i).
    change (AicsClient.busy i1) with false.
    destruct (AicsClient.control_handle i =? 0) eqn:E2; [lia | reflexivity]. }
  assert (Hpos : (0 <? Z.of_nat (length (list_set k (Some i1) insts))) = true)
    by (rewrite length_list_set; lia).
  change (AicsClient.index i1) with (AicsClient.index i).
  unfold aics_retry_data.
  change (AicsClient.write_buf i1) with (AicsClient.write_buf i).
  destruct (AicsClient.b0 (AicsClient.write_buf i) =? Aics.AICS_OPCODE_SET_GAIN) eqn:Eop.
  - unfold AicsClient.bt_aics_client_gain_set. rewrite Hpos, Hchk.
    cbn [Z.eqb negb]. rewrite Hidx, Nat2Z.id, list_set_twice.
    eexists. split; [reflexivity|]. split; reflexivity.
  - unfold AicsClient.aics_client_common_control. rewrite Hpos, Hchk.
    cbn [Z.eqb negb]. rewrite Hidx, Nat2Z.id, list_set_twice.
    eexists. split; [reflexivity|]. split; reflexivity.
Qed.


(** AICS client: Invalid Change Counter reaches the application only when no
    state handle is known or the read cannot be issued. *)
Lemma aics_client_surfaces insts conn handle k i read_ret :
  AicsClient.lookup_aics_by_handle insts handle = Some (k, i) ->
  AicsClient.state_handle i = 0 \/ read_ret <> 0 ->
  filter is_write_cb
    (snd (AicsClient.aics_client_write_aics_cp_cb insts conn
            Aics.AICS_ERR_INVALID_COUNTER handle read_ret))
  = AicsClient.aics_cp_notify_app i Aics.AICS_ERR_INVALID_COUNTER.
Proof.
  intros H Hcase. unfold AicsClient.aics_client_write_aics_cp_cb. rewrite H.
  assert (Hf : forall e, filter is_write_cb (AicsClient.aics_cp_notify_app i e)
                         = AicsClient.aics_cp_notify_app i e).
  { intros e. unfold AicsClient.aics_cp_notify_app.
    destruct (AicsClient.cb i) as [cbs|]; [|reflexivity].
    split_ifs;
      match goal with
      | |- context [match ?x with Some _ => _ | None => _ end] => destruct x
      | _ => idtac
      end; reflexivity. }
  rewrite (aics_finish _ _ _ _ _ H).
  destruct ((Aics.AICS_ERR_INVALID_COUNTER =? Aics.AICS_ERR_INVALID_COUNTER)
            && negb (AicsClient.state_handle i =? 0)) eqn:E.
  - destruct (negb (read_ret =? 0)) eqn:Er.
    + cbn [snd filter is_write_cb]. apply Hf.
    + exfalso. destruct Hcase; lia.
  - cbn [snd]. apply Hf.
Qed.


(** VCS client: the re-read that succeeds stores the state it read and writes
    the control point again, once, with the counter it read. *)
Lemma vcs_client_retries g c d :
  VcsClient.control_handle (VcsClient.vcs_inst g) <> 0 ->
  exists i',
    VcsClient.internal_read_volume_state_cb g (Some c) 0 (Some d) 3 0
    = (VcsClient.with_inst g i',
       [GattWrite (VcsClient.control_handle (VcsClient.vcs_inst g))
                  (vcs_retry_data (VcsClient.vcs_inst g) (rd8 d 2)) 0])
    /\ Vcs.change_counter (VcsClient.state i') = rd8 d 2
    /\ VcsClient.busy i' = true.
Proof.
  intros Hctl. unfold VcsClient.internal_read_volume_state_cb, vcs_retry_data.
  cbn [negb Z.eqb VcsClient.sizeof_vcs_state Pos.eqb].
  cbn [VcsClient.vcs_inst VcsClient.with_inst VcsClient.wb0 VcsClient.wb2
       VcsClient.with_busy VcsClient.with_state].
  destruct (VcsClient.wb0 (VcsClient.vcs_inst g) =? Vcs.VCS_OPCODE_SET_ABS_VOL) eqn:Eop.
  - unfold VcsClient.bt_vcs_client_set_volume.
    cbn [VcsClient.vcs_inst VcsClient.with_inst VcsClient.control_handle VcsClient.busy
         VcsClient.with_busy VcsClient.with_state].
    destruct (VcsClient.control_handle (VcsClient.vcs_inst g) =? 0) eqn:E; [lia|].
    cbn [Z.eqb negb]. eexists. split; [reflexivity|]. split; reflexivity.
  - unfold VcsClient.vcs_client_common_vcs_cp.
    cbn [VcsClient.vcs_inst VcsClient.with_inst VcsClient.control_handle VcsClient.busy
         VcsClient.with_busy VcsClient.with_state].
    destruct (VcsClient.control_handle (VcsClient.vcs_inst g) =? 0) eqn:E; [lia|].
    cbn [Z.eqb negb]. eexists. split; [reflexivity|]. split; reflexivity.
Qed.











(** The retry of the VOCS instance does not take its operand from the buffer
    of the write it repeats: with the offset 5 in the buffer of the instance
    and zeros in [vcs_inst.write_buf], the retried Set Offset carries 0. *)
Lemma vocs_client_retry_operand :
  let v := {| VcsClient.vocs_offset := 0; VcsClient.vocs_change_counter := 0;
              VcsClient.vocs_start_handle := 0x30; VcsClient.vocs_end_handle := 0x3f;
              VcsClient.vocs_state_handle := 0x32;
              VcsClient.vocs_control_handle := 0x36;
              VcsClient.vocs_busy := true; VcsClient.vocs_index := 0;
              VcsClient.vocs_write_buf := [0x01; 0; 5; 0] |} in
  let g := {| VcsClient.vcs_inst :=
                {| VcsClient.state := Vcs.mk_state 0 0 0;
                   VcsClient.state_handle := 0x03; VcsClient.control_handle := 0x06;
                   VcsClient.busy := false;
                   VcsClient.wb0 := 0; VcsClient.wb1 := 0; VcsClient.wb2 := 0;
                   VcsClient.vocs_inst_cnt := 1; VcsClient.vocs := [v] |};
              VcsClient.vcs_client_cb := None |} in
  snd (VcsClient.internal_read_volume_offset_state_cb g (Some 1%nat) 0 0x32
         (Some (mem_of [0; 0; 9])) 3 0 0)
  = [GattWrite 0x36 [0x01; 9; 0; 0] 0].
Proof. reflexivity. Qed.

(** ** The literal scenarios of the specification *)

(** Scenario 1: on the initial state {100, 0, 0} the write 0x01,0x00 (volume
    up) gives {101, 0, 1} and a Flags notification with the value 0x01. *)
Example scenario_1_volume_up :
  Vcs.write_vcs_control Vcs.vcs_inst (write_of [0x01; 0x00] 0)
  = Vcs.Return 2
      {| Vcs.state := Vcs.mk_state 101 0 1; Vcs.flags := 1; Vcs.cb := None;
         Vcs.volume_step := 1 |}
      [Vcs.Notify Vcs.BT_UUID_VCS_STATE [101; 0; 1];
       Vcs.Notify Vcs.BT_UUID_VCS_FLAGS [0x01]].
Proof. reflexivity. Qed.

(** Scenarios 2 and 3: then 0x04,0x01,200 gives {200, 0, 2}, and 0x04,0x00,50
    with the stale counter 0 is refused with 0x80 and changes nothing. *)
Example scenario_2_3_set_abs_vol :
  let s1 := Vcs.out_inst (Vcs.write_vcs_control Vcs.vcs_inst (write_of [0x01; 0x00] 0)) in
  let s2 := Vcs.out_inst (Vcs.write_vcs_control s1 (write_of [0x04; 0x01; 200] 0)) in
  Vcs.state s2 = Vcs.mk_state 200 0 2
  /\ Vcs.write_vcs_control s2 (write_of [0x04; 0x00; 50] 0) = Vcs.Return (- 0x80) s2 [].
Proof. split; reflexivity. Qed.

(** Scenario 4: Unmute (0x02,0x00) on an AICS instance whose mute state is
    Mute Disabled is refused with 0x82 and changes nothing. *)
Example scenario_4_mute_disabled :
  let inst := Aics.with_state aics_inst0
                (Aics.mk_state 0 Aics.AICS_STATE_MUTE_DISABLED Aics.AICS_MODE_AUTO 0) in
  Aics.write_aics_control inst (write_of [0x02; 0x00] 0) = (- 0x82, inst, []).
Proof. reflexivity. Qed.

(** Scenario 5: VOCS Set Offset with the operand +256 is refused with 0x82. *)
Example scenario_5_offset_out_of_range :
  Vocs.write_vocs_control vocs_inst0 (write_of [0x01; 0x00; 0x00; 0x01] 0)
  = (- 0x82, vocs_inst0, []).
Proof. reflexivity. Qed.

Lemma C5_invalid_change_counter_witness :
  Vcs.out_ret (Vcs.write_vcs_control Vcs.vcs_inst (write_of [0x04; 0x07; 50] 0))
  = Some (BT_GATT_ERR Vcs.VCS_ERR_INVALID_COUNTER)
  /\ Vcs.write_vcs_control Vcs.vcs_inst (write_of [0x04; 0x07; 50] 0)
     = Vcs.Return (BT_GATT_ERR Vcs.VCS_ERR_INVALID_COUNTER) Vcs.vcs_inst [].
Proof.
  split; [reflexivity|].
  exact (proj2 (proj1 C5_invalid_change_counter Vcs.vcs_inst
                  (write_of [0x04; 0x07; 50] 0)) eq_refl).
Defined.

(** * The local calls of the servers *)

Lemma list_set_same {A : Type} (l : list A) : forall n x,
  nth_error l n = Some x -> list_set n x l = l.
Proof.
  induction l as [|y l IH]; intros [|n] x H; cbn in *; try congruence.
  f_equal. apply IH. exact H.
Qed.

(** A write that passes the guards with the server's counter returns its
    length whenever the callback structure is sound. *)
Lemma vcs_write_ret inst w m :
  vcs_guards w m ->
  Vcs.cp_counter m = Vcs.change_counter (Vcs.state inst) ->
  vcs_cb_sound inst ->
  Vcs.out_ret (Vcs.write_vcs_control inst w) = Some (len w).
Proof.
  intros G Hc S. rewrite (write_vcs_control_guarded inst w m G).
  rewrite Hc, Z.eqb_refl. cbn [negb].
  destruct G as (_ & _ & _ & Hv & _).
  destruct (vcs_switch_valid (Vcs.volume_step inst) (Vcs.state inst) m Hv)
    as (r & Hr & _).
  rewrite Hr.
  destruct (Vcs.commit_state inst r) as [inst1 evs1] eqn:Ecommit.
  destruct (vcs_commit_state _ _ _ _ Ecommit) as (_ & Hcb & _).
  apply vcs_latch_flags_ret. unfold vcs_cb_sound. rewrite Hcb. exact S.
Qed.

Lemma vcs_local_write_ret inst opcode v l :
  0 <= Vcs.change_counter (Vcs.state inst) <= 255 ->
  vcs_cb_sound inst ->
  0 <= opcode <= 6 -> 0 <= v <= 255 ->
  (l = 2 /\ v = 0 \/ l = 3 /\ opcode = 4) ->
  Vcs.out_ret (VcsApi.local_write inst (VcsApi.control inst opcode v) l) = Some 0.
Proof.
  intros Hc S Ho Hv Hl. unfold VcsApi.local_write.
  set (w := {| buf := Some (mem_of (VcsApi.control inst opcode v)); len := l;
               offset := 0 |}).
  assert (G : vcs_guards w (mem_of (VcsApi.control inst opcode v))).
  { unfold vcs_guards, w. cbn [offset len buf].
    unfold Vcs.VALID_VCS_OPCODE, Vcs.bad_length, Vcs.cp_opcode, rd8, mem_of,
      VcsApi.control, Vcs.VCS_OPCODE_REL_VOL_DOWN, Vcs.VCS_OPCODE_MUTE,
      Vcs.VCS_CP_LEN, Vcs.VCS_CP_ABS_VOL_LEN, Vcs.VCS_OPCODE_SET_ABS_VOL.
    cbn [nth]. rewrite (uint8_small opcode) by lia.
    repeat split; first [reflexivity | lia]. }
  assert (C : Vcs.cp_counter (mem_of (VcsApi.control inst opcode v))
              = Vcs.change_counter (Vcs.state inst)).
  { unfold Vcs.cp_counter, rd8, mem_of, VcsApi.control. cbn [nth].
    apply uint8_small. exact Hc. }
  pose proof (vcs_write_ret inst w _ G C S) as R.
  destruct (Vcs.write_vcs_control inst w) as [ret i e | i e];
    cbn [Vcs.out_ret] in *; [|discriminate].
  injection R as ->. unfold local_ret, w. cbn [len].
  destruct (l >? 0) eqn:E; [reflexivity | exfalso; lia].
Qed.

(** The state the switch leaves, opcode by opcode: the relative opcodes
    saturate at 0 and 255, the absolute one stores the operand. *)
Lemma vcs_switch_effect step s m r :
  0 <= Vcs.volume s <= 255 -> 1 <= step <= 255 ->
  Vcs.vcs_switch step s m = Some r ->
  let op := Vcs.cp_opcode m in
  Vcs.volume (Vcs.sw_state r)
  = (if (op =? Vcs.VCS_OPCODE_REL_VOL_DOWN) || (op =? Vcs.VCS_OPCODE_UNMUTE_REL_VOL_DOWN)
     then Z.max 0 (Vcs.volume s - step)
     else if (op =? Vcs.VCS_OPCODE_REL_VOL_UP) || (op =? Vcs.VCS_OPCODE_UNMUTE_REL_VOL_UP)
     then Z.min 255 (Vcs.volume s + step)
     else if op =? Vcs.VCS_OPCODE_SET_ABS_VOL then Vcs.cp_volume m
     else Vcs.volume s)
  /\ Vcs.mute (Vcs.sw_state r)
     = (if (op =? Vcs.VCS_OPCODE_UNMUTE_REL_VOL_DOWN)
           || (op =? Vcs.VCS_OPCODE_UNMUTE_REL_VOL_UP) || (op =? Vcs.VCS_OPCODE_UNMUTE)
        then 0
        else if (op =? Vcs.VCS_OPCODE_MUTE) && (Vcs.mute s =? 0) then 1
        else Vcs.mute s).
Proof.
  intros Hvol Hstep. unfold Vcs.vcs_switch, Vcs.vol_down, Vcs.vol_up, Vcs.unmute,
    Vcs.volume_changed, Vcs.VOLUME_DOWN, Vcs.VOLUME_UP, UINT8_MAX,
    Vcs.VCS_OPCODE_REL_VOL_DOWN, Vcs.VCS_OPCODE_REL_VOL_UP,
    Vcs.VCS_OPCODE_UNMUTE_REL_VOL_DOWN, Vcs.VCS_OPCODE_UNMUTE_REL_VOL_UP,
    Vcs.VCS_OPCODE_SET_ABS_VOL, Vcs.VCS_OPCODE_UNMUTE, Vcs.VCS_OPCODE_MUTE.
  cbn [Vcs.sw_state Vcs.sw_notify Vcs.sw_volume_change].
  cbv zeta.
  repeat match goal with
         | |- context [if Vcs.cp_opcode m =? ?k then Some _ else _] =>
             destruct (Vcs.cp_opcode m =? k) eqn:?
         end;
    [ .. | discriminate ];
    split_ifs; intros [= <-];
    cbn [Vcs.sw_state Vcs.set_volume Vcs.set_mute Vcs.volume Vcs.mute] in *;
    unfold uint8; split; try lia;
    try (rewrite Z.mod_small by lia; lia).
Qed.

(** X1 (vcs.c, bt_vcs_volume_down, bt_vcs_volume_up,
    bt_vcs_unmute_volume_down, bt_vcs_unmute_volume_up, bt_vcs_volume_set,
    bt_vcs_unmute, bt_vcs_mute with a null connection): a local volume call
    cannot fail.  The control structure it forges carries the server's own
    change counter and the length that fits its opcode, so the write handler
    passes every guard; whenever a registered callback structure with a
    [state] member also has a [flags] member the call returns 0, whatever
    the volume, the mute value and the flags are. *)
Theorem X1_vcs_local_calls_return_0 inst v :
  0 <= Vcs.change_counter (Vcs.state inst) <= 255 ->
  vcs_cb_sound inst ->
  Forall (fun call => Vcs.out_ret (call inst) = Some 0)
    [VcsApi.bt_vcs_volume_down; VcsApi.bt_vcs_volume_up;
     VcsApi.bt_vcs_unmute_volume_down; VcsApi.bt_vcs_unmute_volume_up;
     (fun i => VcsApi.bt_vcs_volume_set i v);
     VcsApi.bt_vcs_unmute; VcsApi.bt_vcs_mute].
Proof.
  intros Hc S.
  assert (Hv : 0 <= uint8 v <= 255).
  { unfold uint8. pose proof (Z.mod_pos_bound v 256 eq_refl). lia. }
  repeat apply Forall_cons; try apply Forall_nil;
    apply vcs_local_write_ret; try assumption;
    unfold Vcs.VCS_OPCODE_REL_VOL_DOWN, Vcs.VCS_OPCODE_REL_VOL_UP,
      Vcs.VCS_OPCODE_UNMUTE_REL_VOL_DOWN, Vcs.VCS_OPCODE_UNMUTE_REL_VOL_UP,
      Vcs.VCS_OPCODE_SET_ABS_VOL, Vcs.VCS_OPCODE_UNMUTE, Vcs.VCS_OPCODE_MUTE,
      Vcs.VCS_CP_LEN, Vcs.VCS_CP_ABS_VOL_LEN; lia.
Qed.

Lemma X1_vcs_local_calls_return_0_witness :
  Forall (fun call => Vcs.out_ret (call Vcs.vcs_inst) = Some 0)
    [VcsApi.bt_vcs_volume_down; VcsApi.bt_vcs_volume_up;
     VcsApi.bt_vcs_unmute_volume_down; VcsApi.bt_vcs_unmute_volume_up;
     (fun i => VcsApi.bt_vcs_volume_set i 300);
     VcsApi.bt_vcs_unmute; VcsApi.bt_vcs_mute].
Proof.
  apply (X1_vcs_local_calls_return_0 Vcs.vcs_inst 300).
  - cbn. lia.
  - intros c H. discriminate H.
Defined.

(** X2 (vcs.c, write_vcs_control, and the macros VOLUME_DOWN and VOLUME_UP):
    what an accepted control-point write leaves in the volume state.  The
    relative opcodes move the volume by the volume step and saturate, down
    at 0 and up at 255, without wrapping; Set Absolute Volume stores its
    operand; the three unmuting opcodes leave mute at 0; Mute turns a mute
    value of 0 into 1 and leaves any other value. *)
Theorem X2_vcs_opcode_effects inst w m :
  vcs_guards w m ->
  Vcs.cp_counter m = Vcs.change_counter (Vcs.state inst) ->
  vcs_inst_ok inst ->
  let s := Vcs.state inst in
  let s' := Vcs.state (Vcs.out_inst (Vcs.write_vcs_control inst w)) in
  let op := Vcs.cp_opcode m in
  Vcs.volume s'
  = (if (op =? Vcs.VCS_OPCODE_REL_VOL_DOWN) || (op =? Vcs.VCS_OPCODE_UNMUTE_REL_VOL_DOWN)
     then Z.max 0 (Vcs.volume s - Vcs.volume_step inst)
     else if (op =? Vcs.VCS_OPCODE_REL_VOL_UP) || (op =? Vcs.VCS_OPCODE_UNMUTE_REL_VOL_UP)
     then Z.min 255 (Vcs.volume s + Vcs.volume_step inst)
     else if op =? Vcs.VCS_OPCODE_SET_ABS_VOL then Vcs.cp_volume m
     else Vcs.volume s)
  /\ Vcs.mute s'
     = (if (op =? Vcs.VCS_OPCODE_UNMUTE_REL_VOL_DOWN)
           || (op =? Vcs.VCS_OPCODE_UNMUTE_REL_VOL_UP) || (op =? Vcs.VCS_OPCODE_UNMUTE)
        then 0
        else if (op =? Vcs.VCS_OPCODE_MUTE) && (Vcs.mute s =? 0) then 1
        else Vcs.mute s).
Proof.
  intros G Hc [Hvol Hstep]. cbv zeta.
  rewrite (write_vcs_control_guarded inst w m G).
  rewrite Hc, Z.eqb_refl. cbn [negb].
  destruct G as (_ & _ & _ & Hv & _).
  destruct (vcs_switch_valid (Vcs.volume_step inst) (Vcs.state inst) m Hv)
    as (r & Hr & _).
  rewrite Hr.
  pose proof (vcs_switch_effect _ _ _ _ Hvol Hstep Hr) as E. cbv zeta in E.
  destruct (Vcs.commit_state inst r) as [inst1 evs1] eqn:Ecommit.
  destruct (vcs_commit_state _ _ _ _ Ecommit) as (_ & _ & _ & _ & Hn0 & Hn1).
  destruct (vcs_latch_flags_state (len w) inst1 evs1 (Vcs.sw_volume_change r))
    as (-> & _).
  destruct (Vcs.sw_notify r).
  - destruct (Hn1 eq_refl) as [-> _]. exact E.
  - destruct (Hn0 eq_refl) as [-> _]. exact E.
Qed.

Lemma X2_vcs_opcode_effects_witness :
  Vcs.volume (Vcs.state (Vcs.out_inst
     (Vcs.write_vcs_control
        (snd (Vcs.bt_vcs_volume_step_set Vcs.vcs_inst 200))
        (write_of [0x03; 0] 0)))) = 255.
Proof.
  refine (proj1 (X2_vcs_opcode_effects
                   (snd (Vcs.bt_vcs_volume_step_set Vcs.vcs_inst 200))
                   (write_of [0x03; 0] 0) (mem_of [0x03; 0]) _ _ _)).
  - repeat split; discriminate.
  - reflexivity.
  - cbn. unfold vcs_inst_ok. cbn. lia.
Defined.

(** X3 (aics.c, bt_aics_input_unmute, bt_aics_input_mute,
    bt_aics_manual_input_gain_set, bt_aics_automatic_input_gain_set): the
    four local AICS calls without operand can never take effect.  Each hands
    [sizeof(cp)], the three bytes of a [struct aics_gain_control_t], to
    [write_aics_control], whose length guard allows three bytes for Set Gain
    only; so with an index inside the instance array the call returns the
    Invalid Attribute Length error, changes no instance and notifies nobody,
    whatever the instance holds, and with an index outside it returns
    -ERANGE. *)
Theorem X3_aics_local_short_calls_fail insts index stack :
  Forall (fun call =>
            call insts index stack
            = (if uint8 index >=? Z.of_nat (length insts) then - ERANGE
               else BT_GATT_ERR BT_ATT_ERR_INVALID_ATTRIBUTE_LEN, insts, []))
    [AicsApi.bt_aics_input_unmute; AicsApi.bt_aics_input_mute;
     AicsApi.bt_aics_manual_input_gain_set;
     AicsApi.bt_aics_automatic_input_gain_set].
Proof.
  assert (Hu : 0 <= uint8 index).
  { unfold uint8. pose proof (Z.mod_pos_bound index 256 eq_refl). lia. }
  repeat apply Forall_cons; try apply Forall_nil;
    unfold AicsApi.bt_aics_input_unmute, AicsApi.bt_aics_input_mute,
      AicsApi.bt_aics_manual_input_gain_set,
      AicsApi.bt_aics_automatic_input_gain_set, AicsApi.local_write;
    (destruct (uint8 index >=? Z.of_nat (length insts)) eqn:E; [reflexivity|]);
    (destruct (nth_error insts (Z.to_nat (uint8 index))) as [inst|] eqn:En;
     [| apply nth_error_None in En; exfalso; lia]);
    (transitivity (BT_GATT_ERR BT_ATT_ERR_INVALID_ATTRIBUTE_LEN,
                   list_set (Z.to_nat (uint8 index)) inst insts,
                   @nil Aics.event);
     [reflexivity | rewrite (list_set_same _ _ _ En); reflexivity]).
Qed.

Lemma int8_idem z : int8 (int8 z) = int8 z.
Proof.
  unfold int8. pose proof (Z.mod_pos_bound z 256 eq_refl) as B.
  destruct (z mod 256 <? 128) eqn:E.
  - rewrite (Z.mod_small (z mod 256)) by lia. rewrite E. reflexivity.
  - replace ((z mod 256 - 256) mod 256) with (z mod 256).
    + rewrite E. reflexivity.
    + symmetry. rewrite <- (Z.mod_small (z mod 256) 256) at 2 by lia.
      replace (z mod 256 - 256) with (z mod 256 + (-1) * 256) by lia.
      apply Z_mod_plus_full.
Qed.

(** X4 (aics.c, bt_aics_gain_set): the local Set Gain call, the one local
    AICS call whose three-byte structure has the length its opcode needs.
    On an instance inside the array it never meets the length or the counter
    guard: a gain outside the gain settings gives the Out Of Range error and
    changes nothing; a gain inside them gives 0, and the instance then holds
    that gain when its mode is Manual or Manual Only and its old gain
    otherwise. *)
Theorem X4_aics_local_gain_set insts index gain inst :
  nth_error insts (Z.to_nat (uint8 index)) = Some inst ->
  0 <= Aics.change_counter (Aics.state inst) <= 255 ->
  let r := AicsApi.bt_aics_gain_set insts index gain in
  if (int8 gain <? Aics.minimum (Aics.gain_settings inst))
     || (int8 gain >? Aics.maximum (Aics.gain_settings inst))
  then r = (BT_GATT_ERR Aics.AICS_ERR_OUT_OF_RANGE, insts, [])
  else fst (fst r) = 0
       /\ exists inst',
            snd (fst r) = list_set (Z.to_nat (uint8 index)) inst' insts
            /\ Aics.gain (Aics.state inst')
               = (if Aics.AICS_INPUT_MODE_SETTABLE (Aics.mode (Aics.state inst))
                  then int8 gain else Aics.gain (Aics.state inst))
            /\ Aics.mute (Aics.state inst') = Aics.mute (Aics.state inst)
            /\ Aics.mode (Aics.state inst') = Aics.mode (Aics.state inst).
Proof.
  intros Hn Hc. cbv zeta.
  assert (Hu : 0 <= uint8 index).
  { unfold uint8. pose proof (Z.mod_pos_bound index 256 eq_refl). lia. }
  assert (Hlt : (Z.to_nat (uint8 index) < length insts)%nat).
  { apply nth_error_Some. rewrite Hn. discriminate. }
  unfold AicsApi.bt_aics_gain_set, AicsApi.local_write. rewrite Hn.
  destruct (uint8 index >=? Z.of_nat (length insts)) eqn:E; [exfalso; lia|].
  set (m := mem_of (AicsApi.control Aics.AICS_OPCODE_SET_GAIN (int8 gain) inst)).
  set (w := {| buf := Some m; len := 3; offset := 0 |}).
  assert (G : aics_guards w m) by (repeat split; discriminate).
  rewrite (write_aics_control_guarded inst w m G).
  assert (C : Aics.cp_counter m = Aics.change_counter (Aics.state inst)).
  { unfold m, Aics.cp_counter, rd8, mem_of, AicsApi.control. cbn [nth].
    apply uint8_small. exact Hc. }
  rewrite C, Z.eqb_refl. cbn [negb].
  assert (Gs : Aics.cp_gain_setting m = int8 gain).
  { unfold m, Aics.cp_gain_setting, mem_of, AicsApi.control. cbn [nth].
    apply int8_idem. }
  unfold Aics.aics_switch.
  change (Aics.cp_opcode m =? Aics.AICS_OPCODE_SET_GAIN) with true. cbv iota.
  rewrite Gs.
  destruct ((int8 gain <? Aics.minimum (Aics.gain_settings inst))
            || (int8 gain >? Aics.maximum (Aics.gain_settings inst))) eqn:Er.
  - rewrite (list_set_same _ _ _ Hn). reflexivity.
  - destruct (Aics.AICS_INPUT_MODE_SETTABLE (Aics.mode (Aics.state inst))) eqn:Es;
      cbn [andb].
    + destruct (negb (Aics.gain (Aics.state inst) =? int8 gain)) eqn:Eg;
        cbn [fst snd len w]; (split; [reflexivity|]); eexists;
        (split; [reflexivity|]); cbn; repeat split; lia.
    + cbn [fst snd len w]. split; [reflexivity|]. eexists.
      split; [reflexivity|]. cbn. repeat split.
Qed.

Lemma X4_aics_local_gain_set_witness :
  fst (fst (AicsApi.bt_aics_gain_set [aics_inst0; aics_inst1] 1 (-7))) = 0
  /\ exists inst',
       snd (fst (AicsApi.bt_aics_gain_set [aics_inst0; aics_inst1] 1 (-7)))
       = [aics_inst0; inst']
       /\ Aics.gain (Aics.state inst') = -7
       /\ Aics.mute (Aics.state inst') = 0
       /\ Aics.mode (Aics.state inst') = 0.
Proof.
  refine (X4_aics_local_gain_set [aics_inst0; aics_inst1] 1 (-7) aics_inst1
            eq_refl _).
  cbn. lia.
Defined.

(** ** What no AICS control-point write can change *)

Lemma aics_write_preserves inst w :
  let inst' := snd (fst (Aics.write_aics_control inst w)) in
  Aics.gain_settings inst' = Aics.gain_settings inst
  /\ (Aics.mute (Aics.state inst) = Aics.AICS_STATE_MUTE_DISABLED ->
      Aics.mute (Aics.state inst') = Aics.AICS_STATE_MUTE_DISABLED)
  /\ (Aics.AICS_INPUT_MODE_IMMUTABLE (Aics.mode (Aics.state inst)) = true ->
      Aics.mode (Aics.state inst') = Aics.mode (Aics.state inst))
  /\ (aics_gain_ok inst -> aics_gain_ok inst').
Proof.
  cbv zeta. unfold Aics.write_aics_control.
  destruct (negb (offset w =? 0)); [tauto|].
  destruct (len w =? 0); [tauto|].
  destruct (buf w) as [m|]; [|tauto].
  destruct (negb (Aics.VALID_AICS_OPCODE (Aics.cp_opcode m))); [tauto|].
  destruct (Aics.bad_length (len w) m); [tauto|].
  destruct (negb (Aics.cp_counter m =? Aics.change_counter (Aics.state inst)));
    [tauto|].
  unfold Aics.aics_switch, aics_gain_ok, Aics.AICS_STATE_MUTE_DISABLED,
    Aics.AICS_STATE_UNMUTED, Aics.AICS_STATE_MUTED.
  split_ifs; cbn; try tauto; repeat split; intros; try assumption;
    try reflexivity; try lia; try congruence.
Qed.

Lemma aics_writes_preserve ws : forall inst,
  Aics.gain_settings (aics_writes inst ws) = Aics.gain_settings inst
  /\ (Aics.mute (Aics.state inst) = Aics.AICS_STATE_MUTE_DISABLED ->
      Aics.mute (Aics.state (aics_writes inst ws)) = Aics.AICS_STATE_MUTE_DISABLED)
  /\ (Aics.AICS_INPUT_MODE_IMMUTABLE (Aics.mode (Aics.state inst)) = true ->
      Aics.mode (Aics.state (aics_writes inst ws)) = Aics.mode (Aics.state inst))
  /\ (aics_gain_ok inst -> aics_gain_ok (aics_writes inst ws)).
Proof.
  induction ws as [|w ws IH]; intros inst; cbn [aics_writes fold_left].
  - tauto.
  - destruct (aics_write_preserves inst w) as (Hg & Hm & Hi & Hr).
    destruct (IH (snd (fst (Aics.write_aics_control inst w))))
      as (Hg' & Hm' & Hi' & Hr').
    fold (aics_writes (snd (fst (Aics.write_aics_control inst w))) ws).
    split; [congruence|].
    split; [intros H; apply Hm', Hm, H|].
    split; [|intros H; apply Hr', Hr, H].
    intros H. rewrite Hi'; [apply Hi, H|]. rewrite (Hi H). exact H.
Qed.

(** X5 (aics.c, write_aics_control, cases AICS_OPCODE_UNMUTE and
    AICS_OPCODE_MUTE): Mute Disabled cannot be left through the control
    point.  On an instance whose mute value is Mute Disabled every Mute and
    Unmute write that passes the guards with the right counter fails with
    the Mute Disabled error (0x82) and changes nothing, and after any
    sequence of control-point writes whatever the mute value is still Mute
    Disabled. *)
Theorem X5_aics_mute_disabled_is_kept inst :
  Aics.mute (Aics.state inst) = Aics.AICS_STATE_MUTE_DISABLED ->
  (forall ws,
     Aics.mute (Aics.state (aics_writes inst ws)) = Aics.AICS_STATE_MUTE_DISABLED)
  /\ (forall w m,
        aics_guards w m ->
        Aics.cp_counter m = Aics.change_counter (Aics.state inst) ->
        Aics.cp_opcode m = Aics.AICS_OPCODE_UNMUTE
        \/ Aics.cp_opcode m = Aics.AICS_OPCODE_MUTE ->
        Aics.write_aics_control inst w
        = (BT_GATT_ERR Aics.AICS_ERR_MUTE_DISABLED, inst, [])).
Proof.
  intros Hm. split.
  - intros ws. apply aics_writes_preserve. exact Hm.
  - intros w m G Hc Hop. rewrite (write_aics_control_guarded inst w m G).
    rewrite Hc, Z.eqb_refl. cbn [negb]. unfold Aics.aics_switch.
    rewrite Hm.
    destruct Hop as [-> | ->]; reflexivity.
Qed.

Lemma X5_aics_mute_disabled_is_kept_witness :
  Aics.mute (Aics.state (aics_writes aics_inst2
                           [write_of [0x03; 0] 0; write_of [0x01; 0; 5] 0;
                            write_of [0x02; 1] 0]))
  = Aics.AICS_STATE_MUTE_DISABLED
  /\ Aics.write_aics_control aics_inst2 (write_of [0x03; 0] 0)
     = (BT_GATT_ERR Aics.AICS_ERR_MUTE_DISABLED, aics_inst2, []).
Proof.
  split.
  - apply (proj1 (X5_aics_mute_disabled_is_kept aics_inst2 eq_refl)).
  - apply (proj2 (X5_aics_mute_disabled_is_kept aics_inst2 eq_refl)
             (write_of [0x03; 0] 0) (mem_of [0x03; 0])).
    + repeat split; discriminate.
    + reflexivity.
    + right. reflexivity.
Defined.

(** X6 (aics.c, write_aics_control, cases AICS_OPCODE_SET_MANUAL and
    AICS_OPCODE_SET_AUTO, and AICS_INPUT_MODE_IMMUTABLE): the two Only modes
    cannot be left through the control point.  On an instance in Manual Only
    or Automatic Only mode every Set Manual and Set Automatic write that
    passes the guards with the right counter fails with the Gain Mode error
    (0x84) and changes nothing, and after any sequence of control-point
    writes whatever the mode is the one it was. *)
Theorem X6_aics_only_modes_are_kept inst :
  Aics.AICS_INPUT_MODE_IMMUTABLE (Aics.mode (Aics.state inst)) = true ->
  (forall ws,
     Aics.mode (Aics.state (aics_writes inst ws)) = Aics.mode (Aics.state inst))
  /\ (forall w m,
        aics_guards w m ->
        Aics.cp_counter m = Aics.change_counter (Aics.state inst) ->
        Aics.cp_opcode m = Aics.AICS_OPCODE_SET_MANUAL
        \/ Aics.cp_opcode m = Aics.AICS_OPCODE_SET_AUTO ->
        Aics.write_aics_control inst w
        = (BT_GATT_ERR Aics.AICS_ERR_GAIN_MODE_NO_SUPPORT, inst, [])).
Proof.
  intros Hm. split.
  - intros ws. apply aics_writes_preserve. exact Hm.
  - intros w m G Hc Hop. rewrite (write_aics_control_guarded inst w m G).
    rewrite Hc, Z.eqb_refl. cbn [negb]. unfold Aics.aics_switch.
    rewrite Hm.
    destruct Hop as [-> | ->]; reflexivity.
Qed.

Lemma X6_aics_only_modes_are_kept_witness :
  Aics.mode (Aics.state (aics_writes aics_inst1
                           [write_of [0x05; 0] 0; write_of [0x01; 0; 5] 0;
                            write_of [0x05; 1] 0]))
  = Aics.AICS_MODE_MANUAL_ONLY
  /\ Aics.write_aics_control aics_inst1 (write_of [0x05; 0] 0)
     = (BT_GATT_ERR Aics.AICS_ERR_GAIN_MODE_NO_SUPPORT, aics_inst1, []).
Proof.
  split.
  - apply (proj1 (X6_aics_only_modes_are_kept aics_inst1 eq_refl)).
  - apply (proj2 (X6_aics_only_modes_are_kept aics_inst1 eq_refl)
             (write_of [0x05; 0] 0) (mem_of [0x05; 0])).
    + repeat split; discriminate.
    + reflexivity.
    + right. reflexivity.
Defined.

(** X7 (aics.c, write_aics_control, case AICS_OPCODE_SET_GAIN): the gain
    never leaves the gain settings.  The range check comes before the mode
    is looked at and no write touches the settings, so an instance whose
    gain lies between the minimum and the maximum still has such a gain,
    and the same settings, after any sequence of control-point writes. *)
Theorem X7_aics_gain_stays_in_range inst ws :
  aics_gain_ok inst ->
  aics_gain_ok (aics_writes inst ws)
  /\ Aics.gain_settings (aics_writes inst ws) = Aics.gain_settings inst.
Proof.
  intros H. destruct (aics_writes_preserve ws inst) as (Hg & _ & _ & Hr).
  split; [apply Hr, H | exact Hg].
Qed.

Lemma X7_aics_gain_stays_in_range_witness :
  aics_gain_ok (aics_writes aics_inst1
                  [write_of [0x01; 0; 10] 0; write_of [0x01; 1; 11] 0;
                   write_of [0x01; 1; 0xf6] 0])
  /\ Aics.gain_settings
       (aics_writes aics_inst1
          [write_of [0x01; 0; 10] 0; write_of [0x01; 1; 11] 0;
           write_of [0x01; 1; 0xf6] 0])
     = Aics.gain_settings aics_inst1.
Proof.
  apply (X7_aics_gain_stays_in_range aics_inst1).
  unfold aics_gain_ok. cbn. lia.
Defined.

(** ** VOCS: the offset range and the local call *)

Lemma vocs_write_range inst w :
  - 255 <= Vocs.offset_ (Vocs.state inst) <= 255 ->
  - 255 <= Vocs.offset_ (Vocs.state (snd (fst (Vocs.write_vocs_control inst w)))) <= 255.
Proof.
  intros H. unfold Vocs.write_vocs_control, sys_le16_to_cpu, UINT8_MAX.
  destruct (len w =? 0); [exact H|].
  destruct (buf w) as [m|]; [|exact H].
  split_ifs; cbn [fst snd Vocs.state Vocs.with_state Vocs.offset_];
    try assumption; lia.
Qed.

(** The two bytes that [sys_cpu_to_le16] stores read back as the value. *)
Lemma int16_le_bytes a b v :
  - 32768 <= v <= 32767 ->
  int16_le (mem_of (a :: b :: VcsClient.le16_bytes v)) 2 = v.
Proof.
  intros H. unfold int16_le, rd8, uint8, mem_of, VcsClient.le16_bytes.
  cbn [nth].
  assert (E : (v mod 256) mod 256 + 256 * (((v mod 65536) / 256) mod 256)
              = v mod 65536).
  { Z.to_euclidean_division_equations. lia. }
  rewrite E.
  destruct (v mod 65536 <? 32768) eqn:Eu;
    Z.to_euclidean_division_equations; lia.
Qed.

(** X8 (vocs.c, write_vocs_control): the stored offset never leaves the
    range from -255 to 255.  The range check stands in front of the only
    assignment, so an instance whose offset is in the range still has such
    an offset after any sequence of control-point writes. *)
Theorem X8_vocs_offset_stays_in_range inst ws :
  - 255 <= Vocs.offset_ (Vocs.state inst) <= 255 ->
  - 255 <= Vocs.offset_ (Vocs.state (vocs_writes inst ws)) <= 255.
Proof.
  revert inst. induction ws as [|w ws IH]; intros inst H;
    cbn [vocs_writes fold_left].
  - exact H.
  - apply IH, vocs_write_range, H.
Qed.

Lemma X8_vocs_offset_stays_in_range_witness :
  - 255 <= Vocs.offset_ (Vocs.state
              (vocs_writes vocs_inst0
                 [write_of [0x01; 0; 0xff; 0x00] 0; write_of [0x01; 1; 0x00; 0x01] 0;
                  write_of [0x01; 1; 0x01; 0xff] 0])) <= 255.
Proof.
  apply (X8_vocs_offset_stays_in_range vocs_inst0). cbn. lia.
Defined.

(** X9 (vocs.c, bt_vocs_state_set): the local Set Offset call.  It forges a
    four-byte control structure with the instance's own change counter and
    the offset in little-endian bytes, so on an instance inside the array
    the handler's length, opcode and counter guards all pass: an offset
    outside -255..255 gives the Out Of Range error and changes nothing, an
    offset inside gives 0 and is afterwards the stored offset. *)
Theorem X9_vocs_local_state_set insts index offset inst :
  nth_error insts (Z.to_nat (uint8 index)) = Some inst ->
  0 <= Vocs.change_counter (Vocs.state inst) <= 255 ->
  - 32768 <= offset <= 32767 ->
  let r := VocsApi.bt_vocs_state_set insts index offset in
  if (offset >? 255) || (offset <? - 255)
  then r = (BT_GATT_ERR Vocs.VOCS_ERR_OUT_OF_RANGE, insts, [])
  else fst (fst r) = 0
       /\ exists inst',
            snd (fst r) = list_set (Z.to_nat (uint8 index)) inst' insts
            /\ Vocs.offset_ (Vocs.state inst') = offset.
Proof.
  intros Hn Hc Ho. cbv zeta.
  assert (Hu : 0 <= uint8 index).
  { unfold uint8. pose proof (Z.mod_pos_bound index 256 eq_refl). lia. }
  assert (Hlt : (Z.to_nat (uint8 index) < length insts)%nat).
  { apply nth_error_Some. rewrite Hn. discriminate. }
  unfold VocsApi.bt_vocs_state_set, VocsApi.sys_cpu_to_le16. rewrite Hn.
  destruct (uint8 index >=? Z.of_nat (length insts)) eqn:E; [exfalso; lia|].
  set (m := mem_of ([Vocs.VOCS_OPCODE_SET_OFFSET;
                     Vocs.change_counter (Vocs.state inst)]
                    ++ VcsClient.le16_bytes offset)).
  set (w := {| buf := Some m; len := Vocs.sizeof_vocs_control_t; offset := 0 |}).
  assert (G : vocs_guards w m) by (repeat split; discriminate).
  rewrite (write_vocs_control_guarded inst w m G).
  assert (C : Vocs.cp_counter m = Vocs.change_counter (Vocs.state inst)).
  { unfold m, Vocs.cp_counter, rd8, mem_of. cbn [nth app].
    apply uint8_small. exact Hc. }
  rewrite C, Z.eqb_refl. cbn [negb].
  assert (V : Vocs.cp_offset m = offset).
  { unfold m, Vocs.cp_offset. cbn [app]. apply int16_le_bytes. exact Ho. }
  rewrite V. unfold UINT8_MAX, sys_le16_to_cpu.
  change (- (255)) with (-255).
  destruct ((offset >? 255) || (offset <? - 255)) eqn:Er.
  - rewrite (list_set_same _ _ _ Hn). reflexivity.
  - destruct (negb (Vocs.offset_ (Vocs.state inst) =? offset)) eqn:Eg;
      cbn [fst snd len w]; (split; [reflexivity|]); eexists;
      (split; [reflexivity|]); cbn; lia.
Qed.

Lemma X9_vocs_local_state_set_witness :
  fst (fst (VocsApi.bt_vocs_state_set [vocs_inst0] 0 (-200))) = 0
  /\ exists inst',
       snd (fst (VocsApi.bt_vocs_state_set [vocs_inst0] 0 (-200))) = [inst']
       /\ Vocs.offset_ (Vocs.state inst') = -200.
Proof.
  refine (X9_vocs_local_state_set [vocs_inst0] 0 (-200) vocs_inst0 eq_refl _ _).
  - cbn. lia.
  - lia.
Defined.

(** * The description characteristics *)

Lemma bytes_eqb_eq a : forall b, Desc.bytes_eqb a b = true <-> a = b.
Proof.
  induction a as [|x a IH]; intros [|y b]; cbn; split; intros H;
    try reflexivity; try discriminate.
  - apply andb_prop in H. destruct H as [H1 H2]. apply Z.eqb_eq in H1.
    apply IH in H2. congruence.
  - injection H as -> ->. rewrite Z.eqb_refl. apply IH. reflexivity.
Qed.

Lemma length_bytes buf n : length (Desc.bytes buf n) = n.
Proof. unfold Desc.bytes. rewrite length_map, length_seq. reflexivity. Qed.

Lemma list_set_app {A} (a : list A) x y r :
  list_set (length a) x (a ++ y :: r) = a ++ x :: r.
Proof. induction a as [|z a IH]; cbn; [reflexivity | rewrite IH; reflexivity]. Qed.

Lemma strlen_le s : (Desc.strlen s <= length s)%nat.
Proof.
  induction s as [|c s IH]; cbn; [lia|]. destruct (c =? 0); lia.
Qed.

Lemma strlen_app_nul a r : Desc.strlen (a ++ 0 :: r) = Desc.strlen a.
Proof.
  induction a as [|c a IH]; cbn; [reflexivity|].
  destruct (c =? 0); [reflexivity | rewrite IH; reflexivity].
Qed.

Lemma string_of_app_nul a r : Desc.string_of (a ++ 0 :: r) = Desc.string_of a.
Proof.
  unfold Desc.string_of. rewrite strlen_app_nul, firstn_app.
  pose proof (strlen_le a).
  replace (Desc.strlen a - length a)%nat with O by lia.
  cbn [firstn]. apply app_nil_r.
Qed.

Lemma string_of_idem s : Desc.string_of (Desc.string_of s) = Desc.string_of s.
Proof.
  unfold Desc.string_of.
  induction s as [|c s IH]; cbn; [reflexivity|].
  destruct (c =? 0) eqn:E; cbn; [reflexivity|].
  rewrite E. cbn. rewrite IH. reflexivity.
Qed.

Lemma clip_range size len :
  0 < size -> 0 <= len ->
  Desc.clip size len = Z.min len (size - 1)
  /\ 0 <= Desc.clip size len < size.
Proof. intros Hs Hl. unfold Desc.clip. destruct (len >=? size) eqn:E; lia. Qed.

(** What the body of the [if] leaves: an array of the same size that holds
    the string in the first [n] bytes of the buffer. *)
Lemma desc_store desc idx description buf n :
  (n < length desc)%nat ->
  let desc' := fst (Desc.store desc idx description buf n) in
  length desc' = length desc
  /\ Desc.string_of desc' = Desc.string_of (Desc.bytes buf n)
  /\ exists rest, snd (Desc.store desc idx description buf n)
                  = Desc.NotifyDescription (Desc.string_of (Desc.bytes buf n)) :: rest.
Proof.
  intros Hn. cbv zeta. unfold Desc.store, Desc.memcpy. cbn [fst snd].
  destruct (skipn n desc) as [|y r] eqn:Es.
  { exfalso. apply (f_equal (@length Z)) in Es. rewrite length_skipn in Es.
    cbn in Es. lia. }
  assert (El : length r = (length desc - S n)%nat).
  { apply (f_equal (@length Z)) in Es. rewrite length_skipn in Es.
    cbn in Es. lia. }
  pose proof (length_bytes buf n) as La.
  set (a := Desc.bytes buf n) in *.
  assert (Hs : list_set n 0 (a ++ y :: r) = a ++ 0 :: r).
  { rewrite <- La at 1. apply list_set_app. }
  rewrite Hs, string_of_app_nul.
  split; [|split; [reflexivity | eexists; reflexivity]].
  rewrite length_app, La. cbn [length]. lia.
Qed.

(** X10 (vocs.c, write_output_desc): writing the VOCS output description
    and reading it back.  For a description array of at least one byte and
    any write, the handler returns the length clipped to the array size
    less one, the array keeps its size, and the string the characteristic
    then holds is the string in the accepted bytes of the write: those
    bytes up to their first NUL.  This also holds when the handler finds
    nothing to change. *)
Theorem X10_vocs_description_round_trip inst description buf len :
  (0 < length (Vocs.output_desc inst))%nat ->
  0 <= len ->
  let r := Desc.write_output_desc inst description buf len in
  fst (fst r) = Z.min len (Z.of_nat (length (Vocs.output_desc inst)) - 1)
  /\ length (Vocs.output_desc (snd (fst r))) = length (Vocs.output_desc inst)
  /\ Desc.string_of (Vocs.output_desc (snd (fst r)))
     = Desc.string_of (Desc.bytes buf (Z.to_nat (fst (fst r)))).
Proof.
  intros HN Hl. cbv zeta. unfold Desc.write_output_desc.
  destruct (clip_range (Z.of_nat (length (Vocs.output_desc inst))) len)
    as [Hc Hr]; [lia | exact Hl |].
  set (c := Desc.clip (Z.of_nat (length (Vocs.output_desc inst))) len) in *.
  destruct (negb (c =? Z.of_nat (Desc.strlen (Vocs.output_desc inst)))
            || Desc.memcmp buf (Vocs.output_desc inst) (Z.to_nat c)) eqn:E.
  - destruct (desc_store (Vocs.output_desc inst) (Vocs.index inst) description buf
                (Z.to_nat c)) as (H1 & H2 & _); [lia|].
    destruct (Desc.store (Vocs.output_desc inst) (Vocs.index inst) description buf
                (Z.to_nat c)) as [desc' evs].
    cbn [fst snd Vocs.output_desc] in *. auto.
  - cbn [fst snd]. split; [exact Hc|]. split; [reflexivity|].
    apply orb_false_elim in E. destruct E as [E1 E2].
    unfold Desc.memcmp in E2. apply negb_false_iff, bytes_eqb_eq in E2.
    rewrite E2.
    replace (Z.to_nat c) with (Desc.strlen (Vocs.output_desc inst)) by lia.
    symmetry. apply string_of_idem.
Qed.

Lemma X10_vocs_description_round_trip_witness :
  fst (fst (Desc.write_output_desc vocs_inst_mic None
              (mem_of [76; 105; 110; 101; 32; 105; 110; 32; 49]) 9)) = 7
  /\ length (Vocs.output_desc
               (snd (fst (Desc.write_output_desc vocs_inst_mic None
                            (mem_of [76; 105; 110; 101; 32; 105; 110; 32; 49]) 9))))
     = 8%nat
  /\ Desc.string_of
       (Vocs.output_desc
          (snd (fst (Desc.write_output_desc vocs_inst_mic None
                       (mem_of [76; 105; 110; 101; 32; 105; 110; 32; 49]) 9))))
     = [76; 105; 110; 101; 32; 105; 110].
Proof.
  refine (X10_vocs_description_round_trip vocs_inst_mic None
            (mem_of [76; 105; 110; 101; 32; 105; 110; 32; 49]) 9 _ _).
  - cbn. lia.
  - lia.
Defined.

(** X11 (aics.c, write_input_desc): writing the AICS input description and
    reading it back.  The handler compares only the first [len] bytes and
    not the lengths.  When those bytes differ from the array the string
    held afterwards is the string in the accepted bytes, as for VOCS; when
    they are equal nothing is stored and nobody is notified, so a write
    that is a proper beginning of the current description (the empty write
    among them) returns its length and leaves the longer description in
    place: what is read back is not what was written. *)
Theorem X11_aics_description_prefix_kept input_desc idx description buf len :
  (0 < length input_desc)%nat ->
  0 <= len ->
  let n := Z.to_nat (Desc.clip (Z.of_nat (length input_desc)) len) in
  let r := Desc.write_input_desc input_desc idx description buf len in
  fst (fst r) = Z.min len (Z.of_nat (length input_desc) - 1)
  /\ (Desc.bytes buf n <> firstn n input_desc ->
      Desc.string_of (snd (fst r)) = Desc.string_of (Desc.bytes buf n))
  /\ (Desc.bytes buf n = firstn n input_desc ->
      snd (fst r) = input_desc /\ snd r = []
      /\ ((n < Desc.strlen input_desc)%nat ->
          Desc.string_of (snd (fst r)) <> Desc.bytes buf n)).
Proof.
  intros HN Hl. cbv zeta. unfold Desc.write_input_desc.
  destruct (clip_range (Z.of_nat (length input_desc)) len) as [Hc Hr];
    [lia | exact Hl |].
  set (c := Desc.clip (Z.of_nat (length input_desc)) len) in *.
  destruct (Desc.memcmp buf input_desc (Z.to_nat c)) eqn:E;
    unfold Desc.memcmp in E.
  - apply negb_true_iff in E.
    destruct (desc_store input_desc idx description buf (Z.to_nat c))
      as (_ & H2 & _); [lia|].
    destruct (Desc.store input_desc idx description buf (Z.to_nat c))
      as [desc' evs].
    cbn [fst snd] in *. split; [exact Hc|]. split; [intros _; exact H2|].
    intros H. apply bytes_eqb_eq in H. congruence.
  - apply negb_false_iff, bytes_eqb_eq in E. cbn [fst snd].
    split; [exact Hc|]. split; [intros H; contradiction|].
    intros _. split; [reflexivity|]. split; [reflexivity|].
    intros Hlt Heq. apply (f_equal (@length Z)) in Heq.
    unfold Desc.string_of in Heq.
    rewrite length_firstn, length_bytes in Heq.
    pose proof (strlen_le input_desc). lia.
Qed.

Lemma X11_aics_description_prefix_kept_witness :
  Desc.write_input_desc desc_mic 0 None (mem_of []) 0 = (0, desc_mic, [])
  /\ Desc.string_of (snd (fst (Desc.write_input_desc desc_mic 0 None (mem_of []) 0)))
     <> [].
Proof.
  pose proof (X11_aics_description_prefix_kept desc_mic 0 None (mem_of []) 0)
    as H.
  cbv zeta in H.
  destruct H as (_ & _ & H); [cbn; lia | lia |].
  destruct (H eq_refl) as (_ & _ & H3).
  split; [reflexivity|]. apply H3. cbn. lia.
Defined.

(** * The CSIS lock protocol *)

Lemma notify_client_fold x cs : forall i evs,
  snd (fold_left (Csis.notify_client x) cs (i, evs))
  = evs ++ lock_notifications
             (filter (fun c => negb match x with
                                    | Some y => Csis.same_conn c y
                                    | None => false
                                    end) cs)
             (Csis.set_lock i).
Proof.
  induction cs as [|c cs IH]; intros i evs; cbn [fold_left filter].
  - cbn. rewrite app_nil_r. reflexivity.
  - unfold Csis.notify_client at 2.
    destruct (match x with Some y => Csis.same_conn c y | None => false end);
      cbn [negb].
    + apply IH.
    + rewrite IH. cbn [Csis.with_pend Csis.set_lock lock_notifications map].
      rewrite <- app_assoc. reflexivity.
Qed.

Lemma notify_clients_events h i x :
  snd (Csis.notify_clients h i x)
  = lock_notifications (csis_notified h x) (Csis.set_lock i).
Proof.
  unfold Csis.notify_clients, csis_notified. rewrite notify_client_fold.
  reflexivity.
Qed.

(** A write by anyone but the holder of a taken lock is refused. *)
Lemma write_set_lock_refused h g conn m len offset :
  Csis.set_lock (Csis.csis_inst g) = Csis.BT_CSIP_LOCK_VALUE ->
  Csis.is_last_client_to_write (Csis.csis_inst g) conn = false ->
  exists e, Csis.write_set_lock h g conn m len offset = (Csis.BT_GATT_ERR e, g, []).
Proof.
  intros Hl Hw. unfold Csis.write_set_lock. rewrite Hl, Hw, Z.eqb_refl.
  cbn [negb andb].
  split_ifs; eexists; reflexivity.
Qed.

Lemma bt_addr_le_eq_true a b : Csis.bt_addr_le_eq a b = true <-> a = b.
Proof.
  destruct a as [t v], b as [t' v']. unfold Csis.bt_addr_le_eq. cbn. split.
  - intros H. apply andb_prop in H. destruct H as [H1 H2].
    apply Z.eqb_eq in H1, H2. congruence.
  - intros [= -> ->]. rewrite !Z.eqb_refl. reflexivity.
Qed.

Lemma csis_notified_none h : csis_notified h None = Csis.conns h.
Proof.
  unfold csis_notified. cbn [negb]. induction (Csis.conns h) as [|c cs IH];
    cbn; [reflexivity | rewrite IH; reflexivity].
Qed.

(** X12 (csis.c, write_set_lock): mutual exclusion.  While the lock is
    Locked, no sequence of writes by connections other than the one whose
    address is recorded as the holder changes anything: whatever value,
    length and offset each write carries it is refused, the engine is left
    as it was and nothing is notified. *)
Theorem X12_csis_lock_excludes_others h g ws :
  Csis.set_lock (Csis.csis_inst g) = Csis.BT_CSIP_LOCK_VALUE ->
  Forall (fun w => Csis.is_last_client_to_write (Csis.csis_inst g) (w_conn w) = false)
         ws ->
  csis_writes h g ws = (g, []).
Proof.
  intros Hl Hw. induction Hw as [|w ws Hx _ IH]; cbn [csis_writes].
  - reflexivity.
  - destruct (write_set_lock_refused h g (w_conn w) (w_buf w) (w_len w)
                (w_offset w) Hl Hx) as [e ->].
    rewrite IH. reflexivity.
Qed.

Lemma X12_csis_lock_excludes_others_witness :
  csis_writes host_ab
    (snd (fst (Csis.write_set_lock host_ab (Csis.bt_csis_init 1) (Some peer_a)
                 (mem_of [Csis.BT_CSIP_LOCK_VALUE]) 1 0)))
    [mk_csis_write (Some peer_b) (mem_of [Csis.BT_CSIP_RELEASE_VALUE]) 1 0;
     mk_csis_write None (mem_of [Csis.BT_CSIP_RELEASE_VALUE]) 1 0;
     mk_csis_write (Some peer_b) (mem_of [Csis.BT_CSIP_LOCK_VALUE]) 1 0]
  = (snd (fst (Csis.write_set_lock host_ab (Csis.bt_csis_init 1) (Some peer_a)
                 (mem_of [Csis.BT_CSIP_LOCK_VALUE]) 1 0)), []).
Proof.
  apply X12_csis_lock_excludes_others.
  - reflexivity.
  - repeat constructor.
Defined.



(** A one-byte write of Lock or Release that the lock rules allow returns
    its length. *)
Lemma write_set_lock_accepts h g conn m :
  rd8 m 0 = Csis.BT_CSIP_LOCK_VALUE \/ rd8 m 0 = Csis.BT_CSIP_RELEASE_VALUE ->
  (Csis.set_lock (Csis.csis_inst g) = Csis.BT_CSIP_LOCK_VALUE ->
   rd8 m 0 = Csis.BT_CSIP_RELEASE_VALUE
   /\ Csis.is_last_client_to_write (Csis.csis_inst g) conn = true) ->
  exists g' evs, Csis.write_set_lock h g conn m 1 0 = (Csis.Len 1, g', evs).
Proof.
  intros Hv Hh. unfold Csis.write_set_lock. cbn [Z.eqb negb].
  unfold Csis.BT_CSIP_LOCK_VALUE, Csis.BT_CSIP_RELEASE_VALUE in *.
  destruct (negb (rd8 m 0 =? 1) && negb (rd8 m 0 =? 2)) eqn:E1; [exfalso; lia|].
  destruct ((Csis.set_lock (Csis.csis_inst g) =? 2) && (rd8 m 0 =? 2)) eqn:E2.
  { exfalso. apply andb_prop in E2. destruct E2 as [E2 E2'].
    apply Z.eqb_eq in E2. destruct (Hh E2). lia. }
  destruct ((Csis.set_lock (Csis.csis_inst g) =? 2)
            && negb (Csis.is_last_client_to_write (Csis.csis_inst g) conn)) eqn:E3.
  { exfalso. apply andb_prop in E3. destruct E3 as [E3 E4].
    apply Z.eqb_eq in E3. destruct (Hh E3) as [_ H]. rewrite H in E4.
    discriminate. }
  destruct (negb (Csis.set_lock (Csis.csis_inst g) =? rd8 m 0)).
  - match goal with
    | |- context [Csis.notify_clients h ?i conn] =>
        destruct (Csis.notify_clients h i conn) as [i3 ev3]
    end.
    eexists. eexists. reflexivity.
  - eexists. eexists. reflexivity.
Qed.

Lemma timer_expiry_fields h g :
  lock_fields (Csis.csis_inst (fst (Csis.timer_expiry h g)))
  = (Csis.BT_CSIP_RELEASE_VALUE, false, Csis.lock_client_addr (Csis.csis_inst g))
  /\ snd (Csis.timer_expiry h g)
     = lock_notifications (Csis.conns h) Csis.BT_CSIP_RELEASE_VALUE
       ++ Csis.call_locked g None false.
Proof.
  unfold Csis.timer_expiry, Csis.set_lock_timer_handler.
  cbn [Csis.csis_inst Csis.with_inst].
  set (i1 := Csis.with_lock _ _).
  pose proof (notify_clients_lock_fields h i1 None) as Hf.
  pose proof (notify_clients_events h i1 None) as He.
  destruct (Csis.notify_clients h i1 None) as [i2 evs].
  cbn [fst snd Csis.csis_inst Csis.with_inst] in *.
  rewrite Hf, He, csis_notified_none.
  apply lock_fields_inv in Hf. destruct Hf as (Hs & _). rewrite Hs.
  split; reflexivity.
Qed.

(** X14 (csis.c, set_lock_timer_handler, write_set_lock, bt_csis_lock,
    is_last_client_to_write): what the lock time-out leaves behind.  The
    handler sets the lock to Released, notifies every connection and calls
    the [locked] callback, but it does not clear the recorded holder.  A
    lock that the server then takes for itself (null connection) does not
    record a holder either, so the address of the client whose lock timed
    out stays: the server's own release without force is refused with Lock
    Release Denied, and a Release written by that client is accepted. *)
Theorem X14_csis_timeout_keeps_holder h g :
  let g1 := fst (Csis.timer_expiry h g) in
  lock_fields (Csis.csis_inst g1)
  = (Csis.BT_CSIP_RELEASE_VALUE, false, Csis.lock_client_addr (Csis.csis_inst g))
  /\ snd (Csis.timer_expiry h g)
     = lock_notifications (Csis.conns h) Csis.BT_CSIP_RELEASE_VALUE
       ++ Csis.call_locked g None false
  /\ forall h2,
       let r := Csis.bt_csis_lock h2 g1 true false in
       fst (fst r) = None
       /\ lock_fields (Csis.csis_inst (snd (fst r)))
          = (Csis.BT_CSIP_LOCK_VALUE, true,
             Csis.lock_client_addr (Csis.csis_inst g))
       /\ (Csis.lock_client_addr (Csis.csis_inst g) <> Csis.server_dummy_addr ->
           forall h3,
             Csis.bt_csis_lock h3 (snd (fst r)) false false
             = (Some Csis.BT_CSIP_ERROR_LOCK_RELEASE_DENIED, snd (fst r), [])
             /\ forall c m,
                  Csis.dst c = Csis.lock_client_addr (Csis.csis_inst g) ->
                  rd8 m 0 = Csis.BT_CSIP_RELEASE_VALUE ->
                  fst (fst (Csis.write_set_lock h3 (snd (fst r)) (Some c) m 1 0))
                  = Csis.Len 1).
Proof.
  cbv zeta. destruct (timer_expiry_fields h g) as [Hf He].
  split; [exact Hf|]. split; [exact He|]. intros h2.
  set (g1 := fst (Csis.timer_expiry h g)) in *.
  unfold lock_fields in Hf. injection Hf as Hs Ht Ha.
  unfold Csis.bt_csis_lock. cbn [negb andb].
  destruct (write_set_lock_accepts h2 g1 None (mem_of [Csis.BT_CSIP_LOCK_VALUE]))
    as (g2 & evs & E).
  { left. reflexivity. }
  { intros H. rewrite Hs in H. discriminate. }
  rewrite E. cbn [fst snd].
  pose proof (write_set_lock_fields h2 g1 None _ 1 0 1 g2 evs E) as F.
  change (rd8 (mem_of [Csis.BT_CSIP_LOCK_VALUE]) 0 =? Csis.BT_CSIP_LOCK_VALUE)
    with true in F. cbv iota in F. rewrite Ha in F.
  split; [reflexivity|]. split; [exact F|].
  intros Hne h3. unfold lock_fields in F. injection F as Fs Ft Fa.
  split.
  - unfold Csis.write_set_lock. cbn [Z.eqb negb]. rewrite Fs.
    unfold Csis.is_last_client_to_write. rewrite Fa.
    destruct (Csis.bt_addr_le_eq Csis.server_dummy_addr
                (Csis.lock_client_addr (Csis.csis_inst g))) eqn:Eq.
    + apply bt_addr_le_eq_true in Eq. congruence.
    + reflexivity.
  - intros c m Hc Hm.
    destruct (write_set_lock_accepts h3 g2 (Some c) m) as (g3 & ev3 & E3).
    { right. exact Hm. }
    { intros _. split; [exact Hm|]. unfold Csis.is_last_client_to_write.
      rewrite Fa, Hc. apply bt_addr_le_eq_true. reflexivity. }
    rewrite E3. reflexivity.
Qed.

Lemma X14_csis_timeout_keeps_holder_witness :
  Csis.bt_csis_lock host_ab
    (snd (fst (Csis.bt_csis_lock host_ab
                 (fst (Csis.timer_expiry host_ab
                         (snd (fst (Csis.write_set_lock host_ab (Csis.bt_csis_init 1)
                                      (Some peer_a)
                                      (mem_of [Csis.BT_CSIP_LOCK_VALUE]) 1 0)))))
                 true false)))
    false false
  = (Some Csis.BT_CSIP_ERROR_LOCK_RELEASE_DENIED,
     snd (fst (Csis.bt_csis_lock host_ab
                 (fst (Csis.timer_expiry host_ab
                         (snd (fst (Csis.write_set_lock host_ab (Csis.bt_csis_init 1)
                                      (Some peer_a)
                                      (mem_of [Csis.BT_CSIP_LOCK_VALUE]) 1 0)))))
                 true false)),
     []).
Proof.
  refine (proj1 (proj2 (proj2 (proj2 (proj2
            (X14_csis_timeout_keeps_holder host_ab
               (snd (fst (Csis.write_set_lock host_ab (Csis.bt_csis_init 1)
                            (Some peer_a) (mem_of [Csis.BT_CSIP_LOCK_VALUE]) 1 0)))))
            host_ab)) _ host_ab)).
  discriminate.
Defined.



(** ** Notifications kept for bonded peers that are away *)

Lemma update_first_keeps p f l : forall k e,
  nth_error l k = Some e -> p e = false ->
  nth_error (Csis.update_first p f l) k = Some e.
Proof.
  induction l as [|e0 l IH]; intros [|k] e H Hp; cbn in *; try discriminate.
  - injection H as ->. rewrite Hp. reflexivity.
  - destruct (p e0); cbn; [exact H | apply IH; assumption].
Qed.

Lemma notify_fold_keeps x cs : forall i evs k e,
  nth_error (Csis.pend_notify i) k = Some e ->
  (forall c, In c cs -> Csis.bt_addr_le_eq (Csis.dst c) (Csis.addr e) = false) ->
  nth_error (Csis.pend_notify (fst (fold_left (Csis.notify_client x) cs (i, evs)))) k
  = Some e.
Proof.
  induction cs as [|c cs IH]; intros i evs k e H Hc; cbn [fold_left].
  - exact H.
  - unfold Csis.notify_client at 2.
    destruct (match x with Some y => Csis.same_conn c y | None => false end).
    + apply IH; [exact H | intros c' Hin; apply Hc; right; exact Hin].
    + apply IH; [|intros c' Hin; apply Hc; right; exact Hin].
      cbn [Csis.with_pend Csis.pend_notify]. apply update_first_keeps; [exact H|].
      rewrite (Hc c (or_introl eq_refl)). apply andb_false_r.
Qed.

(** After [notify_clients(NULL)] the entry of an active peer that is not
    among the connections is marked pending. *)
Lemma notify_clients_marks h i k e :
  nth_error (Csis.pend_notify i) k = Some e ->
  Csis.active e = true ->
  (forall c, In c (Csis.conns h) ->
             Csis.bt_addr_le_eq (Csis.dst c) (Csis.addr e) = false) ->
  nth_error (Csis.pend_notify (fst (Csis.notify_clients h i None))) k
  = Some (Csis.set_pending e true).
Proof.
  intros H Ha Hc. unfold Csis.notify_clients. apply notify_fold_keeps.
  - cbn [Csis.with_pend Csis.pend_notify]. rewrite nth_error_map, H.
    cbn [option_map]. unfold Csis.mark_pending. rewrite Ha. reflexivity.
  - exact Hc.
Qed.

(** X16 (csis.c, notify_clients, notify_client, set_lock_timer_handler,
    csis_security_changed): a lock change is kept for a bonded peer that is
    away.  When the lock times out while a peer with an active entry in the
    table is not among the connections, the entry is marked pending; when
    that peer, bonded, later has its security changed it is sent the lock
    value, Released. *)
Theorem X16_csis_pending_notification_delivered h g p k e :
  nth_error (Csis.pend_notify (Csis.csis_inst g)) k = Some e ->
  Csis.active e = true ->
  Csis.addr e = Csis.dst p ->
  (forall c, In c (Csis.conns h) -> Csis.dst c <> Csis.dst p) ->
  let g1 := fst (Csis.timer_expiry h g) in
  nth_error (Csis.pend_notify (Csis.csis_inst g1)) k = Some (Csis.set_pending e true)
  /\ forall h2,
       Csis.is_bonded h2 p = true ->
       snd (Csis.csis_security_changed h2 g1 p)
       = [Csis.NotifyLock p Csis.BT_CSIP_RELEASE_VALUE].
Proof.
  intros H Ha Hp Hc. cbv zeta.
  destruct (timer_expiry_fields h g) as [Hf _].
  unfold lock_fields in Hf. injection Hf as Hs _ _.
  assert (K : nth_error (Csis.pend_notify
                           (Csis.csis_inst (fst (Csis.timer_expiry h g)))) k
              = Some (Csis.set_pending e true)).
  { unfold Csis.timer_expiry, Csis.set_lock_timer_handler.
    cbn [Csis.csis_inst Csis.with_inst].
    set (i1 := Csis.with_lock _ _).
    pose proof (notify_clients_marks h i1 k e H Ha) as M.
    destruct (Csis.notify_clients h i1 None) as [i2 evs].
    cbn [fst Csis.csis_inst Csis.with_inst] in *. apply M.
    intros c Hin. destruct (Csis.bt_addr_le_eq (Csis.dst c) (Csis.addr e)) eqn:Eq;
      [|reflexivity].
    apply bt_addr_le_eq_true in Eq. exfalso. apply (Hc c Hin). congruence. }
  split; [exact K|]. intros h2 Hb.
  unfold Csis.csis_security_changed. rewrite Hb. cbn [negb].
  set (g1 := fst (Csis.timer_expiry h g)) in *.
  assert (Ex : existsb (fun e0 => Csis.pending e0
                                  && Csis.bt_addr_le_eq (Csis.dst p) (Csis.addr e0))
                       (Csis.pend_notify (Csis.csis_inst g1)) = true).
  { apply existsb_exists. exists (Csis.set_pending e true).
    split; [apply (nth_error_In _ _ K)|].
    cbn [Csis.set_pending Csis.pending Csis.addr andb].
    apply bt_addr_le_eq_true. congruence. }
  rewrite Ex. cbn [snd]. rewrite Hs. reflexivity.
Qed.

Lemma X16_csis_pending_notification_delivered_witness :
  snd (Csis.csis_security_changed
         {| Csis.conns := [peer_c]; Csis.bonds := [Csis.dst peer_c] |}
         (fst (Csis.timer_expiry host_ab csis_bonded_c)) peer_c)
  = [Csis.NotifyLock peer_c Csis.BT_CSIP_RELEASE_VALUE].
Proof.
  refine (proj2 (X16_csis_pending_notification_delivered host_ab csis_bonded_c
                   peer_c 0
                   {| Csis.addr := Csis.dst peer_c; Csis.pending := false;
                      Csis.active := true; Csis.age := 0 |}
                   eq_refl eq_refl eq_refl _)
                {| Csis.conns := [peer_c]; Csis.bonds := [Csis.dst peer_c] |}
                eq_refl).
  intros c [<- | [<- | []]]; discriminate.
Defined.

(** * The random part of the PSRI *)

Lemma prand_value v :
  Z.lor (Z.land v 0x3FFFFF) (CsisRand.BIT 22) = v mod 2 ^ 22 + 2 ^ 22.
Proof.
  change 0x3FFFFF with (Z.ones 22). rewrite Z.land_ones by lia.
  change (CsisRand.BIT 22) with (2 ^ 22).
  assert (L : Z.land (v mod 2 ^ 22) (2 ^ 22) = 0).
  { apply Z.bits_inj'. intros n Hn.
    rewrite Z.land_spec, Z.bits_0, Z.pow2_bits_eqb by lia.
    destruct (22 =? n) eqn:E; [|apply andb_false_r].
    apply Z.eqb_eq in E. subst n.
    rewrite Z.mod_pow2_bits_high by lia. reflexivity. }
  rewrite <- Z.lxor_lor by exact L. symmetry. apply Z.add_nocarry_lxor. exact L.
Qed.

Lemma generate_prand_result draws : forall r p,
  CsisRand.generate_prand draws = Some (r, p) ->
  (r = 0 ->
   exists d, In d draws /\ CsisRand.res d = 0
             /\ CsisRand.dest_of d <> 0 /\ CsisRand.dest_of d <> 0x3FFFFF
             /\ p = CsisRand.dest_of d mod 2 ^ 22 + 2 ^ 22)
  /\ (r <> 0 -> exists d, In d draws /\ CsisRand.res d = r).
Proof.
  induction draws as [|d rest IH]; intros r p H; cbn [CsisRand.generate_prand] in H.
  - discriminate.
  - destruct (negb (CsisRand.res d =? 0)) eqn:E1.
    + injection H as <- <-. split; [intros; exfalso; lia|].
      intros _. exists d. split; [left; reflexivity | reflexivity].
    + destruct (negb (CsisRand.dest_of d =? 0)
                && negb (CsisRand.dest_of d =? 0x3FFFFF)) eqn:E2.
      * injection H as <- <-. split; [|intros; exfalso; lia].
        intros _. exists d. rewrite prand_value.
        repeat split; try lia. left. reflexivity.
      * destruct (IH r p H) as [I1 I2]. split.
        -- intros Hr. destruct (I1 Hr) as (d' & Hin & Hd). exists d'.
           split; [right; exact Hin | exact Hd].
        -- intros Hr. destruct (I2 Hr) as (d' & Hin & Hd). exists d'.
           split; [right; exact Hin | exact Hd].
Qed.

(** X17 (csis.c, generate_prand): the form of the prand and when the loop
    ends.  Whenever the function returns 0 the value it leaves has bit 22
    set and bit 23 clear and fits in three bytes.  The loop goes on exactly
    as long as [bt_rand] succeeds and delivers 0 or 0x3FFFFF: it has
    returned within a sequence of draws unless every one of them was such a
    draw. *)
Theorem X17_generate_prand_format draws :
  (forall p,
     CsisRand.generate_prand draws = Some (0, p) ->
     Z.testbit p 22 = true /\ Z.testbit p 23 = false /\ 0 <= p < 2 ^ 24)
  /\ (CsisRand.generate_prand draws = None
      <-> Forall (fun d => CsisRand.res d = 0
                           /\ (CsisRand.dest_of d = 0
                               \/ CsisRand.dest_of d = 0x3FFFFF)) draws).
Proof.
  split.
  - intros p H. destruct (generate_prand_result draws 0 p H) as [I _].
    destruct (I eq_refl) as (d & _ & _ & _ & _ & ->).
    pose proof (Z.mod_pos_bound (CsisRand.dest_of d) (2 ^ 22) eq_refl) as B.
    set (y := CsisRand.dest_of d mod 2 ^ 22) in *.
    split; [|split; [|lia]].
    + apply Z.testbit_true; [lia|].
      replace ((y + 2 ^ 22) / 2 ^ 22) with 1; [reflexivity|].
      apply Z.div_unique with (r := y); lia.
    + apply Z.testbit_false; [lia|].
      rewrite Z.div_small by lia. reflexivity.
  - induction draws as [|d rest IH]; cbn [CsisRand.generate_prand].
    + split; [intros _; constructor | reflexivity].
    + destruct (negb (CsisRand.res d =? 0)) eqn:E1.
      { split; [discriminate|]. intros F. inversion F; subst. exfalso. lia. }
      destruct (negb (CsisRand.dest_of d =? 0)
                && negb (CsisRand.dest_of d =? 0x3FFFFF)) eqn:E2.
      { split; [discriminate|]. intros F. inversion F; subst. exfalso. lia. }
      rewrite IH. split.
      * intros F. constructor; [lia | exact F].
      * intros F. inversion F; subst. assumption.
Qed.

(** X18 (csis.c, generate_prand): the validity test comes before the mask.
    The test that the random number holds both a 1 and a 0 is made on the
    24 bits that [bt_rand] wrote, while the prand keeps the low 22 of them:
    the value returned for an accepted draw is 2^22 plus the draw modulo
    2^22, so a draw that is 0 or all ones in its low 22 bits and differs
    above them is accepted and gives a random part of all zeros or all
    ones. *)
Theorem X18_generate_prand_check_before_mask d rest :
  CsisRand.res d = 0 ->
  CsisRand.dest_of d <> 0 ->
  CsisRand.dest_of d <> 0x3FFFFF ->
  CsisRand.generate_prand (d :: rest)
  = Some (0, 2 ^ 22 + CsisRand.dest_of d mod 2 ^ 22)
  /\ (CsisRand.dest_of d mod 2 ^ 22 = 0 ->
      CsisRand.generate_prand (d :: rest) = Some (0, 0x400000))
  /\ (CsisRand.dest_of d mod 2 ^ 22 = 0x3FFFFF ->
      CsisRand.generate_prand (d :: rest) = Some (0, 0x7FFFFF)).
Proof.
  intros Hr H0 H1.
  assert (E : CsisRand.generate_prand (d :: rest)
              = Some (0, 2 ^ 22 + CsisRand.dest_of d mod 2 ^ 22)).
  { cbn [CsisRand.generate_prand]. rewrite Hr. cbn [Z.eqb negb].
    destruct (negb (CsisRand.dest_of d =? 0)
              && negb (CsisRand.dest_of d =? 0x3FFFFF)) eqn:E2; [|exfalso; lia].
    rewrite prand_value. f_equal. f_equal. lia. }
  split; [exact E|]. split; intros Hm; rewrite E, Hm; reflexivity.
Qed.

Lemma X18_generate_prand_check_before_mask_witness :
  CsisRand.generate_prand [CsisRand.mk_draw 0 0 0 0x40] = Some (0, 0x400000)
  /\ CsisRand.generate_prand [CsisRand.mk_draw 0 0xff 0xff 0x7f] = Some (0, 0x7FFFFF).
Proof.
  split.
  - refine (proj1 (proj2 (X18_generate_prand_check_before_mask
                            (CsisRand.mk_draw 0 0 0 0x40) [] eq_refl _ _)) eq_refl);
      discriminate.
  - refine (proj2 (proj2 (X18_generate_prand_check_before_mask
                            (CsisRand.mk_draw 0 0xff 0xff 0x7f) [] eq_refl _ _))
              eq_refl); discriminate.
Defined.

Lemma X17_generate_prand_format_witness :
  Z.testbit 0x69f563 22 = true /\ Z.testbit 0x69f563 23 = false
  /\ 0 <= 0x69f563 < 2 ^ 24.
Proof.
  apply (proj1 (X17_generate_prand_format
                  [CsisRand.mk_draw 0 0 0 0; CsisRand.mk_draw 0 0x63 0xf5 0xa9])).
  reflexivity.
Defined.

(** * The client write functions *)

(** X19 (aics_client.c, aics_client_common_control,
    bt_aics_client_gain_set): one write at a time per AICS instance.  On an
    idle instance with a known control handle a call whose [bt_gatt_write]
    is accepted returns 0 and issues one write of the opcode and the cached
    counter; until a completion clears [busy] every further call on that
    instance, of either function, returns -EBUSY, writes nothing and changes
    nothing.  A call whose [bt_gatt_write] is refused returns that error and
    leaves the instance idle. *)
Theorem X19_aics_client_one_write_at_a_time insts c opcode idx i :
  0 <= idx ->
  nth_error insts (Z.to_nat idx) = Some (Some i) ->
  AicsClient.control_handle i <> 0 ->
  AicsClient.busy i = false ->
  let r := AicsClient.aics_client_common_control insts (Some c) opcode idx 0 in
  fst (fst r) = 0
  /\ snd r = [GattWrite (AicsClient.control_handle i)
                        [uint8 opcode; AicsClient.change_counter i] 0]
  /\ (forall conn opcode2 gain wr,
        conn <> None ->
        AicsClient.aics_client_common_control (snd (fst r)) conn opcode2 idx wr
        = (- EBUSY, snd (fst r), [])
        /\ AicsClient.bt_aics_client_gain_set (snd (fst r)) conn idx gain wr
           = (- EBUSY, snd (fst r), []))
  /\ (forall wr,
        wr <> 0 ->
        let r' := AicsClient.aics_client_common_control insts (Some c) opcode idx wr in
        fst (fst r') = wr
        /\ exists i', nth_error (snd (fst r')) (Z.to_nat idx) = Some (Some i')
                      /\ AicsClient.busy i' = false).
Proof.
  intros Hi Hn Hh Hb. cbv zeta.
  assert (Hlt : (Z.to_nat idx < length insts)%nat).
  { apply nth_error_Some. rewrite Hn. discriminate. }
  assert (Hc : AicsClient.checked_instance insts (Some c) idx = inr i).
  { unfold AicsClient.checked_instance. rewrite Hn, Hb.
    destruct (idx >=? Z.of_nat (length insts)) eqn:E; [exfalso; lia|].
    destruct (AicsClient.control_handle i =? 0) eqn:E0; [exfalso; lia|].
    reflexivity. }
  assert (Hpos : (0 <? Z.of_nat (length insts)) = true) by lia.
  set (i2 := AicsClient.with_busy
               (AicsClient.with_write_buf i
                  {| AicsClient.b0 := uint8 opcode;
                     AicsClient.b1 := AicsClient.change_counter i;
                     AicsClient.b2 := AicsClient.b2 (AicsClient.write_buf i) |})
               true).
  set (insts1 := list_set (Z.to_nat idx) (Some i2) insts).
  assert (R : AicsClient.aics_client_common_control insts (Some c) opcode idx 0
              = (0, insts1,
                 [GattWrite (AicsClient.control_handle i)
                            [uint8 opcode; AicsClient.change_counter i] 0])).
  { unfold AicsClient.aics_client_common_control. rewrite Hpos, Hc. reflexivity. }
  rewrite R. cbn [fst snd].
  split; [reflexivity|]. split; [reflexivity|]. split.
  - intros conn opcode2 gain wr Hconn.
    destruct conn as [c'|]; [|contradiction].
    assert (Hc1 : AicsClient.checked_instance insts1 (Some c') idx = inl (- EBUSY)).
    { unfold AicsClient.checked_instance, insts1.
      rewrite length_list_set, (nth_error_list_set _ _ _ _ Hn).
      destruct (idx >=? Z.of_nat (length insts)) eqn:E; [exfalso; lia|].
      cbn [i2 AicsClient.with_busy AicsClient.with_write_buf
           AicsClient.control_handle AicsClient.busy].
      destruct (AicsClient.control_handle i =? 0) eqn:E0; [exfalso; lia|].
      reflexivity. }
    unfold AicsClient.aics_client_common_control, AicsClient.bt_aics_client_gain_set.
    rewrite Hc1.
    assert (Hpos1 : (0 <? Z.of_nat (length insts1)) = true)
      by (unfold insts1; rewrite length_list_set; exact Hpos).
    rewrite Hpos1. split; reflexivity.
  - intros wr Hwr. unfold AicsClient.aics_client_common_control.
    rewrite Hpos, Hc. cbn [fst snd].
    split; [reflexivity|].
    destruct (wr =? 0) eqn:E; [exfalso; lia|].
    eexists. split; [apply (nth_error_list_set _ _ _ _ Hn)|].
    cbn. exact Hb.
Qed.

Lemma X19_aics_client_one_write_at_a_time_witness :
  AicsClient.aics_client_common_control
    (snd (fst (AicsClient.aics_client_common_control [Some aics_client_inst0]
                 (Some 1%nat) Aics.AICS_OPCODE_MUTE 0 0)))
    (Some 1%nat) Aics.AICS_OPCODE_UNMUTE 0 0
  = (- EBUSY,
     snd (fst (AicsClient.aics_client_common_control [Some aics_client_inst0]
                 (Some 1%nat) Aics.AICS_OPCODE_MUTE 0 0)),
     []).
Proof.
  refine (proj1 (proj1 (proj2 (proj2
            (X19_aics_client_one_write_at_a_time [Some aics_client_inst0] 1%nat
               Aics.AICS_OPCODE_MUTE 0 aics_client_inst0 _ eq_refl _ eq_refl)))
            (Some 1%nat) Aics.AICS_OPCODE_UNMUTE 0 0 _)).
  - lia.
  - discriminate.
  - discriminate.
Defined.

(** X20 (vcs_client.c, vcs_client_common_vcs_cp, bt_vcs_client_set_volume):
    a refused write leaves the VCS client busy.  [busy] is set before
    [bt_gatt_write] is called and is not cleared when that call fails; no
    completion will follow a write that was never queued, so after such a
    failure every call of either write function on a connection returns
    -EBUSY, writes nothing and changes nothing. *)
Theorem X20_vcs_client_refused_write_stays_busy g c opcode wr :
  VcsClient.control_handle (VcsClient.vcs_inst g) <> 0 ->
  VcsClient.busy (VcsClient.vcs_inst g) = false ->
  wr <> 0 ->
  let r := VcsClient.vcs_client_common_vcs_cp g (Some c) opcode wr in
  fst (fst r) = wr
  /\ VcsClient.busy (VcsClient.vcs_inst (snd (fst r))) = true
  /\ forall c' call,
       vcs_client_do (snd (fst r)) (Some c') call = (- EBUSY, snd (fst r), []).
Proof.
  intros Hh Hb Hwr. cbv zeta. unfold VcsClient.vcs_client_common_vcs_cp at 1 2 3.
  rewrite Hb.
  destruct (VcsClient.control_handle (VcsClient.vcs_inst g) =? 0) eqn:E0;
    [exfalso; lia|].
  cbn [fst snd]. split; [reflexivity|]. split; [reflexivity|].
  intros c' call.
  destruct call; cbn [vcs_client_do];
    unfold VcsClient.vcs_client_common_vcs_cp, VcsClient.bt_vcs_client_set_volume;
    rewrite Hb, E0; cbn [fst snd];
    cbn [VcsClient.vcs_inst VcsClient.with_inst VcsClient.with_write_buf
         VcsClient.with_busy VcsClient.control_handle VcsClient.busy];
    rewrite E0; reflexivity.
Qed.

Lemma X20_vcs_client_refused_write_stays_busy_witness :
  vcs_client_do
    (snd (fst (VcsClient.vcs_client_common_vcs_cp vcs_client_g0 (Some 1%nat)
                 Vcs.VCS_OPCODE_MUTE (- 12))))
    (Some 1%nat) (CallSetVolume 10 0)
  = (- EBUSY,
     snd (fst (VcsClient.vcs_client_common_vcs_cp vcs_client_g0 (Some 1%nat)
                 Vcs.VCS_OPCODE_MUTE (- 12))),
     []).
Proof.
  refine (proj2 (proj2 (X20_vcs_client_refused_write_stays_busy vcs_client_g0 1%nat
                          Vcs.VCS_OPCODE_MUTE (- 12) _ eq_refl _))
            1%nat (CallSetVolume 10 0)); discriminate.
Defined.

(** * Client and server together *)

(** X21 (vcs_client.c, internal_read_volume_state_cb, with vcs.c,
    write_vcs_control): the retry of the VCS client is accepted by the VCS
    server.  When the re-read returns the bytes of the server's volume
    state, the write that the client issues again, for whichever valid
    opcode its write buffer holds, carries the server's counter and a length
    that fits the opcode: it passes every guard of the server's handler,
    which, if its callbacks are sound, returns the length written. *)
Theorem X21_vcs_retry_is_accepted g c srv :
  VcsClient.control_handle (VcsClient.vcs_inst g) <> 0 ->
  Vcs.VALID_VCS_OPCODE (VcsClient.wb0 (VcsClient.vcs_inst g)) = true ->
  0 <= Vcs.change_counter (Vcs.state srv) <= 255 ->
  vcs_cb_sound srv ->
  exists data g',
    VcsClient.internal_read_volume_state_cb g (Some c) 0
      (Some (mem_of (Vcs.state_bytes (Vcs.state srv)))) 3 0
    = (g', [GattWrite (VcsClient.control_handle (VcsClient.vcs_inst g)) data 0])
    /\ Vcs.cp_opcode (mem_of data) = VcsClient.wb0 (VcsClient.vcs_inst g)
    /\ Vcs.out_ret (Vcs.write_vcs_control srv (write_of data 0))
       = Some (Z.of_nat (length data)).
Proof.
  intros Hh Hv Hc S.
  set (d := mem_of (Vcs.state_bytes (Vcs.state srv))).
  destruct (vcs_client_retries g c d Hh) as (i' & E & _).
  assert (Hd : rd8 d 2 = Vcs.change_counter (Vcs.state srv)).
  { unfold d, rd8, mem_of, Vcs.state_bytes. cbn [nth]. apply uint8_small, Hc. }
  rewrite Hd in E.
  exists (vcs_retry_data (VcsClient.vcs_inst g) (Vcs.change_counter (Vcs.state srv))).
  eexists. split; [exact E|].
  set (data := vcs_retry_data _ _).
  assert (Hop : 0 <= VcsClient.wb0 (VcsClient.vcs_inst g) <= 6).
  { unfold Vcs.VALID_VCS_OPCODE, Vcs.VCS_OPCODE_REL_VOL_DOWN, Vcs.VCS_OPCODE_MUTE in Hv.
    lia. }
  assert (G : vcs_guards (write_of data 0) (mem_of data)
              /\ Vcs.cp_counter (mem_of data) = Vcs.change_counter (Vcs.state srv)
              /\ Vcs.cp_opcode (mem_of data) = VcsClient.wb0 (VcsClient.vcs_inst g)).
  { unfold data, vcs_retry_data, Vcs.VCS_OPCODE_SET_ABS_VOL.
    destruct (VcsClient.wb0 (VcsClient.vcs_inst g) =? 4) eqn:E4;
      unfold vcs_guards, write_of, Vcs.VALID_VCS_OPCODE, Vcs.bad_length,
        Vcs.cp_opcode, Vcs.cp_counter, rd8, mem_of,
        Vcs.VCS_OPCODE_REL_VOL_DOWN, Vcs.VCS_OPCODE_MUTE, Vcs.VCS_CP_LEN,
        Vcs.VCS_CP_ABS_VOL_LEN, Vcs.VCS_OPCODE_SET_ABS_VOL;
      cbn [offset len buf length nth];
      rewrite ?(uint8_small (Vcs.change_counter (Vcs.state srv))) by lia;
      rewrite ?(uint8_small (uint8 (VcsClient.wb0 (VcsClient.vcs_inst g))))
        by (rewrite uint8_small; lia);
      rewrite ?(uint8_small (VcsClient.wb0 (VcsClient.vcs_inst g))) by lia;
      repeat split; try reflexivity; try lia; try discriminate.
    change (uint8 4) with 4. lia. }
  destruct G as (G & C & O). split; [exact O|].
  rewrite (vcs_write_ret srv (write_of data 0) (mem_of data) G C S).
  reflexivity.
Qed.

Lemma X21_vcs_retry_is_accepted_witness :
  exists data g',
    VcsClient.internal_read_volume_state_cb vcs_client_g0 (Some 1%nat) 0
      (Some (mem_of (Vcs.state_bytes (Vcs.state Vcs.vcs_inst)))) 3 0
    = (g', [GattWrite (VcsClient.control_handle (VcsClient.vcs_inst vcs_client_g0))
                      data 0])
    /\ Vcs.cp_opcode (mem_of data) = VcsClient.wb0 (VcsClient.vcs_inst vcs_client_g0)
    /\ Vcs.out_ret (Vcs.write_vcs_control Vcs.vcs_inst (write_of data 0))
       = Some (Z.of_nat (length data)).
Proof.
  refine (X21_vcs_retry_is_accepted vcs_client_g0 1%nat Vcs.vcs_inst _ eq_refl _ _).
  - discriminate.
  - cbn. lia.
  - intros cb H. discriminate H.
Defined.

(** With a valid opcode the switch of the AICS handler never reaches its
    default branch. *)
Lemma aics_switch_valid inst m :
  Aics.VALID_AICS_OPCODE (Aics.cp_opcode m) = true ->
  Aics.aics_switch inst m <> Aics.SwErr Aics.AICS_ERR_OP_NOT_SUPPORTED.
Proof.
  unfold Aics.VALID_AICS_OPCODE, Aics.aics_switch, Aics.AICS_OPCODE_SET_GAIN,
    Aics.AICS_OPCODE_SET_AUTO, Aics.AICS_OPCODE_UNMUTE, Aics.AICS_OPCODE_MUTE,
    Aics.AICS_OPCODE_SET_MANUAL.
  intros Hv. split_ifs; try discriminate. exfalso. lia.
Qed.

(** X22 (aics_client.c, internal_read_input_state_cb, with aics.c,
    write_aics_control): the retry of the AICS client gets past the counter.
    When the re-read returns the bytes of the server's input state, the
    write that the client issues again, for whichever valid opcode its write
    buffer holds, carries that opcode, the server's counter and a length
    that fits: the server's handler answers it neither with Invalid Change
    Counter nor with a length, offset or opcode error, but returns the
    length written or refuses by the rule of the opcode (Mute Disabled, Out
    Of Range, Gain Mode). *)
Theorem X22_aics_retry_reaches_opcode_rule insts c handle k i srv :
  AicsClient.lookup_aics_by_handle insts handle = Some (k, i) ->
  AicsClient.index i = Z.of_nat k ->
  AicsClient.control_handle i <> 0 ->
  Aics.VALID_AICS_OPCODE (AicsClient.b0 (AicsClient.write_buf i)) = true ->
  0 <= Aics.change_counter (Aics.state srv) <= 255 ->
  exists data insts',
    AicsClient.internal_read_input_state_cb insts (Some c) 0 handle
      (Some (mem_of (Aics.state_bytes (Aics.state srv)))) 4 0
    = (insts', [GattWrite (AicsClient.control_handle i) data 0])
    /\ Aics.cp_opcode (mem_of data) = AicsClient.b0 (AicsClient.write_buf i)
    /\ (fst (fst (Aics.write_aics_control srv (write_of data 0)))
        = Z.of_nat (length data)
        \/ fst (fst (Aics.write_aics_control srv (write_of data 0)))
           = BT_GATT_ERR Aics.AICS_ERR_MUTE_DISABLED
        \/ fst (fst (Aics.write_aics_control srv (write_of data 0)))
           = BT_GATT_ERR Aics.AICS_ERR_OUT_OF_RANGE
        \/ fst (fst (Aics.write_aics_control srv (write_of data 0)))
           = BT_GATT_ERR Aics.AICS_ERR_GAIN_MODE_NO_SUPPORT).
Proof.
  intros Hl Hi Hh Hv Hc.
  set (d := mem_of (Aics.state_bytes (Aics.state srv))).
  destruct (aics_client_retries insts c handle k i d Hl Hi Hh) as (i' & E & _).
  assert (Hd : rd8 d 3 = Aics.change_counter (Aics.state srv)).
  { unfold d, rd8, mem_of, Aics.state_bytes. cbn [nth]. apply uint8_small, Hc. }
  rewrite Hd in E.
  exists (aics_retry_data i (Aics.change_counter (Aics.state srv))).
  eexists. split; [exact E|].
  set (data := aics_retry_data _ _).
  assert (Hop : 1 <= AicsClient.b0 (AicsClient.write_buf i) <= 5).
  { unfold Aics.VALID_AICS_OPCODE, Aics.AICS_OPCODE_SET_GAIN,
      Aics.AICS_OPCODE_SET_AUTO in Hv. lia. }
  assert (G : aics_guards (write_of data 0) (mem_of data)
              /\ Aics.cp_counter (mem_of data) = Aics.change_counter (Aics.state srv)
              /\ Aics.cp_opcode (mem_of data) = AicsClient.b0 (AicsClient.write_buf i)).
  { unfold data, aics_retry_data, Aics.AICS_OPCODE_SET_GAIN.
    destruct (AicsClient.b0 (AicsClient.write_buf i) =? 1) eqn:E1;
      unfold aics_guards, write_of, Aics.VALID_AICS_OPCODE, Aics.bad_length,
        Aics.cp_opcode, Aics.cp_counter, rd8, mem_of,
        Aics.AICS_OPCODE_SET_GAIN, Aics.AICS_OPCODE_SET_AUTO, Aics.AICS_CP_LEN,
        Aics.AICS_CP_SET_GAIN_LEN;
      cbn [offset len buf length nth];
      rewrite ?(uint8_small (Aics.change_counter (Aics.state srv))) by lia;
      rewrite ?(uint8_small (uint8 (AicsClient.b0 (AicsClient.write_buf i))))
        by (rewrite uint8_small; lia);
      rewrite ?(uint8_small (AicsClient.b0 (AicsClient.write_buf i))) by lia;
      repeat split; try reflexivity; try lia; try discriminate.
    change (uint8 1) with 1. lia. }
  destruct G as (G & C & O). split; [exact O|].
  rewrite (write_aics_control_guarded srv (write_of data 0) (mem_of data) G).
  rewrite C, Z.eqb_refl. cbn [negb].
  pose proof (aics_switch_valid srv (mem_of data)) as V.
  rewrite O in V. specialize (V Hv).
  destruct (Aics.aics_switch srv (mem_of data)) as [e | s n] eqn:Es.
  - destruct (aics_switch_err _ _ _ Es) as [-> | [-> | [-> | ->]]]; cbn [fst];
      auto. contradiction.
  - left. destruct n; reflexivity.
Qed.

Lemma X22_aics_retry_reaches_opcode_rule_witness :
  exists data insts',
    AicsClient.internal_read_input_state_cb
      [Some (AicsClient.with_write_buf aics_client_inst0
               (AicsClient.mk_buf Aics.AICS_OPCODE_MUTE 0 0))]
      (Some 1%nat) 0 0x12
      (Some (mem_of (Aics.state_bytes (Aics.state aics_inst2)))) 4 0
    = (insts', [GattWrite 0x1a data 0])
    /\ Aics.cp_opcode (mem_of data) = Aics.AICS_OPCODE_MUTE
    /\ (fst (fst (Aics.write_aics_control aics_inst2 (write_of data 0)))
        = Z.of_nat (length data)
        \/ fst (fst (Aics.write_aics_control aics_inst2 (write_of data 0)))
           = BT_GATT_ERR Aics.AICS_ERR_MUTE_DISABLED
        \/ fst (fst (Aics.write_aics_control aics_inst2 (write_of data 0)))
           = BT_GATT_ERR Aics.AICS_ERR_OUT_OF_RANGE
        \/ fst (fst (Aics.write_aics_control aics_inst2 (write_of data 0)))
           = BT_GATT_ERR Aics.AICS_ERR_GAIN_MODE_NO_SUPPORT).
Proof.
  refine (X22_aics_retry_reaches_opcode_rule
            [Some (AicsClient.with_write_buf aics_client_inst0
                     (AicsClient.mk_buf Aics.AICS_OPCODE_MUTE 0 0))]
            1%nat 0x12 0%nat _ aics_inst2 eq_refl eq_refl _ eq_refl _).
  - discriminate.
  - cbn. lia.
Defined.

(** * The change counter and the state notifications of a VCS session *)

Lemma apply_op_counter inst op :
  vcs_inst_ok inst ->
  0 <= Vcs.change_counter (Vcs.state inst) <= 255 ->
  let o := apply_op inst op in
  Vcs.change_counter (Vcs.state (Vcs.out_inst o))
  = (Vcs.change_counter (Vcs.state inst)
     + Z.of_nat (length (filter is_state_notify (Vcs.out_events o)))) mod 256
  /\ 0 <= Vcs.change_counter (Vcs.state (Vcs.out_inst o)) <= 255.
Proof.
  intros Ok Hc. cbv zeta.
  assert (Same : forall o, Vcs.state (Vcs.out_inst o) = Vcs.state inst ->
                           filter is_state_notify (Vcs.out_events o) = [] ->
    Vcs.change_counter (Vcs.state (Vcs.out_inst o))
    = (Vcs.change_counter (Vcs.state inst)
       + Z.of_nat (length (filter is_state_notify (Vcs.out_events o)))) mod 256
    /\ 0 <= Vcs.change_counter (Vcs.state (Vcs.out_inst o)) <= 255).
  { intros o -> ->. cbn [length Z.of_nat]. rewrite Z.add_0_r, Z.mod_small by lia.
    split; [reflexivity | exact Hc]. }
  destruct op as [w | c | n | |]; cbn [apply_op].
  - destruct (vcs_guards_dec w) as [[m G] | N].
    + destruct (Z.eq_dec (Vcs.cp_counter m) (Vcs.change_counter (Vcs.state inst)))
        as [E | E].
      * destruct (vcs_commit inst w m G E Ok) as (A & B & _).
        set (o := Vcs.write_vcs_control inst w) in *.
        assert (D : vcs_fields (Vcs.state (Vcs.out_inst o)) = vcs_fields (Vcs.state inst)
                    \/ vcs_fields (Vcs.state (Vcs.out_inst o))
                       <> vcs_fields (Vcs.state inst)).
        { unfold vcs_fields.
          destruct (Z.eq_dec (Vcs.volume (Vcs.state (Vcs.out_inst o)))
                             (Vcs.volume (Vcs.state inst)));
            destruct (Z.eq_dec (Vcs.mute (Vcs.state (Vcs.out_inst o)))
                               (Vcs.mute (Vcs.state inst)));
            [left; congruence | right; congruence ..]. }
        destruct D as [D | D].
        -- destruct (A D) as [A1 A2]. apply Same; assumption.
        -- destruct (B D) as [B1 B2]. rewrite B1, B2. cbn [length Z.of_nat].
           split; [reflexivity|].
           pose proof (Z.mod_pos_bound
                         (Vcs.change_counter (Vcs.state inst) + 1) 256 eq_refl).
           lia.
      * rewrite (write_vcs_control_guarded inst w m G).
        destruct (negb (Vcs.cp_counter m =? Vcs.change_counter (Vcs.state inst)))
          eqn:Ec; [|exfalso; lia].
        apply Same; reflexivity.
    + destruct (write_vcs_control_unguarded inst w N) as (e & -> & _).
      apply Same; reflexivity.
  - apply Same; reflexivity.
  - unfold Vcs.bt_vcs_volume_step_set. destruct (uint8 n >? 0);
      apply Same; reflexivity.
  - unfold Vcs.bt_vcs_volume_get.
    destruct (Vcs.cb_and_state (Vcs.cb inst)) as [[c f]|]; apply Same; reflexivity.
  - unfold Vcs.bt_vcs_flags_get.
    destruct (Vcs.cb_and_state (Vcs.cb inst)) as [[c f]|];
      [destruct (Vcs.cb_flags c)|]; apply Same; reflexivity.
Qed.

(** X23 (vcs.c, write_vcs_control with bt_vcs_server_cb_register,
    bt_vcs_volume_step_set, bt_vcs_volume_get, bt_vcs_flags_get): the change
    counter counts the state notifications.  Over any session of writes and
    local calls, from an instance with a volume in 0..255, a positive volume
    step and a counter in 0..255, the counter at the end is the counter at
    the start plus the number of Volume State notifications sent, modulo
    256: nothing changes the counter without notifying, and nothing
    notifies without changing it. *)
Theorem X23_vcs_counter_counts_notifications ops : forall inst,
  vcs_inst_ok inst ->
  0 <= Vcs.change_counter (Vcs.state inst) <= 255 ->
  Vcs.change_counter (Vcs.state (fst (session inst ops)))
  = (Vcs.change_counter (Vcs.state inst)
     + Z.of_nat (length (filter is_state_notify (snd (session inst ops))))) mod 256.
Proof.
  induction ops as [|op ops IH]; intros inst Ok Hc; cbn [session].
  - cbn. rewrite Z.add_0_r, Z.mod_small by lia. reflexivity.
  - pose proof (apply_op_inst_ok inst op Ok) as Ok'.
    destruct (apply_op_counter inst op Ok Hc) as [E R].
    destruct (apply_op inst op) as [r i e | i e];
      cbn [Vcs.out_inst Vcs.out_events] in *.
    + specialize (IH i Ok' R).
      destruct (session i ops) as [i' e']. cbn [fst snd] in *.
      rewrite IH, E, filter_app, length_app, Nat2Z.inj_add.
      rewrite Zplus_mod_idemp_l. f_equal. lia.
    + cbn [fst snd]. exact E.
Qed.

Lemma X23_vcs_counter_counts_notifications_witness :
  Vcs.change_counter
    (Vcs.state (fst (session Vcs.vcs_inst
                       [OpWrite (write_of [0x01; 0] 0); OpWrite (write_of [0x06; 0] 0);
                        OpVolumeGet; OpWrite (write_of [0x06; 1] 0);
                        OpWrite (write_of [0x06; 2] 0)])))
  = 2.
Proof.
  refine (X23_vcs_counter_counts_notifications
            [OpWrite (write_of [0x01; 0] 0); OpWrite (write_of [0x06; 0] 0);
             OpVolumeGet; OpWrite (write_of [0x06; 1] 0);
             OpWrite (write_of [0x06; 2] 0)] Vcs.vcs_inst _ _).
  - unfold vcs_inst_ok. cbn. lia.
  - cbn. lia.
Defined.

(** The volume and mute value after an accepted write are those the switch
    computed. *)
Lemma vcs_write_state inst w m :
  vcs_guards w m ->
  Vcs.cp_counter m = Vcs.change_counter (Vcs.state inst) ->
  exists r,
    Vcs.vcs_switch (Vcs.volume_step inst) (Vcs.state inst) m = Some r
    /\ vcs_fields (Vcs.state (Vcs.out_inst (Vcs.write_vcs_control inst w)))
       = vcs_fields (Vcs.sw_state r).
Proof.
  intros G Hc. rewrite (write_vcs_control_guarded inst w m G).
  rewrite Hc, Z.eqb_refl. cbn [negb].
  destruct G as (_ & _ & _ & Hv & _).
  destruct (vcs_switch_valid (Vcs.volume_step inst) (Vcs.state inst) m Hv)
    as (r & Hr & _).
  exists r. split; [exact Hr|]. rewrite Hr.
  destruct (Vcs.commit_state inst r) as [inst1 evs1] eqn:Ecommit.
  destruct (vcs_commit_state _ _ _ _ Ecommit) as (_ & _ & _ & _ & Hn0 & Hn1).
  destruct (vcs_latch_flags_state (len w) inst1 evs1 (Vcs.sw_volume_change r))
    as (-> & _).
  destruct (Vcs.sw_notify r).
  - destruct (Hn1 eq_refl) as [-> _]. reflexivity.
  - destruct (Hn0 eq_refl) as [-> _]. reflexivity.
Qed.

(** X24 (vcs.c, bt_vcs_volume_step_set, with write_vcs_control): the volume
    step call reports failure also when it has done its work.  It never
    returns 0: for a step of 0 it returns -EINVAL and changes nothing, for
    any other step it stores the step and still returns -EOPNOTSUPP.  The
    stored step is in force: the next accepted relative write moves the
    volume by it, up to 255 and down to 0. *)
Theorem X24_vcs_volume_step_set inst step :
  1 <= step <= 255 ->
  0 <= Vcs.volume (Vcs.state inst) <= 255 ->
  Vcs.bt_vcs_volume_step_set inst 0 = (- EINVAL, inst)
  /\ fst (Vcs.bt_vcs_volume_step_set inst step) = - EOPNOTSUPP
  /\ forall w m,
       vcs_guards w m ->
       Vcs.cp_counter m = Vcs.change_counter (Vcs.state inst) ->
       let after :=
         Vcs.volume (Vcs.state (Vcs.out_inst
           (Vcs.write_vcs_control (snd (Vcs.bt_vcs_volume_step_set inst step)) w))) in
       (Vcs.cp_opcode m = Vcs.VCS_OPCODE_REL_VOL_UP ->
        after = Z.min 255 (Vcs.volume (Vcs.state inst) + step))
       /\ (Vcs.cp_opcode m = Vcs.VCS_OPCODE_REL_VOL_DOWN ->
           after = Z.max 0 (Vcs.volume (Vcs.state inst) - step)).
Proof.
  intros Hs Hvol. split; [reflexivity|].
  unfold Vcs.bt_vcs_volume_step_set. rewrite (uint8_small step) by lia.
  destruct (step >? 0) eqn:E; [|exfalso; lia]. cbn [fst snd].
  split; [reflexivity|]. intros w m G Hc. cbv zeta.
  set (inst1 := {| Vcs.state := Vcs.state inst; Vcs.flags := Vcs.flags inst;
                   Vcs.cb := Vcs.cb inst; Vcs.volume_step := step |}).
  destruct (vcs_write_state inst1 w m G Hc) as (r & Hr & Hf).
  cbn [inst1 Vcs.volume_step Vcs.state] in Hr.
  destruct (vcs_switch_effect _ _ _ _ Hvol Hs Hr) as [Ev _].
  unfold vcs_fields in Hf. injection Hf as Hf _. rewrite Hf, Ev.
  split; intros ->; reflexivity.
Qed.

Lemma X24_vcs_volume_step_set_witness :
  fst (Vcs.bt_vcs_volume_step_set Vcs.vcs_inst 200) = - EOPNOTSUPP
  /\ Vcs.volume (Vcs.state (Vcs.out_inst
       (Vcs.write_vcs_control (snd (Vcs.bt_vcs_volume_step_set Vcs.vcs_inst 200))
          (write_of [0x01; 0] 0)))) = 255.
Proof.
  pose proof (X24_vcs_volume_step_set Vcs.vcs_inst 200) as H.
  destruct H as (_ & H1 & H2); [lia | cbn; lia |].
  split; [exact H1|].
  refine (proj1 (H2 (write_of [0x01; 0] 0) (mem_of [0x01; 0]) _ eq_refl) eq_refl).
  repeat split; discriminate.
Defined.

(** * Initialisation *)

(** X25 (vocs.c, bt_vocs_init, with write_vocs_control): the offset range
    from initialisation on.  An instance that is already initialised is left
    alone with -EALREADY; an initial offset outside -255..255 is refused
    with -EINVAL before anything is stored; a return of 0 means the instance
    is initialised and holds the initial offset.  So whatever
    initialisation is tried on an instance whose offset is in the range (the
    zeroed one of static storage), and whatever control-point writes follow,
    the offset stays within -255..255. *)
Theorem X25_vocs_init_keeps_offset_range vocs init r ws :
  - 255 <= Vocs.offset_ (Vocs.state vocs) <= 255 ->
  let res := VocsInit.bt_vocs_init vocs init r in
  (Vocs.initialized vocs = true -> res = (- EALREADY, vocs))
  /\ (forall i, init = Some i -> Vocs.initialized vocs = false ->
                VocsInit.offset i > 255 \/ VocsInit.offset i < - 255 ->
                res = (- EINVAL, vocs))
  /\ (fst res = 0 ->
      Vocs.initialized (snd res) = true
      /\ forall i, init = Some i ->
                   Vocs.offset_ (Vocs.state (snd res)) = VocsInit.offset i)
  /\ - 255 <= Vocs.offset_ (Vocs.state (vocs_writes (snd res) ws)) <= 255.
Proof.
  intros Hr. cbv zeta.
  assert (W : forall v, - 255 <= Vocs.offset_ (Vocs.state v) <= 255 ->
                        - 255 <= Vocs.offset_ (Vocs.state (vocs_writes v ws)) <= 255).
  { induction ws as [|w ws IH]; intros v Hv; cbn [vocs_writes fold_left].
    - exact Hv.
    - apply IH, vocs_write_range, Hv. }
  unfold VocsInit.bt_vocs_init, registered, Vocs.VOCS_MAX_OFFSET,
    Vocs.VOCS_MIN_OFFSET, EALREADY, EINVAL.
  destruct (Vocs.initialized vocs) eqn:Ei.
  { repeat split; try discriminate; cbn [fst snd]; try lia; apply W, Hr. }
  destruct init as [i|].
  - destruct ((VocsInit.offset i >? 255) || (VocsInit.offset i <? -255)) eqn:Eo.
    + repeat split; try discriminate; cbn [fst snd]; try lia; apply W, Hr.
    + destruct (negb (r =? 0)) eqn:Er; cbn [fst snd];
        (split; [discriminate|]);
        (split; [intros i' [= <-] _ Hbad; exfalso; lia|]);
        (split; [|apply W; cbn; lia]).
      * intros H0. exfalso. lia.
      * intros _. split; [reflexivity|]. intros i' [= <-]. reflexivity.
  - destruct (negb (r =? 0)) eqn:Er; cbn [fst snd];
      (split; [discriminate|]); (split; [discriminate|]);
      (split; [|apply W; cbn; exact Hr]).
    + intros H0. exfalso. lia.
    + intros _. split; [reflexivity|]. discriminate.
Qed.

Lemma X25_vocs_init_keeps_offset_range_witness :
  VocsInit.bt_vocs_init vocs_zeroed
    (Some (VocsInit.mk_init 1 true 256 [79; 117; 116; 0; 0; 0; 0; 0] true)) 0
  = (- EINVAL, vocs_zeroed)
  /\ - 255 <= Vocs.offset_
                (Vocs.state
                   (vocs_writes
                      (snd (VocsInit.bt_vocs_init vocs_zeroed
                              (Some (VocsInit.mk_init 1 true (- 255)
                                       [79; 117; 116; 0; 0; 0; 0; 0] true)) 0))
                      [write_of [0x01; 0; 0x00; 0x01] 0])) <= 255.
Proof.
  split.
  - refine (proj1 (proj2 (X25_vocs_init_keeps_offset_range vocs_zeroed
                            (Some (VocsInit.mk_init 1 true 256
                                     [79; 117; 116; 0; 0; 0; 0; 0] true)) 0 [] _))
              _ eq_refl eq_refl _).
    + cbn. lia.
    + left. cbn. lia.
  - refine (proj2 (proj2 (proj2 (X25_vocs_init_keeps_offset_range vocs_zeroed
                            (Some (VocsInit.mk_init 1 true (- 255)
                                     [79; 117; 116; 0; 0; 0; 0; 0] true)) 0
                            [write_of [0x01; 0; 0x00; 0x01] 0] _)))).
    cbn. lia.
Defined.

Lemma int8_range z : - 128 <= int8 z <= 127.
Proof.
  unfold int8. pose proof (Z.mod_pos_bound z 256 eq_refl).
  destruct (z mod 256 <? 128) eqn:E; lia.
Qed.

(** X26 (aics.c, bt_aics_init, with aics.h and write_aics_control): what
    the initialisation of an AICS instance checks.  [input_type] is an
    [int8_t] and AICS_INPUT_TYPE_OTHER is 0x255, so the exception made for
    Other never applies: every input type above Network is refused with
    -EINVAL and nothing is stored.  With a mute value of at most 2, a mode
    of at most 3 and an input type of at most 6, negative ones included, a
    registration that succeeds gives 0, marks the instance initialised and
    stores the values, the type as an unsigned byte; the gain is stored
    without being compared with the minimum and maximum, and when it does
    lie between them it stays there under any control-point writes.  A
    second initialisation returns -EALREADY and changes nothing. *)
Theorem X26_aics_init_validation aics i :
  Aics.initialized aics = false ->
  (AicsInit.AICS_INPUT_TYPE_NETWORK < int8 (AicsInit.input_type i) ->
   forall r, AicsInit.bt_aics_init aics (Some i) r = (- EINVAL, aics))
  /\ (uint8 (AicsInit.mute i) <= Aics.AICS_STATE_MUTE_DISABLED ->
      uint8 (AicsInit.mode i) <= Aics.AICS_MODE_AUTO ->
      int8 (AicsInit.input_type i) <= AicsInit.AICS_INPUT_TYPE_NETWORK ->
      let res := AicsInit.bt_aics_init aics (Some i) 0 in
      fst res = 0
      /\ Aics.initialized (snd res) = true
      /\ Aics.gain (Aics.state (snd res)) = int8 (AicsInit.gain i)
      /\ Aics.mute (Aics.state (snd res)) = uint8 (AicsInit.mute i)
      /\ Aics.mode (Aics.state (snd res)) = uint8 (AicsInit.mode i)
      /\ Aics.type (snd res) = uint8 (int8 (AicsInit.input_type i))
      /\ (int8 (AicsInit.min_gain i) <= int8 (AicsInit.gain i)
          <= int8 (AicsInit.max_gain i) ->
          forall ws, aics_gain_ok (aics_writes (snd res) ws))
      /\ forall init' r',
           AicsInit.bt_aics_init (snd res) init' r' = (- EALREADY, snd res)).
Proof.
  intros Hi. unfold AicsInit.bt_aics_init, registered,
    AicsInit.AICS_INPUT_TYPE_NETWORK, AicsInit.AICS_INPUT_TYPE_OTHER,
    Aics.AICS_STATE_MUTE_DISABLED, Aics.AICS_MODE_AUTO.
  rewrite Hi. pose proof (int8_range (AicsInit.input_type i)) as Ht. split.
  - intros Hgt r.
    destruct ((uint8 (AicsInit.mute i) >? 2) || (uint8 (AicsInit.mode i) >? 3)
              || ((int8 (AicsInit.input_type i) >? 6)
                  && negb (int8 (AicsInit.input_type i) =? 597))) eqn:E;
      [reflexivity | exfalso; lia].
  - intros Hm Hd Hty. cbv zeta.
    destruct ((uint8 (AicsInit.mute i) >? 2) || (uint8 (AicsInit.mode i) >? 3)
              || ((int8 (AicsInit.input_type i) >? 6)
                  && negb (int8 (AicsInit.input_type i) =? 597))) eqn:E;
      [exfalso; lia|].
    cbn [Z.eqb negb fst snd Aics.initialized Aics.state Aics.gain Aics.mute
         Aics.mode Aics.type].
    repeat (split; [reflexivity|]). split; [|reflexivity].
    intros Hg ws. apply aics_writes_preserve. unfold aics_gain_ok. cbn. exact Hg.
Qed.

Lemma X26_aics_init_validation_witness :
  AicsInit.bt_aics_init aics_zeroed
    (Some (AicsInit.mk_init 0 0 2 1 (- 10) 10 0x55 true false [0])) 0
  = (- EINVAL, aics_zeroed)
  /\ Aics.type (snd (AicsInit.bt_aics_init aics_zeroed
                       (Some (AicsInit.mk_init 0 0 2 1 (- 10) 10 (- 1) true false [0]))
                       0))
     = 255.
Proof.
  split.
  - refine (proj1 (X26_aics_init_validation aics_zeroed
                     (AicsInit.mk_init 0 0 2 1 (- 10) 10 0x55 true false [0]) eq_refl)
              _ 0).
    vm_compute. reflexivity.
  - refine (proj1 (proj2 (proj2 (proj2 (proj2 (proj2
              (proj2 (X26_aics_init_validation aics_zeroed
                        (AicsInit.mk_init 0 0 2 1 (- 10) 10 (- 1) true false [0])
                        eq_refl) _ _ _)))))));
      vm_compute; discriminate.
Defined.

(** * The client kept in step by notifications *)

Lemma write_vcs_cb inst w :
  Vcs.cb (Vcs.out_inst (Vcs.write_vcs_control inst w)) = Vcs.cb inst.
Proof.
  unfold Vcs.write_vcs_control.
  destruct (negb (offset w =? 0)); [reflexivity|].
  destruct (len w =? 0); [reflexivity|].
  destruct (buf w) as [m|]; [|reflexivity].
  destruct (negb (Vcs.VALID_VCS_OPCODE (Vcs.cp_opcode m))); [reflexivity|].
  destruct (Vcs.bad_length (len w) m); [reflexivity|].
  destruct (negb (Vcs.cp_counter m =? Vcs.change_counter (Vcs.state inst)));
    [reflexivity|].
  destruct (Vcs.vcs_switch (Vcs.volume_step inst) (Vcs.state inst) m) as [r|];
    [|reflexivity].
  destruct (Vcs.commit_state inst r) as [inst1 evs1] eqn:Ecommit.
  destruct (vcs_commit_state _ _ _ _ Ecommit) as (_ & Hcb & _).
  destruct (vcs_latch_flags_state (len w) inst1 evs1 (Vcs.sw_volume_change r))
    as (_ & -> & _).
  exact Hcb.
Qed.

(** A Volume State notification of the write handler carries the state the
    handler has left. *)
Lemma vcs_notify_payload inst w payload :
  vcs_inst_ok inst ->
  In (Vcs.Notify Vcs.BT_UUID_VCS_STATE payload)
     (Vcs.out_events (Vcs.write_vcs_control inst w)) ->
  payload = Vcs.state_bytes (Vcs.state (Vcs.out_inst (Vcs.write_vcs_control inst w))).
Proof.
  intros Ok Hin.
  assert (Hf : In (Vcs.Notify Vcs.BT_UUID_VCS_STATE payload)
                  (filter is_state_notify
                     (Vcs.out_events (Vcs.write_vcs_control inst w)))).
  { apply filter_In. split; [exact Hin | reflexivity]. }
  clear Hin.
  destruct (vcs_guards_dec w) as [[m G] | N].
  - destruct (Z.eq_dec (Vcs.cp_counter m) (Vcs.change_counter (Vcs.state inst)))
      as [E | E].
    + destruct (vcs_commit inst w m G E Ok) as (A & B & _).
      set (o := Vcs.write_vcs_control inst w) in *.
      assert (D : vcs_fields (Vcs.state (Vcs.out_inst o)) = vcs_fields (Vcs.state inst)
                  \/ vcs_fields (Vcs.state (Vcs.out_inst o))
                     <> vcs_fields (Vcs.state inst)).
      { unfold vcs_fields.
        destruct (Z.eq_dec (Vcs.volume (Vcs.state (Vcs.out_inst o)))
                           (Vcs.volume (Vcs.state inst)));
          destruct (Z.eq_dec (Vcs.mute (Vcs.state (Vcs.out_inst o)))
                             (Vcs.mute (Vcs.state inst)));
          [left; congruence | right; congruence ..]. }
      destruct D as [D | D].
      * destruct (A D) as [_ A2]. rewrite A2 in Hf. contradiction.
      * destruct (B D) as [_ B2]. rewrite B2 in Hf.
        destruct Hf as [Hf | []]. congruence.
    + rewrite (write_vcs_control_guarded inst w m G) in Hf.
      destruct (negb (Vcs.cp_counter m =? Vcs.change_counter (Vcs.state inst)))
        eqn:Ec; [|exfalso; lia].
      contradiction.
  - destruct (write_vcs_control_unguarded inst w N) as (e & H & _).
    rewrite H in Hf. contradiction.
Qed.

(** X27 (vcs.c, write_vcs_control, with vcs_client.c, vcs_notify_handler
    and vcs_client_common_vcs_cp): a client that hears the notifications is
    not refused for its counter.  When the server's handler has sent a
    Volume State notification and the client's notification handler has
    taken it in on the state handle, the client's cached counter is the
    server's; the next write the idle client issues, for any valid opcode,
    carries that counter, and the server's handler, if its callbacks are
    sound, accepts it and returns its length. *)
Theorem X27_vcs_notification_keeps_client_in_step srv w payload g p c opcode :
  vcs_inst_ok srv ->
  0 <= Vcs.change_counter (Vcs.state srv) <= 255 ->
  vcs_cb_sound srv ->
  In (Vcs.Notify Vcs.BT_UUID_VCS_STATE payload)
     (Vcs.out_events (Vcs.write_vcs_control srv w)) ->
  VcsClient.control_handle (VcsClient.vcs_inst g) <> 0 ->
  VcsClient.busy (VcsClient.vcs_inst g) = false ->
  Vcs.VALID_VCS_OPCODE opcode = true ->
  let srv1 := Vcs.out_inst (Vcs.write_vcs_control srv w) in
  let g1 := fst (fst (VcsClientNotify.vcs_notify_handler g p
                        (VcsClient.state_handle (VcsClient.vcs_inst g))
                        (Some (mem_of payload)) (Z.of_nat (length payload)))) in
  Vcs.change_counter (VcsClient.state (VcsClient.vcs_inst g1))
  = Vcs.change_counter (Vcs.state srv1)
  /\ exists data g2,
       VcsClient.vcs_client_common_vcs_cp g1 (Some c) opcode 0
       = (0, g2, [GattWrite (VcsClient.control_handle (VcsClient.vcs_inst g)) data 0])
       /\ Vcs.out_ret (Vcs.write_vcs_control srv1 (write_of data 0)) = Some 2.
Proof.
  intros Ok Hc S Hin Hh Hb Hv. cbv zeta.
  pose proof (vcs_notify_payload srv w payload Ok Hin) as Hp.
  destruct (apply_op_counter srv (OpWrite w) Ok Hc) as [_ R].
  cbn [apply_op] in R.
  set (srv1 := Vcs.out_inst (Vcs.write_vcs_control srv w)) in *.
  assert (S1 : vcs_cb_sound srv1).
  { unfold vcs_cb_sound, srv1. rewrite write_vcs_cb. exact S. }
  subst payload. unfold VcsClientNotify.vcs_notify_handler.
  rewrite Z.eqb_refl. cbn [Vcs.state_bytes length Z.of_nat Pos.of_succ_nat Pos.succ].
  change (3 =? VcsClient.sizeof_vcs_state) with true. cbv iota. cbn [fst].
  set (s := {| Vcs.volume := _; Vcs.mute := _; Vcs.change_counter := _ |}).
  assert (Hs : Vcs.change_counter s = Vcs.change_counter (Vcs.state srv1)).
  { unfold s, rd8, mem_of. cbn [Vcs.change_counter nth]. apply uint8_small, R. }
  split; [exact Hs|].
  unfold VcsClient.vcs_client_common_vcs_cp.
  cbn [VcsClient.vcs_inst VcsClient.with_inst VcsClient.with_state
       VcsClient.control_handle VcsClient.busy VcsClient.state
       VcsClient.with_busy VcsClient.with_write_buf VcsClient.wb0 VcsClient.wb1].
  rewrite Hb.
  destruct (VcsClient.control_handle (VcsClient.vcs_inst g) =? 0) eqn:E0;
    [exfalso; lia|].
  eexists. eexists. split; [reflexivity|].
  rewrite Hs.
  assert (Hop : 0 <= opcode <= 6).
  { unfold Vcs.VALID_VCS_OPCODE, Vcs.VCS_OPCODE_REL_VOL_DOWN, Vcs.VCS_OPCODE_MUTE in Hv.
    lia. }
  set (data := [uint8 opcode; Vcs.change_counter (Vcs.state srv1)]).
  assert (G : vcs_guards (write_of data 0) (mem_of data)
              /\ Vcs.cp_counter (mem_of data) = Vcs.change_counter (Vcs.state srv1)).
  { unfold data, vcs_guards, write_of, Vcs.VALID_VCS_OPCODE, Vcs.bad_length,
      Vcs.cp_opcode, Vcs.cp_counter, rd8, mem_of,
      Vcs.VCS_OPCODE_REL_VOL_DOWN, Vcs.VCS_OPCODE_MUTE, Vcs.VCS_CP_LEN,
      Vcs.VCS_CP_ABS_VOL_LEN, Vcs.VCS_OPCODE_SET_ABS_VOL.
    cbn [offset len buf length nth].
    rewrite (uint8_small (Vcs.change_counter (Vcs.state srv1))) by lia.
    rewrite (uint8_small (uint8 opcode)) by (rewrite uint8_small; lia).
    rewrite (uint8_small opcode) by lia.
    repeat split; try reflexivity; try lia; try discriminate. }
  destruct G as (G & C).
  rewrite (vcs_write_ret srv1 (write_of data 0) (mem_of data) G C S1).
  reflexivity.
Qed.

Lemma X27_vcs_notification_keeps_client_in_step_witness :
  Vcs.change_counter
    (VcsClient.state
       (VcsClient.vcs_inst
          (fst (fst (VcsClientNotify.vcs_notify_handler vcs_client_g0
                       (VcsClientNotify.mk_part 0x08 0 None None) 0x03
                       (Some (mem_of [101; 0; 1])) 3)))))
  = 1
  /\ exists data g2,
       VcsClient.vcs_client_common_vcs_cp
         (fst (fst (VcsClientNotify.vcs_notify_handler vcs_client_g0
                      (VcsClientNotify.mk_part 0x08 0 None None) 0x03
                      (Some (mem_of [101; 0; 1])) 3)))
         (Some 1%nat) Vcs.VCS_OPCODE_MUTE 0
       = (0, g2, [GattWrite 0x06 data 0])
       /\ Vcs.out_ret
            (Vcs.write_vcs_control
               (Vcs.out_inst (Vcs.write_vcs_control Vcs.vcs_inst (write_of [0x01; 0] 0)))
               (write_of data 0))
          = Some 2.
Proof.
  refine (X27_vcs_notification_keeps_client_in_step Vcs.vcs_inst
            (write_of [0x01; 0] 0) [101; 0; 1] vcs_client_g0
            (VcsClientNotify.mk_part 0x08 0 None None) 1%nat Vcs.VCS_OPCODE_MUTE
            _ _ _ _ _ eq_refl eq_refl).
  - unfold vcs_inst_ok. cbn. lia.
  - cbn. lia.
  - intros cb H. discriminate H.
  - left. reflexivity.
  - discriminate.
Defined.
